(** * Order / inventory transactional core: a shallow embedding

    The Python sources modelled here are
    - [src/domain/entities/inventory.py]   (InventoryItem, StockMovement),
    - [src/domain/entities/order.py]       (OrderStatus, OrderItem, Order),
    - [src/infrastructure/database/models.py] (the column types),
    - [src/infrastructure/repositories/*]  (get_by_id, add, update,
      generate_order_number, add_stock_movement, get_low_stock_items),
    - [src/application/services/order_service.py] (OrderService),
    - [src/presentation/routes/inventory.py] (adjust_stock, receive_stock).

    Python objects are mutable and a raised exception does not undo the
    assignments made before it, so every method is a function from the
    receiver's state to a result (a value or the raised error) together with
    the state the receiver is left in. *)

From Stdlib Require Import ZArith NArith String Ascii List Lia Bool.
From Stdlib Require Import QArith Qcanon Qround Qabs.
From stdpp Require Import base option gmap strings list fin_maps.

Local Open Scope Z_scope.

(** ** Errors and the method monad *)

(** Every failure raised by the domain and service code is a Python
    [ValueError]; the kinds below are told apart by the message the code
    raises. The last three come from SQLAlchemy and are no [ValueError]. *)
Inductive Error : Type :=
| InvalidQuantity      (* "Quantity must be positive" *)
| InsufficientStock    (* "Insufficient stock. ..." / "Insufficient stock for ..." *)
| NegativeStock        (* "Adjustment would result in negative stock: ..." *)
| InvalidTransition    (* "Cannot submit/confirm/cancel/ship/deliver order in ... status" *)
| EmptyOrder           (* "Cannot submit empty order" / "Cannot confirm empty order" *)
| NotModifiable        (* "Cannot add items to / remove items from order in ... status" *)
| ItemNotFound         (* "Item ... not found in order" *)
| NotFound             (* "Order ... not found" / "Product ... not found" *)
| ValidationError      (* pydantic field constraint violated at construction *)
| IntegrityError       (* the database refuses a duplicate key on flush *)
| DatabaseError        (* the database refuses a value on flush *)
| MissingGreenlet.     (* a lazy relationship read on an AsyncSession *)

(** [except ValueError] and the application's [ValueError] handler catch
    the errors of the domain and of pydantic, not those of SQLAlchemy. *)
Definition is_ValueError (e : Error) : bool :=
  match e with
  | IntegrityError | DatabaseError | MissingGreenlet => false
  | _ => true
  end.

Inductive result (A : Type) : Type :=
| Ok (a : A)
| Raise (e : Error).
Arguments Ok {A} a.
Arguments Raise {A} e.

Definition is_ok {A} (r : result A) : bool :=
  match r with Ok _ => true | Raise _ => false end.

(** A method on a receiver of type [S] returning an [A]. *)
Definition Meth (S A : Type) : Type := S -> result A * S.

Definition ret {S A} (a : A) : Meth S A := fun s => (Ok a, s).
Definition raise {S A} (e : Error) : Meth S A := fun s => (Raise e, s).
Definition bind {S A B} (m : Meth S A) (k : A -> Meth S B) : Meth S B :=
  fun s => match m s with
           | (Ok a, s') => k a s'
           | (Raise e, s') => (Raise e, s')
           end.
Definition get {S} : Meth S S := fun s => (Ok s, s).
Definition put {S} (s' : S) : Meth S unit := fun _ => (Ok tt, s').
Definition modify {S} (f : S -> S) : Meth S unit := fun s => (Ok tt, f s).
(** [if c: raise e] *)
Definition raise_if {S} (c : bool) (e : Error) : Meth S unit :=
  if c then raise e else ret tt.
(** A constructor call or pure computation that may raise. *)
Definition lift {S A} (r : result A) : Meth S A := fun s => (r, s).

Declare Scope meth_scope.
Delimit Scope meth_scope with meth.
Notation "x <- m ;; k" := (bind m (fun x => k))
  (at level 100, m at next level, right associativity) : meth_scope.
Notation "m ;; k" := (bind m (fun _ => k))
  (at level 100, right associativity) : meth_scope.
Local Open Scope meth_scope.

(** [for x in xs: body x] *)
Fixpoint for_each {S A} (xs : list A) (body : A -> Meth S unit) : Meth S unit :=
  match xs with
  | [] => ret tt
  | x :: xs' => body x ;; for_each xs' body
  end.

(** Call a method on a local object [obj] from code whose own state is [S]:
    the value and the mutated object come back; an exception propagates and
    the local object is lost with the frame. *)
Definition call {S E A} (obj : E) (m : Meth E A) : Meth S (A * E) :=
  fun s => match m obj with
           | (Ok a, obj') => (Ok (a, obj'), s)
           | (Raise e, _) => (Raise e, s)
           end.

(** ** Primitive data *)

(** UUIDs are kept in their canonical text form, which is also how the
    database models store them ([str(entity.id)]). *)
Definition UUID : Type := string.

(** [datetime]: the calendar date and the time within the day. *)
Record datetime : Type := mk_datetime {
  dt_year : N; dt_month : N; dt_day : N; dt_seconds : N
}.

(** [decimal.Decimal] is used through this interface only, so that nothing
    proved below depends on how the arithmetic rounds. *)
Class DecimalOps (D : Type) : Type := {
  dec_of_int : Z -> D;
  dec_add : D -> D -> D;
  dec_sub : D -> D -> D;
  dec_mul : D -> D -> D;
  dec_div : D -> D -> D;
  dec_leb : D -> D -> bool;
  (** [bool(d)] is false exactly for a zero *)
  dec_is_zero : D -> bool
}.

(** Exact rational arithmetic, used only to run the code on the concrete
    inputs of this file. [decimal.Decimal] rounds to 28 significant digits;
    on these inputs every sum, product and division by 100 has a short
    exact decimal expansion, so the two agree. No general statement is made
    through this instance. *)
#[export] Instance Qc_DecimalOps : DecimalOps Qc := {|
  dec_of_int := fun z => Q2Qc (inject_Z z);
  dec_add := Qcplus;
  dec_sub := Qcminus;
  dec_mul := Qcmult;
  dec_div := Qcdiv;
  dec_leb := fun a b => Qle_bool (this a) (this b);
  dec_is_zero := fun a => Qeq_bool (this a) 0%Q
|}.

(** [sum(f(x) for x in xs)]: Python's [sum] starts from the int [0] and adds
    from the left. *)
Definition py_sum {D} `{DecimalOps D} {A} (f : A -> D) (xs : list A) : D :=
  fold_left (fun acc x => dec_add acc (f x)) xs (dec_of_int 0).

Definition py_sum_int {A} (f : A -> Z) (xs : list A) : Z :=
  fold_left (fun acc x => acc + f x) xs 0.

(** The database behind the session, as far as the column types of
    [models.py] show through. It is a parameter: SQLite keeps any text and
    any 64-bit integer and rounds a [Numeric] when it is read back,
    PostgreSQL refuses a text, an integer or a number beyond the declared
    size. *)
Class Database (D : Type) : Type := {
  (** [Numeric(precision, scale)]: the value the column gives back after
      the flush, or [None] when the flush fails on the value *)
  db_numeric : nat -> nat -> D -> option D;
  (** [Integer]: whether the flush takes the value *)
  db_integer : Z -> bool;
  (** [String(length)]: whether the flush takes the text *)
  db_string : nat -> string -> bool
}.

(** A database in the manner of PostgreSQL, used to run the code on concrete
    inputs: a [Numeric] is rounded to its scale (half away from zero; a
    value with no more decimals than the scale is kept) and refused beyond
    its precision, an [Integer] has 32 bits, a [String] its length. *)
Definition round_numeric (precision scale : nat) (q : Qc) : option Qc :=
  let one := (10 ^ Z.of_nat scale)%Z in
  let n := (Z.sgn (Qnum (this q)) *
            Qfloor (Qabs (this q) * inject_Z one + (1 # 2))%Q)%Z in
  if (Z.abs n <? 10 ^ Z.of_nat precision)%Z
  then Some (if Qeq_bool (this q) (Qmake n (Z.to_pos one)) then q
             else Q2Qc (Qmake n (Z.to_pos one)))
  else None.

#[export] Instance Qc_Database : Database Qc := {|
  db_numeric := round_numeric;
  db_integer := fun z => (- 2 ^ 31 <=? z) && (z <? 2 ^ 31);
  db_string := fun n s => Nat.leb (String.length s) n
|}.

(** ** inventory.py *)

Inductive StockMovementType : Type :=
| PURCHASE | SALE | ADJUSTMENT | TRANSFER | RETURN | DAMAGE | EXPIRED.

Module StockMovement.
(** The fields filled by [uuid4()] and [utcnow()] defaults and the ones no
    modelled code sets ([id], [notes], [created_by], [created_at]) are
    left out. *)
Record t : Type := mk {
  inventory_item_id : UUID;
  movement_type : StockMovementType;
  quantity : Z;
  quantity_after : Z;
  reference : option string
}.

(** The constructor: [quantity_after] is declared [ge=0]. *)
Definition new (item : UUID) (ty : StockMovementType) (q : Z)
    (ref : option string) (after : Z) : result t :=
  if after <? 0 then Raise ValidationError
  else Ok (mk item ty q after ref).
End StockMovement.

Module InventoryItem.
Section WithDecimal.
Context {D : Type} `{DecimalOps D}.

Record t : Type := mk {
  id : UUID;
  organization_id : UUID;
  sku : string;
  name : string;
  cost_price : D;
  selling_price : D;
  quantity_on_hand : Z;
  quantity_reserved : Z;
  quantity_on_order : Z;
  reorder_point : Z;
  reorder_quantity : Z;
  is_active : bool;
  is_trackable : bool;
  updated_at : datetime
}.

Definition set_quantity_on_hand (v : Z) (s : t) : t :=
  mk (id s) (organization_id s) (sku s) (name s) (cost_price s)
     (selling_price s) v (quantity_reserved s) (quantity_on_order s)
     (reorder_point s) (reorder_quantity s) (is_active s) (is_trackable s)
     (updated_at s).
Definition set_quantity_reserved (v : Z) (s : t) : t :=
  mk (id s) (organization_id s) (sku s) (name s) (cost_price s)
     (selling_price s) (quantity_on_hand s) v (quantity_on_order s)
     (reorder_point s) (reorder_quantity s) (is_active s) (is_trackable s)
     (updated_at s).
Definition set_updated_at (v : datetime) (s : t) : t :=
  mk (id s) (organization_id s) (sku s) (name s) (cost_price s)
     (selling_price s) (quantity_on_hand s) (quantity_reserved s)
     (quantity_on_order s) (reorder_point s) (reorder_quantity s)
     (is_active s) (is_trackable s) v.

(** The [Field(..., ge=0)] constraints checked when an item is built. *)
Definition valid (s : t) : Prop :=
  dec_leb (dec_of_int 0) (cost_price s) = true /\
  dec_leb (dec_of_int 0) (selling_price s) = true /\
  0 <= quantity_on_hand s /\ 0 <= quantity_reserved s /\
  0 <= quantity_on_order s /\ 0 <= reorder_point s /\
  0 <= reorder_quantity s.

Definition quantity_available (s : t) : Z :=
  Z.max 0 (quantity_on_hand s - quantity_reserved s).

Definition needs_reorder (s : t) : bool :=
  quantity_available s <=? reorder_point s.

Definition receive_stock (now : datetime) (quantity : Z)
    (reference : option string) : Meth t StockMovement.t :=
  raise_if (quantity <=? 0) InvalidQuantity ;;
  modify (fun self => set_quantity_on_hand (quantity_on_hand self + quantity) self) ;;
  modify (set_updated_at now) ;;
  self <- get ;;
  lift (StockMovement.new (id self) PURCHASE quantity reference
          (quantity_on_hand self)).

Definition reserve_stock (now : datetime) (quantity : Z)
    (order_id : option UUID) : Meth t unit :=
  raise_if (quantity <=? 0) InvalidQuantity ;;
  self <- get ;;
  raise_if (quantity_available self <? quantity) InsufficientStock ;;
  modify (fun self => set_quantity_reserved (quantity_reserved self + quantity) self) ;;
  modify (set_updated_at now).

Definition release_reservation (now : datetime) (quantity : Z) : Meth t unit :=
  raise_if (quantity <=? 0) InvalidQuantity ;;
  modify (fun self =>
    set_quantity_reserved (Z.max 0 (quantity_reserved self - quantity)) self) ;;
  modify (set_updated_at now).

Definition sell_stock (now : datetime) (quantity : Z)
    (order_id : option UUID) : Meth t StockMovement.t :=
  raise_if (quantity <=? 0) InvalidQuantity ;;
  self <- get ;;
  raise_if (quantity_on_hand self <? quantity) InsufficientStock ;;
  modify (fun self => set_quantity_on_hand (quantity_on_hand self - quantity) self) ;;
  modify (fun self =>
    if 0 <? quantity_reserved self
    then set_quantity_reserved (Z.max 0 (quantity_reserved self - quantity)) self
    else self) ;;
  modify (set_updated_at now) ;;
  self <- get ;;
  lift (StockMovement.new (id self) SALE (- quantity) order_id
          (quantity_on_hand self)).

Definition adjust_stock (now : datetime) (quantity : Z) (reason : string)
    (movement_type : StockMovementType) : Meth t StockMovement.t :=
  self <- get ;;
  let new_quantity := quantity_on_hand self + quantity in
  raise_if (new_quantity <? 0) NegativeStock ;;
  modify (set_quantity_on_hand new_quantity) ;;
  modify (set_updated_at now) ;;
  self <- get ;;
  lift (StockMovement.new (id self) movement_type quantity (Some reason)
          (quantity_on_hand self)).
End WithDecimal.
Arguments t D : clear implicits.
End InventoryItem.

(** ** Strings: decimal formatting and [str.strip] *)

Definition digit_char (d : N) : ascii := ascii_of_N (48 + d).

Fixpoint digits_go (fuel : nat) (n : N) (acc : string) : string :=
  match fuel with
  | O => acc
  | S f =>
      let acc' := String (digit_char (n mod 10)) acc in
      if (n / 10 =? 0)%N then acc' else digits_go f (n / 10) acc'
  end.

(** [str(n)] for a non-negative int; a number has no more decimal digits
    than bits. *)
Definition str_of_N (n : N) : string := digits_go (S (N.size_nat n)) n "".

Fixpoint zeros (k : nat) : string :=
  match k with O => EmptyString | S k' => String "0" (zeros k') end.

(** The format spec [0{w}d] on a non-negative int: pad on the left with
    zeros up to width [w], never truncate. *)
Definition zero_pad (w : nat) (n : N) : string :=
  let s := str_of_N n in
  (zeros (w - String.length s) ++ s)%string.

(** [int(s)] on a string of decimal digits. *)
Fixpoint int_of_digits (v : N) (s : string) : N :=
  match s with
  | EmptyString => v
  | String c s' => int_of_digits (10 * v + (N_of_ascii c - 48))%N s'
  end.

(** [strftime("%Y%m%d")] *)
Definition strftime_Ymd (d : datetime) : string :=
  (zero_pad 4 (dt_year d) ++ zero_pad 2 (dt_month d) ++ zero_pad 2 (dt_day d))%string.

(** The bounds [datetime] enforces on the calendar fields. *)
Definition valid_date (d : datetime) : Prop :=
  (1 <= dt_year d <= 9999 /\ 1 <= dt_month d <= 12 /\ 1 <= dt_day d <= 31)%N.

(** [str.isspace] on the ASCII range. *)
Definition is_space (c : ascii) : bool :=
  let n := N_of_ascii c in
  ((9 <=? n) && (n <=? 13) || (28 <=? n) && (n <=? 32))%N.

Fixpoint lstrip (s : string) : string :=
  match s with
  | EmptyString => EmptyString
  | String c s' => if is_space c then lstrip s' else s
  end.

Fixpoint rstrip (s : string) : string :=
  match s with
  | EmptyString => EmptyString
  | String c s' =>
      match rstrip s' with
      | EmptyString => if is_space c then EmptyString else String c EmptyString
      | r => String c r
      end
  end.

Definition strip (s : string) : string := rstrip (lstrip s).

Definition newline : string := String (ascii_of_N 10) EmptyString.

(** [x or y] on an optional string, and the truth value of one. *)
Definition str_or (x : option string) (y : string) : string :=
  match x with
  | Some (String c s) => String c s
  | _ => y
  end.
Definition str_truthy (x : option string) : bool :=
  match x with
  | Some (String _ _) => true
  | _ => false
  end.

(** ** order.py *)

Inductive OrderStatus : Type :=
| DRAFT | PENDING | CONFIRMED | PROCESSING | SHIPPED | DELIVERED
| CANCELLED | REFUNDED.

#[export] Instance OrderStatus_eq_dec : EqDecision OrderStatus.
Proof. solve_decision. Defined.

Definition can_modify (s : OrderStatus) : bool :=
  match s with
  | DRAFT | PENDING => true
  | _ => false
  end.

Definition can_cancel (s : OrderStatus) : bool :=
  match s with
  | DRAFT | PENDING | CONFIRMED | PROCESSING => true
  | _ => false
  end.

Module OrderItem.
Section WithDecimal.
Context {D : Type} `{DecimalOps D}.

Record t : Type := mk {
  id : UUID;
  product_id : UUID;
  product_name : string;
  sku : string;
  quantity : Z;
  unit_price : D;
  discount_percent : D;
  tax_percent : D;
  notes : option string
}.

(** The field constraints: [quantity ge=1], [unit_price ge=0],
    [discount_percent ge=0 le=100], [tax_percent ge=0]. *)
Definition constraints_ok (quantity : Z) (unit_price discount_percent tax_percent : D)
    : bool :=
  (1 <=? quantity) &&
  dec_leb (dec_of_int 0) unit_price &&
  dec_leb (dec_of_int 0) discount_percent &&
  dec_leb discount_percent (dec_of_int 100) &&
  dec_leb (dec_of_int 0) tax_percent.

Definition valid (i : t) : Prop :=
  constraints_ok (quantity i) (unit_price i) (discount_percent i) (tax_percent i) = true.

(** The constructor, with pydantic's validation. *)
Definition new (id product_id : UUID) (product_name sku : string) (quantity : Z)
    (unit_price discount_percent tax_percent : D) (notes : option string)
    : result t :=
  if constraints_ok quantity unit_price discount_percent tax_percent
  then Ok (mk id product_id product_name sku quantity unit_price
              discount_percent tax_percent notes)
  else Raise ValidationError.

Definition subtotal (self : t) : D :=
  dec_mul (unit_price self) (dec_of_int (quantity self)).

Definition discount_amount (self : t) : D :=
  dec_mul (subtotal self) (dec_div (discount_percent self) (dec_of_int 100)).

Definition taxable_amount (self : t) : D :=
  dec_sub (subtotal self) (discount_amount self).

Definition tax_amount (self : t) : D :=
  dec_mul (taxable_amount self) (dec_div (tax_percent self) (dec_of_int 100)).

Definition total (self : t) : D :=
  dec_add (taxable_amount self) (tax_amount self).
End WithDecimal.
Arguments t D : clear implicits.
End OrderItem.

Module Order.
Section WithDecimal.
Context {D : Type} `{DecimalOps D}.

(** Customer and address fields other than the name and e-mail, the
    currency, [customer_notes] and [created_at] are never read or written by
    the methods below and are left out. *)
Record t : Type := mk {
  id : UUID;
  order_number : string;
  organization_id : UUID;
  customer_name : string;
  customer_email : option string;
  items : list (OrderItem.t D);
  status : OrderStatus;
  shipping_cost : D;
  handling_fee : D;
  internal_notes : option string;
  created_by : option UUID;
  updated_at : datetime;
  confirmed_at : option datetime;
  shipped_at : option datetime;
  delivered_at : option datetime
}.

Definition set_items (v : list (OrderItem.t D)) (s : t) : t :=
  mk (id s) (order_number s) (organization_id s) (customer_name s)
     (customer_email s) v (status s) (shipping_cost s) (handling_fee s)
     (internal_notes s) (created_by s) (updated_at s) (confirmed_at s)
     (shipped_at s) (delivered_at s).
Definition set_status (v : OrderStatus) (s : t) : t :=
  mk (id s) (order_number s) (organization_id s) (customer_name s)
     (customer_email s) (items s) v (shipping_cost s) (handling_fee s)
     (internal_notes s) (created_by s) (updated_at s) (confirmed_at s)
     (shipped_at s) (delivered_at s).
Definition set_internal_notes (v : option string) (s : t) : t :=
  mk (id s) (order_number s) (organization_id s) (customer_name s)
     (customer_email s) (items s) (status s) (shipping_cost s) (handling_fee s)
     v (created_by s) (updated_at s) (confirmed_at s)
     (shipped_at s) (delivered_at s).
Definition set_updated_at (v : datetime) (s : t) : t :=
  mk (id s) (order_number s) (organization_id s) (customer_name s)
     (customer_email s) (items s) (status s) (shipping_cost s) (handling_fee s)
     (internal_notes s) (created_by s) v (confirmed_at s)
     (shipped_at s) (delivered_at s).
Definition set_confirmed_at (v : option datetime) (s : t) : t :=
  mk (id s) (order_number s) (organization_id s) (customer_name s)
     (customer_email s) (items s) (status s) (shipping_cost s) (handling_fee s)
     (internal_notes s) (created_by s) (updated_at s) v
     (shipped_at s) (delivered_at s).
Definition set_shipped_at (v : option datetime) (s : t) : t :=
  mk (id s) (order_number s) (organization_id s) (customer_name s)
     (customer_email s) (items s) (status s) (shipping_cost s) (handling_fee s)
     (internal_notes s) (created_by s) (updated_at s) (confirmed_at s)
     v (delivered_at s).
Definition set_delivered_at (v : option datetime) (s : t) : t :=
  mk (id s) (order_number s) (organization_id s) (customer_name s)
     (customer_email s) (items s) (status s) (shipping_cost s) (handling_fee s)
     (internal_notes s) (created_by s) (updated_at s) (confirmed_at s)
     (shipped_at s) v.

(** *** Computed fields: read-only properties of the current state *)

Definition subtotal (self : t) : D := py_sum OrderItem.subtotal (items self).
Definition total_discount (self : t) : D :=
  py_sum OrderItem.discount_amount (items self).
Definition total_tax (self : t) : D := py_sum OrderItem.tax_amount (items self).
Definition grand_total (self : t) : D :=
  let items_total := py_sum OrderItem.total (items self) in
  dec_add (dec_add items_total (shipping_cost self)) (handling_fee self).
Definition item_count (self : t) : Z := py_sum_int OrderItem.quantity (items self).

(** A property read seen as a method call: it returns the value and leaves
    the receiver as it was. *)
Definition read {A} (prop : t -> A) : Meth t A := self <- get ;; ret (prop self).

(** *** Mutating methods *)

Definition add_item (now : datetime) (item : OrderItem.t D) : Meth t unit :=
  self <- get ;;
  raise_if (negb (can_modify (status self))) NotModifiable ;;
  modify (fun self => set_items (items self ++ [item]) self) ;;
  modify (set_updated_at now).

Definition remove_item (now : datetime) (item_id : UUID) : Meth t unit :=
  self <- get ;;
  raise_if (negb (can_modify (status self))) NotModifiable ;;
  let original_count := length (items self) in
  modify (set_items
    (filter (fun item => OrderItem.id item <> item_id) (items self))) ;;
  self <- get ;;
  raise_if (length (items self) =? original_count)%nat ItemNotFound ;;
  modify (set_updated_at now).

Definition is_empty (l : list (OrderItem.t D)) : bool :=
  match l with [] => true | _ => false end.

Definition confirm (now : datetime) : Meth t unit :=
  self <- get ;;
  raise_if (negb (bool_decide (status self = PENDING))) InvalidTransition ;;
  raise_if (is_empty (items self)) EmptyOrder ;;
  modify (set_status CONFIRMED) ;;
  modify (set_confirmed_at (Some now)) ;;
  modify (set_updated_at now).

Definition submit (now : datetime) : Meth t unit :=
  self <- get ;;
  raise_if (negb (bool_decide (status self = DRAFT))) InvalidTransition ;;
  raise_if (is_empty (items self)) EmptyOrder ;;
  modify (set_status PENDING) ;;
  modify (set_updated_at now).

(** [f"{self.internal_notes or ''}\n{label}{text}".strip()] *)
Definition append_note (label text : string) (self : t) : t :=
  set_internal_notes
    (Some (strip (str_or (internal_notes self) "" ++ newline ++ label ++ text)))
    self.

Definition cancel (now : datetime) (reason : option string) : Meth t unit :=
  self <- get ;;
  raise_if (negb (can_cancel (status self))) InvalidTransition ;;
  modify (set_status CANCELLED) ;;
  (if str_truthy reason
   then modify (append_note "Cancelled: " (str_or reason ""))
   else ret tt) ;;
  modify (set_updated_at now).

Definition ship (now : datetime) (tracking_number : option string) : Meth t unit :=
  self <- get ;;
  raise_if (negb (bool_decide (status self = CONFIRMED)
                  || bool_decide (status self = PROCESSING))) InvalidTransition ;;
  modify (set_status SHIPPED) ;;
  modify (set_shipped_at (Some now)) ;;
  (if str_truthy tracking_number
   then modify (append_note "Tracking: " (str_or tracking_number ""))
   else ret tt) ;;
  modify (set_updated_at now).

Definition deliver (now : datetime) : Meth t unit :=
  self <- get ;;
  raise_if (negb (bool_decide (status self = SHIPPED))) InvalidTransition ;;
  modify (set_status DELIVERED) ;;
  modify (set_delivered_at (Some now)) ;;
  modify (set_updated_at now).
End WithDecimal.
Arguments t D : clear implicits.
End Order.

(** ** Repositories over one database session *)

Section Persistence.
Context {D : Type} `{DecimalOps D} `{Database D}.

(** What the session holds after a flush: the [orders] table (with its
    [order_items] children inside each order), the [inventory_items] table,
    both keyed by primary key, and the append-only [stock_movements] table.
    A row is written as a value of the entity's type; [_to_entity] reads it
    back field by field. A flush that fails writes nothing. It also ends
    the transaction of the session, which undoes the earlier flushes of
    that transaction; this is followed where the session belongs to one
    request (the stock routes), and otherwise the tables are kept as the
    earlier flushes left them. *)
Record Session : Type := mk_Session {
  orders : gmap UUID (Order.t D);
  inventory_items : gmap UUID (InventoryItem.t D);
  stock_movements : list StockMovement.t
}.

Definition set_orders (v : gmap UUID (Order.t D)) (s : Session) : Session :=
  mk_Session v (inventory_items s) (stock_movements s).
Definition set_inventory_items (v : gmap UUID (InventoryItem.t D)) (s : Session)
    : Session :=
  mk_Session (orders s) v (stock_movements s).
Definition set_stock_movements (v : list StockMovement.t) (s : Session) : Session :=
  mk_Session (orders s) (inventory_items s) v.

(** [OrderItemModel]: [product_name String(255)], [sku String(100)],
    [quantity Integer], [unit_price Numeric(10, 2)], [discount_percent] and
    [tax_percent Numeric(5, 2)], [notes Text]. The row of a line as the
    table keeps it, or [None] when the flush fails. *)
Definition order_item_row (item : OrderItem.t D) : option (OrderItem.t D) :=
  if db_string 255 (OrderItem.product_name item) &&
     db_string 100 (OrderItem.sku item) &&
     db_integer (OrderItem.quantity item)
  then
    unit_price ← db_numeric 10 2 (OrderItem.unit_price item);
    discount_percent ← db_numeric 5 2 (OrderItem.discount_percent item);
    tax_percent ← db_numeric 5 2 (OrderItem.tax_percent item);
    Some (OrderItem.mk (OrderItem.id item) (OrderItem.product_id item)
            (OrderItem.product_name item) (OrderItem.sku item)
            (OrderItem.quantity item) unit_price discount_percent tax_percent
            (OrderItem.notes item))
  else None.

(** [OrderModel]: [order_number String(50)], [customer_name] and
    [customer_email String(255)], [shipping_cost] and [handling_fee
    Numeric(10, 2)], [internal_notes Text], with the [items] relationship. *)
Definition order_row (entity : Order.t D) : option (Order.t D) :=
  if db_string 50 (Order.order_number entity) &&
     db_string 255 (Order.customer_name entity) &&
     from_option (db_string 255) true (Order.customer_email entity)
  then
    items ← mapM order_item_row (Order.items entity);
    shipping_cost ← db_numeric 10 2 (Order.shipping_cost entity);
    handling_fee ← db_numeric 10 2 (Order.handling_fee entity);
    Some (Order.mk (Order.id entity) (Order.order_number entity)
            (Order.organization_id entity) (Order.customer_name entity)
            (Order.customer_email entity) items (Order.status entity)
            shipping_cost handling_fee (Order.internal_notes entity)
            (Order.created_by entity) (Order.updated_at entity)
            (Order.confirmed_at entity) (Order.shipped_at entity)
            (Order.delivered_at entity))
  else None.

(** [StockMovementModel]: [quantity] and [quantity_after Integer],
    [reference String(255)]. *)
Definition stock_movement_fits (movement : StockMovement.t) : bool :=
  db_integer (StockMovement.quantity movement) &&
  db_integer (StockMovement.quantity_after movement) &&
  from_option (db_string 255) true (StockMovement.reference movement).
End Persistence.
Arguments Session D : clear implicits.

Module OrderRepository.
Section WithDecimal.
Context {D : Type} `{DecimalOps D} `{Database D}.

Definition get_by_id (id : UUID) : Meth (Session D) (option (Order.t D)) :=
  s <- get ;; ret (orders s !! id).

(** [order_number] is declared [unique=True]. *)
Definition order_number_taken (n : string) (m : gmap UUID (Order.t D)) : bool :=
  bool_decide (map_Exists (fun _ o => Order.order_number o = n) m).

(** [BaseRepository.add]: [session.add] and [flush] insert the row; the
    flush fails on a value a column refuses and on a primary key or an order
    number that is already there. After [refresh], [_to_entity(model)] reads
    [model.items], a lazy relationship that the refresh has expired; on an
    [AsyncSession] that read raises, so the method does not return. *)
Definition add (entity : Order.t D) : Meth (Session D) (Order.t D) :=
  s <- get ;;
  match order_row entity with
  | None => raise DatabaseError
  | Some row =>
    raise_if (bool_decide (is_Some (orders s !! Order.id entity))) IntegrityError ;;
    raise_if (order_number_taken (Order.order_number entity) (orders s))
             IntegrityError ;;
    modify (set_orders (<[Order.id entity := row]> (orders s))) ;;
    raise MissingGreenlet
  end.

(** [BaseRepository.update]: [session.merge] and [flush] write the row with
    the entity's primary key, its lines replacing the stored ones; then
    [refresh] and [_to_entity(merged)] as in [add]. The service never
    changes an order number, so the unique constraint plays no part. *)
Definition update (entity : Order.t D) : Meth (Session D) (Order.t D) :=
  match order_row entity with
  | None => raise DatabaseError
  | Some row =>
    modify (fun s => set_orders (<[Order.id entity := row]> (orders s)) s) ;;
    raise MissingGreenlet
  end.

(** The number of rows of [orders] whose [organization_id] is the given one. *)
Definition count_orders (organization_id : UUID) (m : gmap UUID (Order.t D)) : nat :=
  size (filter (fun kv => Order.organization_id (snd kv) = organization_id) m).

Definition generate_order_number (now : datetime) (organization_id : UUID)
    : Meth (Session D) string :=
  s <- get ;;
  let count := N.of_nat (count_orders organization_id (orders s)) in
  let date_str := strftime_Ymd now in
  ret ("ORD-" ++ date_str ++ "-" ++ zero_pad 5 (count + 1))%string.
End WithDecimal.
End OrderRepository.

Module InventoryRepository.
Section WithDecimal.
Context {D : Type} `{DecimalOps D}.

Definition get_by_id (id : UUID) : Meth (Session D) (option (InventoryItem.t D)) :=
  s <- get ;; ret (inventory_items s !! id).

(** [BaseRepository.update] for an item: the stock operations change the
    counters and [updated_at] only, and [merge] writes the columns that
    changed. [InventoryRepository._to_entity] reads no relationship, so the
    method returns. The counters the service writes lie between 0 and the
    stored stock; the stock routes, which write a number chosen by the
    caller, check it against the column themselves (see [InventoryRoutes]). *)
Definition update (entity : InventoryItem.t D)
    : Meth (Session D) (InventoryItem.t D) :=
  modify (fun s =>
    set_inventory_items (<[InventoryItem.id entity := entity]> (inventory_items s)) s) ;;
  ret entity.

(** [session.add] and [flush] append the row; the movement is returned as
    it is, without a reload. *)
Definition add_stock_movement (movement : StockMovement.t)
    : Meth (Session D) StockMovement.t :=
  modify (fun s => set_stock_movements (stock_movements s ++ [movement]) s) ;;
  ret movement.
End WithDecimal.
End InventoryRepository.

(** ** order_service.py *)

Module OrderService.
Section WithDecimal.
Context {D : Type} `{DecimalOps D} `{Database D}.

(** [x or y] on an optional [Decimal]: [None] and a zero are both false. *)
Definition dec_or (x : option D) (y : D) : D :=
  match x with
  | Some d => if dec_is_zero d then y else d
  | None => y
  end.

(** [new_id] is the [uuid4()] drawn for the order, [now] the clock. *)
Definition create_order (now : datetime) (new_id : UUID)
    (organization_id : UUID) (customer_name : string)
    (customer_email : option string) (created_by : option UUID)
    : Meth (Session D) (Order.t D) :=
  order_number <- OrderRepository.generate_order_number now organization_id ;;
  let order :=
    Order.mk new_id order_number organization_id customer_name customer_email
      [] DRAFT (dec_of_int 0) (dec_of_int 0) None created_by now None None None in
  OrderRepository.add order.

(** [new_item_id] is the [uuid4()] drawn for the line. *)
Definition add_item_to_order (now : datetime) (new_item_id : UUID)
    (order_id product_id : UUID) (quantity : Z) (unit_price : option D)
    (discount_percent : D) : Meth (Session D) (Order.t D) :=
  order <- OrderRepository.get_by_id order_id ;;
  match order with
  | None => raise NotFound
  | Some order =>
    inventory_item <- InventoryRepository.get_by_id product_id ;;
    match inventory_item with
    | None => raise NotFound
    | Some inventory_item =>
      raise_if (InventoryItem.quantity_available inventory_item <? quantity)
               InsufficientStock ;;
      item <- lift (OrderItem.new new_item_id
                      (InventoryItem.id inventory_item)
                      (InventoryItem.name inventory_item)
                      (InventoryItem.sku inventory_item)
                      quantity
                      (dec_or unit_price (InventoryItem.selling_price inventory_item))
                      discount_percent (dec_of_int 0) None) ;;
      r <- call order (Order.add_item now item) ;;
      let order := snd r in
      r <- call inventory_item
             (InventoryItem.reserve_stock now quantity (Some order_id)) ;;
      let inventory_item := snd r in
      InventoryRepository.update inventory_item ;;
      OrderRepository.update order
    end
  end.

Definition submit_order (now : datetime) (order_id : UUID)
    : Meth (Session D) (Order.t D) :=
  order <- OrderRepository.get_by_id order_id ;;
  match order with
  | None => raise NotFound
  | Some order =>
    r <- call order (Order.submit now) ;;
    OrderRepository.update (snd r)
  end.

Definition confirm_order (now : datetime) (order_id : UUID)
    : Meth (Session D) (Order.t D) :=
  order <- OrderRepository.get_by_id order_id ;;
  match order with
  | None => raise NotFound
  | Some order =>
    r <- call order (Order.confirm now) ;;
    OrderRepository.update (snd r)
  end.

(** The body of the loop of [cancel_order]. *)
Definition release_line (now : datetime) (item : OrderItem.t D)
    : Meth (Session D) unit :=
  inventory_item <- InventoryRepository.get_by_id (OrderItem.product_id item) ;;
  match inventory_item with
  | Some inventory_item =>
    r <- call inventory_item
           (InventoryItem.release_reservation now (OrderItem.quantity item)) ;;
    InventoryRepository.update (snd r) ;;
    ret tt
  | None => ret tt
  end.

Definition cancel_order (now : datetime) (order_id : UUID)
    (reason : option string) : Meth (Session D) (Order.t D) :=
  order <- OrderRepository.get_by_id order_id ;;
  match order with
  | None => raise NotFound
  | Some order =>
    for_each (Order.items order) (release_line now) ;;
    r <- call order (Order.cancel now reason) ;;
    OrderRepository.update (snd r)
  end.

(** The body of the loop of [ship_order]. *)
Definition sell_line (now : datetime) (order_id : UUID) (item : OrderItem.t D)
    : Meth (Session D) unit :=
  inventory_item <- InventoryRepository.get_by_id (OrderItem.product_id item) ;;
  match inventory_item with
  | Some inventory_item =>
    r <- call inventory_item
           (InventoryItem.sell_stock now (OrderItem.quantity item) (Some order_id)) ;;
    InventoryRepository.add_stock_movement (fst r) ;;
    InventoryRepository.update (snd r) ;;
    ret tt
  | None => ret tt
  end.

Definition ship_order (now : datetime) (order_id : UUID)
    (tracking_number : option string) : Meth (Session D) (Order.t D) :=
  order <- OrderRepository.get_by_id order_id ;;
  match order with
  | None => raise NotFound
  | Some order =>
    for_each (Order.items order) (sell_line now order_id) ;;
    r <- call order (Order.ship now tracking_number) ;;
    OrderRepository.update (snd r)
  end.
End WithDecimal.
End OrderService.

(** The order number [generate_order_number] builds in a given session. *)
Definition next_order_number {D} `{DecimalOps D} (now : datetime) (org : UUID)
    (s : Session D) : string :=
  ("ORD-" ++ strftime_Ymd now ++ "-" ++
   zero_pad 5 (N.of_nat (OrderRepository.count_orders org (orders s)) + 1))%string.

(** ** Call sequences on one aggregate *)

(** One call of a stock operation, with the arguments it is given. *)
Inductive StockCall : Type :=
| CallReserve (now : datetime) (quantity : Z) (order_id : option UUID)
| CallRelease (now : datetime) (quantity : Z)
| CallSell (now : datetime) (quantity : Z) (order_id : option UUID)
| CallReceive (now : datetime) (quantity : Z) (reference : option string)
| CallAdjust (now : datetime) (quantity : Z) (reason : string)
             (movement_type : StockMovementType).

Section StockCalls.
Context {D : Type} `{DecimalOps D}.

(** The item as the call leaves it, whether it returned or raised. *)
Definition after_stock_call (c : StockCall) (it : InventoryItem.t D)
    : InventoryItem.t D :=
  match c with
  | CallReserve now q o => snd (InventoryItem.reserve_stock now q o it)
  | CallRelease now q => snd (InventoryItem.release_reservation now q it)
  | CallSell now q o => snd (InventoryItem.sell_stock now q o it)
  | CallReceive now q r => snd (InventoryItem.receive_stock now q r it)
  | CallAdjust now q r ty => snd (InventoryItem.adjust_stock now q r ty it)
  end.

Definition after_stock_calls (cs : list StockCall) (it : InventoryItem.t D)
    : InventoryItem.t D :=
  fold_left (fun it c => after_stock_call c it) cs it.
End StockCalls.

(** One call of a lifecycle method of [Order]. *)
Inductive OrderCall : Type :=
| CallSubmit (now : datetime)
| CallConfirm (now : datetime)
| CallShip (now : datetime) (tracking_number : option string)
| CallDeliver (now : datetime)
| CallCancel (now : datetime) (reason : option string).

(** The lifecycle graph as the specification draws it: the statuses a call
    is permitted from, and the status it leads to. *)
Definition permitted_from (c : OrderCall) (s : OrderStatus) : bool :=
  match c, s with
  | CallSubmit _, DRAFT => true
  | CallConfirm _, PENDING => true
  | CallShip _ _, (CONFIRMED | PROCESSING) => true
  | CallDeliver _, SHIPPED => true
  | CallCancel _ _, (DRAFT | PENDING | CONFIRMED | PROCESSING) => true
  | _, _ => false
  end.

Definition leads_to (c : OrderCall) : OrderStatus :=
  match c with
  | CallSubmit _ => PENDING
  | CallConfirm _ => CONFIRMED
  | CallShip _ _ => SHIPPED
  | CallDeliver _ => DELIVERED
  | CallCancel _ _ => CANCELLED
  end.

Definition lifecycle_edge (c : OrderCall) (from to : OrderStatus) : Prop :=
  permitted_from c from = true /\ to = leads_to c.

(** [submit] and [confirm] also ask for an order with at least one line. *)
Definition needs_lines (c : OrderCall) : bool :=
  match c with
  | CallSubmit _ | CallConfirm _ => true
  | _ => false
  end.

Section OrderCalls.
Context {D : Type} `{DecimalOps D}.

Definition order_call (c : OrderCall) : Meth (Order.t D) unit :=
  match c with
  | CallSubmit now => Order.submit now
  | CallConfirm now => Order.confirm now
  | CallShip now tracking_number => Order.ship now tracking_number
  | CallDeliver now => Order.deliver now
  | CallCancel now reason => Order.cancel now reason
  end.

(** One entry of the history of an order: the order before the call, the
    call, what it returned or raised, and the order after it. *)
Record Step : Type := mk_Step {
  before : Order.t D;
  the_call : OrderCall;
  outcome : result unit;
  after : Order.t D
}.

(** Run the calls one after the other on the same order object; a call that
    raises is followed by the next one, as a caller that catches the error
    would do. *)
Fixpoint order_history (cs : list OrderCall) (o : Order.t D) : list Step :=
  match cs with
  | [] => []
  | c :: cs' =>
      let r := order_call c o in
      mk_Step o c (fst r) (snd r) :: order_history cs' (snd r)
  end.
End OrderCalls.
Arguments Step D : clear implicits.

(** ** Concrete data used to run the code *)

Definition t0 : datetime := mk_datetime 2026 11 3 0.
Definition t1 : datetime := mk_datetime 2026 11 3 60.

(** An item with [quantity_on_hand=10], [quantity_reserved=0]. *)
Definition widget : InventoryItem.t Qc :=
  InventoryItem.mk "p1" "org1" "SKU-001" "Widget" (Q2Qc 5) (Q2Qc (1999 # 100))
    10 0 0 10 50 true true t0.

(** The state a call leaves behind. *)
Definition exec {S A} (m : Meth S A) (s : S) : S := snd (m s).

(** A line of 2 units at 25.00, and an empty draft order. *)
Definition line1 : OrderItem.t Qc :=
  OrderItem.mk "i1" "p1" "Widget" "SKU-001" 2 (Q2Qc 25) (Q2Qc 0) (Q2Qc 0) None.

Definition draft1 : Order.t Qc :=
  Order.mk "o1" "ORD-20261103-00001" "org1" "John Doe" None [] DRAFT
    (Q2Qc 0) (Q2Qc 0) None None t0 None None None.

(** A shop with the widget in stock and no order yet, and the same shop with
    the draft order. *)
Definition shop : Session Qc := mk_Session ∅ {[ "p1" := widget ]} [].
Definition shop1 : Session Qc :=
  mk_Session {[ "o1" := draft1 ]} {[ "p1" := widget ]} [].

(** A confirmed order whose only line refers to a product that is not in the
    inventory repository. *)
Definition orphan_line : OrderItem.t Qc :=
  OrderItem.mk "i9" "p9" "Gone" "SKU-009" 1 (Q2Qc 4) (Q2Qc 0) (Q2Qc 0) None.
Definition confirmed3 : Order.t Qc :=
  Order.mk "o3" "ORD-20261103-00003" "org1" "Jane Roe" None [orphan_line]
    CONFIRMED (Q2Qc 0) (Q2Qc 0) None None t0 (Some t0) None None.
Definition shop3 : Session Qc :=
  mk_Session {[ "o3" := confirmed3 ]} {[ "p1" := widget ]} [].

(** A history made of service calls only: order o1 takes 3 widgets and is
    shipped; order o2 then reserves 5 of the remaining 7 and stays a draft. *)
Definition busy_shop : Session Qc :=
  let s := exec (OrderService.create_order t0 "o1" "org1" "Ann" None None) shop in
  let s := exec (OrderService.add_item_to_order t0 "i1" "o1" "p1" 3 None (Q2Qc 0)) s in
  let s := exec (OrderService.submit_order t0 "o1") s in
  let s := exec (OrderService.confirm_order t0 "o1") s in
  let s := exec (OrderService.ship_order t1 "o1" None) s in
  let s := exec (OrderService.create_order t1 "o2" "org1" "Bob" None None) s in
  exec (OrderService.add_item_to_order t1 "i2" "o2" "p1" 5 None (Q2Qc 0)) s.


(** What the repositories show for an order and for a product. *)
Definition status_of (s : Session Qc) (oid : UUID) : option OrderStatus :=
  Order.status <$> orders s !! oid.
Definition reserved_of (s : Session Qc) (pid : UUID) : option Z :=
  InventoryItem.quantity_reserved <$> inventory_items s !! pid.
Definition on_hand_of (s : Session Qc) (pid : UUID) : option Z :=
  InventoryItem.quantity_on_hand <$> inventory_items s !! pid.

(** ** Further operations *)

Section MoreStockCalls.
Context {D : Type} `{DecimalOps D}.

(** One stock call with what it returns: the movement, for the operations
    that build one. *)
Definition run_stock_call (c : StockCall)
    : Meth (InventoryItem.t D) (option StockMovement.t) :=
  match c with
  | CallReserve now q o =>
      InventoryItem.reserve_stock now q o ;; ret None
  | CallRelease now q =>
      InventoryItem.release_reservation now q ;; ret None
  | CallSell now q o =>
      mv <- InventoryItem.sell_stock now q o ;; ret (Some mv)
  | CallReceive now q r =>
      mv <- InventoryItem.receive_stock now q r ;; ret (Some mv)
  | CallAdjust now q r ty =>
      mv <- InventoryItem.adjust_stock now q r ty ;; ret (Some mv)
  end.

(** A call other than an adjustment by a negative amount. *)
Definition not_negative_adjust (c : StockCall) : Prop :=
  match c with
  | CallAdjust _ q _ _ => 0 <= q
  | _ => True
  end.

(** The rows [InventoryRepository.get_low_stock_items] selects. *)
Definition low_stock_row (organization_id : UUID) (item : InventoryItem.t D) : bool :=
  bool_decide (InventoryItem.organization_id item = organization_id) &&
  InventoryItem.is_active item &&
  InventoryItem.is_trackable item &&
  (InventoryItem.quantity_on_hand item <=? InventoryItem.reorder_point item).

(** The query has no [ORDER BY]; the rows come in the order of the table. *)
Definition get_low_stock_items (organization_id : UUID)
    : Meth (Session D) (list (InventoryItem.t D)) :=
  s <- get ;;
  ret (filter (fun item => low_stock_row organization_id item = true)
         (snd <$> map_to_list (inventory_items s))).
End MoreStockCalls.

(** One call of a mutating method of [Order]: a lifecycle call, [add_item]
    or [remove_item]. *)
Inductive OrderOp (D : Type) : Type :=
| OpLifecycle (c : OrderCall)
| OpAddItem (now : datetime) (item : OrderItem.t D)
| OpRemoveItem (now : datetime) (item_id : UUID).
Arguments OpLifecycle {D} c.
Arguments OpAddItem {D} now item.
Arguments OpRemoveItem {D} now item_id.

Section OrderOps.
Context {D : Type} `{DecimalOps D}.

Definition order_op (op : OrderOp D) : Meth (Order.t D) unit :=
  match op with
  | OpLifecycle c => order_call c
  | OpAddItem now item => Order.add_item now item
  | OpRemoveItem now item_id => Order.remove_item now item_id
  end.

(** The order after the calls, each made on what the previous one left,
    whether it returned or raised. *)
Definition after_order_ops (ops : list (OrderOp D)) (o : Order.t D) : Order.t D :=
  fold_left (fun o op => snd (order_op op o)) ops o.

(** A newly built order: DRAFT, no lifecycle timestamp yet. *)
Definition fresh_order (o : Order.t D) : Prop :=
  Order.status o = DRAFT /\ Order.confirmed_at o = None /\
  Order.shipped_at o = None /\ Order.delivered_at o = None.
End OrderOps.

Section OrderConsistency.
Context {D : Type} `{DecimalOps D}.

(** What the status of an order says about its lines and its lifecycle
    timestamps. *)
Definition order_consistent (o : Order.t D) : Prop :=
  match Order.status o with
  | DRAFT | PENDING =>
      Order.confirmed_at o = None /\ Order.shipped_at o = None /\
      Order.delivered_at o = None
  | CONFIRMED =>
      Order.items o <> [] /\ is_Some (Order.confirmed_at o) /\
      Order.shipped_at o = None /\ Order.delivered_at o = None
  | SHIPPED =>
      Order.items o <> [] /\ is_Some (Order.confirmed_at o) /\
      is_Some (Order.shipped_at o) /\ Order.delivered_at o = None
  | DELIVERED =>
      Order.items o <> [] /\ is_Some (Order.confirmed_at o) /\
      is_Some (Order.shipped_at o) /\ is_Some (Order.delivered_at o)
  | CANCELLED =>
      Order.shipped_at o = None /\ Order.delivered_at o = None
  | PROCESSING | REFUNDED => False
  end.

(** The statuses no method leads out of. *)
Definition terminal (s : OrderStatus) : bool :=
  match s with
  | DELIVERED | CANCELLED | REFUNDED => true
  | _ => false
  end.
End OrderConsistency.

(** ** The stock routes and sequences of service calls *)

(** What a route answers: the body with status 200, or an error status.
    [Http422] is the framework refusing a query parameter, [Http400] a
    [ValueError] (caught by the handler or by the application's
    [ValueError] handler), [Http500] any other exception. *)
Inductive HttpResponse (A : Type) : Type :=
| Http200 (body : A)
| Http400 (detail : Error)
| Http404
| Http422
| Http500 (e : Error).
Arguments Http200 {A} body.
Arguments Http400 {A} detail.
Arguments Http404 {A}.
Arguments Http422 {A}.
Arguments Http500 {A} e.

Module InventoryRoutes.
Section WithDecimal.
Context {D : Type} `{DecimalOps D} `{Database D}.

(** The two flushes of a stock route send the movement row and the item's
    new [quantity_on_hand]; every other column of the item is as it was
    read. *)
Definition flush_fits (movement : StockMovement.t) (item : InventoryItem.t D)
    : bool :=
  stock_movement_fits movement &&
  db_integer (InventoryItem.quantity_on_hand item).

(** Each request has a session of its own ([Depends(get_session)]), which
    commits when the handler returns and rolls back when an exception leaves
    it. A flush the database refuses raises an error that is no
    [ValueError]: nothing of the request stays written and the application's
    handler for [Exception] answers 500. *)
Definition flush_stock (movement : StockMovement.t) (item : InventoryItem.t D)
    (s s2 : Session D) : HttpResponse (InventoryItem.t D) * Session D :=
  if flush_fits movement item then
    match (InventoryRepository.add_stock_movement movement ;;
           InventoryRepository.update item) s2 with
    | (Ok updated_item, s3) => (Http200 updated_item, s3)
    | (Raise e, _) => (Http500 e, s)
    end
  else (Http500 DatabaseError, s).

(** [POST /{item_id}/adjust]: the three calls sit in one [try] whose
    [except ValueError] answers 400. *)
Definition adjust_stock (now : datetime) (item_id : UUID) (quantity : Z)
    (reason : string) (s : Session D)
    : HttpResponse (InventoryItem.t D) * Session D :=
  match InventoryRepository.get_by_id item_id s with
  | (Raise e, _) => (Http500 e, s)
  | (Ok None, _) => (Http404, s)
  | (Ok (Some item), s1) =>
      match call item (InventoryItem.adjust_stock now quantity reason ADJUSTMENT) s1 with
      | (Raise e, _) => (Http400 e, s)
      | (Ok (movement, item), s2) => flush_stock movement item s s2
      end
  end.

(** [POST /{item_id}/receive]: [quantity] is declared [Query(..., gt=0)];
    the handler has no [try], and a [ValueError] of [receive_stock] reaches
    the application's [ValueError] handler, which answers 400. *)
Definition receive_stock (now : datetime) (item_id : UUID) (quantity : Z)
    (reference : option string) (s : Session D)
    : HttpResponse (InventoryItem.t D) * Session D :=
  if quantity <=? 0 then (Http422, s)
  else
    match InventoryRepository.get_by_id item_id s with
    | (Raise e, _) => (Http500 e, s)
    | (Ok None, _) => (Http404, s)
    | (Ok (Some item), s1) =>
        match call item (InventoryItem.receive_stock now quantity reference) s1 with
        | (Raise e, _) => (Http400 e, s)
        | (Ok (movement, item), s2) => flush_stock movement item s s2
        end
    end.
End WithDecimal.
End InventoryRoutes.

(** One call made on the session: an [OrderService] method or a stock route. *)
Inductive ServiceCall (D : Type) : Type :=
| SvcCreateOrder (now : datetime) (new_id organization_id : UUID)
    (customer_name : string) (customer_email : option string)
    (created_by : option UUID)
| SvcAddItem (now : datetime) (new_item_id order_id product_id : UUID)
    (quantity : Z) (unit_price : option D) (discount_percent : D)
| SvcSubmit (now : datetime) (order_id : UUID)
| SvcConfirm (now : datetime) (order_id : UUID)
| SvcCancel (now : datetime) (order_id : UUID) (reason : option string)
| SvcShip (now : datetime) (order_id : UUID) (tracking_number : option string)
| SvcAdjustStock (now : datetime) (item_id : UUID) (quantity : Z) (reason : string)
| SvcReceiveStock (now : datetime) (item_id : UUID) (quantity : Z)
    (reference : option string).
Arguments SvcCreateOrder {D}.
Arguments SvcAddItem {D}.
Arguments SvcSubmit {D}.
Arguments SvcConfirm {D}.
Arguments SvcCancel {D}.
Arguments SvcShip {D}.
Arguments SvcAdjustStock {D}.
Arguments SvcReceiveStock {D}.

Section ServiceCalls.
Context {D : Type} `{DecimalOps D} `{Database D}.

(** The session as the call leaves it, whatever it answered. *)
Definition after_service_call (c : ServiceCall D) (s : Session D) : Session D :=
  match c with
  | SvcCreateOrder now new_id org name email by_ =>
      snd (OrderService.create_order now new_id org name email by_ s)
  | SvcAddItem now iid oid pid q up disc =>
      snd (OrderService.add_item_to_order now iid oid pid q up disc s)
  | SvcSubmit now oid => snd (OrderService.submit_order now oid s)
  | SvcConfirm now oid => snd (OrderService.confirm_order now oid s)
  | SvcCancel now oid reason => snd (OrderService.cancel_order now oid reason s)
  | SvcShip now oid tracking => snd (OrderService.ship_order now oid tracking s)
  | SvcAdjustStock now pid q reason =>
      snd (InventoryRoutes.adjust_stock now pid q reason s)
  | SvcReceiveStock now pid q ref =>
      snd (InventoryRoutes.receive_stock now pid q ref s)
  end.

Definition after_service_calls (cs : list (ServiceCall D)) (s : Session D)
    : Session D :=
  fold_left (fun s c => after_service_call c s) cs s.

(** A call other than a stock adjustment by a negative amount. *)
Definition not_negative_adjustment (c : ServiceCall D) : Prop :=
  match c with
  | SvcAdjustStock _ _ q _ => 0 <= q
  | _ => True
  end.

(** Every inventory row is filed under the id of its item. *)
Definition inventory_keyed (s : Session D) : Prop :=
  forall k item, inventory_items s !! k = Some item -> InventoryItem.id item = k.

(** Every order row is filed under the id of its order. *)
Definition orders_keyed (s : Session D) : Prop :=
  forall k o, orders s !! k = Some o -> Order.id o = k.

(** The stock on hand the repository shows for a product (0 if it has none). *)
Definition on_hand_at (s : Session D) (pid : UUID) : Z :=
  match inventory_items s !! pid with
  | Some item => InventoryItem.quantity_on_hand item
  | None => 0
  end.

Definition reserved_at (s : Session D) (pid : UUID) : Z :=
  match inventory_items s !! pid with
  | Some item => InventoryItem.quantity_reserved item
  | None => 0
  end.

(** The sum of the signed quantities of the movements logged for a product. *)
Definition ledger_sum (pid : UUID) (ms : list StockMovement.t) : Z :=
  fold_right (fun mv acc =>
    if bool_decide (StockMovement.inventory_item_id mv = pid)
    then StockMovement.quantity mv + acc else acc) 0 ms.

(** In every inventory row the reservation is within the stock on hand. *)
Definition reservations_within_stock (s : Session D) : Prop :=
  forall k item, inventory_items s !! k = Some item ->
    0 <= InventoryItem.quantity_reserved item <= InventoryItem.quantity_on_hand item.

(** One stored item changed by one stock call that returned, its movement
    (if the call builds one) appended to the log; or inventory and log left
    as they are. [allowed] says which stock calls may occur. *)
Inductive stock_step (allowed : StockCall -> Prop) : Session D -> Session D -> Prop :=
| step_none s s' :
    inventory_items s' = inventory_items s ->
    stock_movements s' = stock_movements s ->
    stock_step allowed s s'
| step_call s s' k item c mv item' :
    inventory_items s !! k = Some item ->
    allowed c ->
    run_stock_call c item = (Ok mv, item') ->
    inventory_items s' = <[InventoryItem.id item' := item']> (inventory_items s) ->
    stock_movements s' = stock_movements s ++ option_list mv ->
    stock_step allowed s s'.
End ServiceCalls.

(** More concrete data: the draft with one line, a confirmed order for 2
    widgets with its shop, and a day of calls. *)
Definition draft_with_line : Order.t Qc := Order.set_items [line1] draft1.

Definition shop2 : Session Qc :=
  mk_Session {[ "o1" := draft_with_line ]} {[ "p1" := widget ]} [].

Definition confirmed4 : Order.t Qc :=
  Order.mk "o4" "ORD-20261103-00004" "org1" "Ann" None [line1] CONFIRMED
    (Q2Qc 0) (Q2Qc 0) None None t0 (Some t0) None None.

Definition shop4 : Session Qc :=
  mk_Session {[ "o4" := confirmed4 ]} {[ "p1" := widget ]} [].

Definition day_of_calls : list (ServiceCall Qc) :=
  [SvcCreateOrder t0 "o1" "org1" "Ann" None None;
   SvcAddItem t0 "i1" "o1" "p1" 3 None (Q2Qc 0);
   SvcShip t1 "o1" None;
   SvcReceiveStock t1 "p1" 4 (Some "PO-7");
   SvcAdjustStock t1 "p1" 2 "recount";
   SvcSubmit t1 "o1";
   SvcCancel t1 "o1" (Some "changed mind")].

Definition day_of_order_ops : list (OrderOp Qc) :=
  [OpAddItem t0 line1; OpLifecycle (CallSubmit t0); OpRemoveItem t0 "zz";
   OpLifecycle (CallConfirm t1); OpAddItem t1 orphan_line;
   OpLifecycle (CallShip t1 (Some "TRK-1")); OpLifecycle (CallCancel t1 None);
   OpLifecycle (CallDeliver t1)].

(** * Verified properties *)

Ltac run_meth :=
  cbv [bind raise_if raise ret get put modify lift call Order.read] in *;
  simpl in *.

Ltac case_row :=
  match goal with
  | |- context [order_row ?x] => destruct (order_row x)
  end.

Ltac case_test :=
  match goal with
  | |- context [if ?b then _ else _] => destruct b eqn:?
  | H : context [if ?b then _ else _] |- _ => destruct b eqn:?
  end; simpl in *.

(** ** InventoryItem *)

Section InventoryFacts.
Context {D : Type} `{DecimalOps D}.
Implicit Types it : InventoryItem.t D.

Lemma reserve_stock_run it now q o :
  InventoryItem.reserve_stock now q o it =
  if q <=? 0 then (Raise InvalidQuantity, it)
  else if InventoryItem.quantity_available it <? q
       then (Raise InsufficientStock, it)
       else (Ok tt,
             InventoryItem.set_updated_at now
               (InventoryItem.set_quantity_reserved
                  (InventoryItem.quantity_reserved it + q) it)).
Proof.
  unfold InventoryItem.reserve_stock. run_meth.
  repeat case_test; reflexivity.
Qed.

Lemma release_reservation_run it now q :
  InventoryItem.release_reservation now q it =
  if q <=? 0 then (Raise InvalidQuantity, it)
  else (Ok tt,
        InventoryItem.set_updated_at now
          (InventoryItem.set_quantity_reserved
             (Z.max 0 (InventoryItem.quantity_reserved it - q)) it)).
Proof.
  unfold InventoryItem.release_reservation. run_meth.
  repeat case_test; reflexivity.
Qed.

Lemma sell_stock_run it now q o :
  InventoryItem.sell_stock now q o it =
  if q <=? 0 then (Raise InvalidQuantity, it)
  else if InventoryItem.quantity_on_hand it <? q
       then (Raise InsufficientStock, it)
       else
         let it1 := InventoryItem.set_quantity_on_hand
                      (InventoryItem.quantity_on_hand it - q) it in
         let it2 := if 0 <? InventoryItem.quantity_reserved it
                    then InventoryItem.set_quantity_reserved
                           (Z.max 0 (InventoryItem.quantity_reserved it - q)) it1
                    else it1 in
         let it3 := InventoryItem.set_updated_at now it2 in
         (StockMovement.new (InventoryItem.id it) SALE (- q) o
            (InventoryItem.quantity_on_hand it - q), it3).
Proof.
  unfold InventoryItem.sell_stock. run_meth.
  repeat case_test; reflexivity.
Qed.

Lemma receive_stock_run it now q r :
  InventoryItem.receive_stock now q r it =
  if q <=? 0 then (Raise InvalidQuantity, it)
  else (StockMovement.new (InventoryItem.id it) PURCHASE q r
          (InventoryItem.quantity_on_hand it + q),
        InventoryItem.set_updated_at now
          (InventoryItem.set_quantity_on_hand
             (InventoryItem.quantity_on_hand it + q) it)).
Proof.
  unfold InventoryItem.receive_stock. run_meth.
  repeat case_test; reflexivity.
Qed.

Lemma adjust_stock_run it now q r ty :
  InventoryItem.adjust_stock now q r ty it =
  if InventoryItem.quantity_on_hand it + q <? 0
  then (Raise NegativeStock, it)
  else (StockMovement.new (InventoryItem.id it) ty q (Some r)
          (InventoryItem.quantity_on_hand it + q),
        InventoryItem.set_updated_at now
          (InventoryItem.set_quantity_on_hand
             (InventoryItem.quantity_on_hand it + q) it)).
Proof.
  unfold InventoryItem.adjust_stock. run_meth.
  repeat case_test; reflexivity.
Qed.

(** The two counters stay non-negative across one call, returned or raised. *)
Lemma after_stock_call_nonneg c it :
  0 <= InventoryItem.quantity_on_hand it ->
  0 <= InventoryItem.quantity_reserved it ->
  0 <= InventoryItem.quantity_on_hand (after_stock_call c it) /\
  0 <= InventoryItem.quantity_reserved (after_stock_call c it).
Proof.
  intros Hh Hr. destruct c; simpl.
  - rewrite reserve_stock_run. repeat case_test; lia.
  - rewrite release_reservation_run. repeat case_test; lia.
  - rewrite sell_stock_run. repeat case_test; lia.
  - rewrite receive_stock_run. repeat case_test; lia.
  - rewrite adjust_stock_run. repeat case_test; lia.
Qed.

(** C2. From an item whose [quantity_on_hand] and [quantity_reserved] are
    non-negative, any sequence of [reserve_stock], [release_reservation],
    [sell_stock], [receive_stock] and [adjust_stock] calls, with any
    arguments and whether each call returns or raises, leaves both counters
    non-negative, and [quantity_available] is
    [max(0, quantity_on_hand - quantity_reserved)]. *)
Theorem stock_counters_invariant (cs : list StockCall) it :
  0 <= InventoryItem.quantity_on_hand it ->
  0 <= InventoryItem.quantity_reserved it ->
  let it' := after_stock_calls cs it in
  0 <= InventoryItem.quantity_on_hand it' /\
  0 <= InventoryItem.quantity_reserved it' /\
  InventoryItem.quantity_available it' =
    Z.max 0 (InventoryItem.quantity_on_hand it' - InventoryItem.quantity_reserved it') /\
  0 <= InventoryItem.quantity_available it'.
Proof.
  revert it. induction cs as [|c cs IH]; intros it Hh Hr; simpl.
  - unfold InventoryItem.quantity_available. repeat split; auto; lia.
  - destruct (after_stock_call_nonneg c it Hh Hr) as [Hh' Hr'].
    exact (IH _ Hh' Hr').
Qed.

(** C5. For [qty > 0], [reserve_stock(qty)] raises InsufficientStock exactly
    when [qty > quantity_available] (and then changes nothing); otherwise it
    returns, [quantity_reserved] has grown by [qty] and [quantity_on_hand] is
    as before. With on_hand=10 and reserved=0, [reserve_stock(20)] raises
    InsufficientStock and a following [reserve_stock(5)] returns and leaves
    [quantity_available = 5]. *)
Theorem reserve_stock_spec :
  (forall it now qty order_id, 0 < qty ->
     let r := InventoryItem.reserve_stock now qty order_id it in
     (fst r = Raise InsufficientStock <-> qty > InventoryItem.quantity_available it) /\
     (qty > InventoryItem.quantity_available it -> snd r = it) /\
     (qty <= InventoryItem.quantity_available it ->
        fst r = Ok tt /\
        InventoryItem.quantity_reserved (snd r) =
          InventoryItem.quantity_reserved it + qty /\
        InventoryItem.quantity_on_hand (snd r) = InventoryItem.quantity_on_hand it)) /\
  (forall it now now' o o',
     InventoryItem.quantity_on_hand it = 10 ->
     InventoryItem.quantity_reserved it = 0 ->
     let r20 := InventoryItem.reserve_stock now 20 o it in
     let r5 := InventoryItem.reserve_stock now' 5 o' (snd r20) in
     fst r20 = Raise InsufficientStock /\
     fst r5 = Ok tt /\
     InventoryItem.quantity_available (snd r5) = 5).
Proof.
  split.
  - intros it now qty o Hq r. subst r. rewrite reserve_stock_run.
    destruct (qty <=? 0) eqn:E0; [lia|].
    destruct (InventoryItem.quantity_available it <? qty) eqn:E1; simpl.
    + repeat split; auto; lia.
    + repeat split; try lia; try discriminate; auto.
  - intros it now now' o o' Hh Hr r20 r5. subst r20 r5.
    assert (Ha : InventoryItem.quantity_available it = 10)
      by (unfold InventoryItem.quantity_available; lia).
    rewrite (reserve_stock_run it now 20). rewrite Ha. simpl.
    rewrite reserve_stock_run. rewrite Ha. simpl.
    unfold InventoryItem.quantity_available. simpl. rewrite Hh, Hr.
    repeat split.
Qed.

(** C6. For [qty > 0] on an item whose [quantity_reserved] is non-negative
    (the field is declared [ge=0]): when [qty > quantity_on_hand],
    [sell_stock(qty)] raises InsufficientStock and the item is unchanged;
    otherwise it returns a movement with type SALE, quantity [-qty] and
    [quantity_after] the new [quantity_on_hand], which is the old one less
    [qty], and [quantity_reserved] becomes [max(0, quantity_reserved - qty)]. *)
Theorem sell_stock_spec it now qty order_id :
  0 <= InventoryItem.quantity_reserved it ->
  0 < qty ->
  let r := InventoryItem.sell_stock now qty order_id it in
  (qty > InventoryItem.quantity_on_hand it ->
     fst r = Raise InsufficientStock /\ snd r = it) /\
  (qty <= InventoryItem.quantity_on_hand it ->
     exists mv, fst r = Ok mv /\
       InventoryItem.quantity_on_hand (snd r) = InventoryItem.quantity_on_hand it - qty /\
       InventoryItem.quantity_reserved (snd r) =
         Z.max 0 (InventoryItem.quantity_reserved it - qty) /\
       StockMovement.movement_type mv = SALE /\
       StockMovement.quantity mv = - qty /\
       StockMovement.quantity_after mv = InventoryItem.quantity_on_hand (snd r) /\
       StockMovement.inventory_item_id mv = InventoryItem.id it).
Proof.
  intros Hr Hq r. subst r. rewrite sell_stock_run.
  destruct (qty <=? 0) eqn:E0; [lia|].
  destruct (InventoryItem.quantity_on_hand it <? qty) eqn:E1; simpl.
  - split; [auto | lia].
  - split; [lia|]. intros _. unfold StockMovement.new.
    destruct (InventoryItem.quantity_on_hand it - qty <? 0) eqn:E2; [lia|].
    eexists; split; [reflexivity|].
    destruct (0 <? InventoryItem.quantity_reserved it) eqn:E3; simpl;
      repeat split; lia.
Qed.

(** C7. On an item whose [quantity_reserved] is non-negative, when
    [reserve_stock(qty)] with [qty > 0] returns, an immediate
    [release_reservation(qty)] returns too and puts [quantity_reserved] back
    to its value before the reservation. For every [qty > 0],
    [release_reservation(qty)] returns with a non-negative
    [quantity_reserved], and from [quantity_reserved = 0] it stays 0. *)
Theorem reserve_release_inverse :
  (forall it now now' qty order_id,
     0 <= InventoryItem.quantity_reserved it ->
     0 < qty ->
     fst (InventoryItem.reserve_stock now qty order_id it) = Ok tt ->
     let it1 := snd (InventoryItem.reserve_stock now qty order_id it) in
     let r := InventoryItem.release_reservation now' qty it1 in
     fst r = Ok tt /\
     InventoryItem.quantity_reserved (snd r) = InventoryItem.quantity_reserved it /\
     InventoryItem.quantity_on_hand (snd r) = InventoryItem.quantity_on_hand it) /\
  (forall it now qty,
     0 < qty ->
     let r := InventoryItem.release_reservation now qty it in
     fst r = Ok tt /\
     0 <= InventoryItem.quantity_reserved (snd r) /\
     (InventoryItem.quantity_reserved it = 0 ->
        InventoryItem.quantity_reserved (snd r) = 0)).
Proof.
  split.
  - intros it now now' qty o Hr Hq Hok it1 r. subst r it1. revert Hok.
    rewrite release_reservation_run, reserve_stock_run.
    destruct (qty <=? 0) eqn:E0; [lia|].
    destruct (InventoryItem.quantity_available it <? qty) eqn:E1; simpl;
      [discriminate|].
    intros _. repeat split; lia.
  - intros it now qty Hq r. subst r. rewrite release_reservation_run.
    destruct (qty <=? 0) eqn:E0; [lia|]. simpl. repeat split; lia.
Qed.
End InventoryFacts.

Lemma stock_counters_invariant_witness :
  0 <= InventoryItem.quantity_on_hand widget /\
  0 <= InventoryItem.quantity_reserved widget /\
  let it' := after_stock_calls
               [CallReserve t1 4 None; CallSell t1 20 None; CallSell t1 6 None;
                CallAdjust t1 (-4) "damaged" DAMAGE; CallRelease t1 9;
                CallReceive t1 3 (Some "PO-123")] widget in
  0 <= InventoryItem.quantity_on_hand it' /\
  0 <= InventoryItem.quantity_reserved it' /\
  InventoryItem.quantity_available it' =
    Z.max 0 (InventoryItem.quantity_on_hand it' - InventoryItem.quantity_reserved it') /\
  0 <= InventoryItem.quantity_available it'.
Proof.
  split; [simpl; lia|]. split; [simpl; lia|].
  apply stock_counters_invariant; simpl; lia.
Defined.

Lemma reserve_stock_spec_witness :
  0 < 5 /\
  let r := InventoryItem.reserve_stock t1 5 None widget in
  (fst r = Raise InsufficientStock <-> 5 > InventoryItem.quantity_available widget) /\
  (5 > InventoryItem.quantity_available widget -> snd r = widget) /\
  (5 <= InventoryItem.quantity_available widget ->
     fst r = Ok tt /\
     InventoryItem.quantity_reserved (snd r) =
       InventoryItem.quantity_reserved widget + 5 /\
     InventoryItem.quantity_on_hand (snd r) = InventoryItem.quantity_on_hand widget).
Proof.
  split; [lia|].
  apply (proj1 reserve_stock_spec widget t1 5 None). lia.
Defined.

Lemma sell_stock_spec_witness :
  0 <= InventoryItem.quantity_reserved widget /\ 0 < 4 /\
  let r := InventoryItem.sell_stock t1 4 (Some "o1") widget in
  (4 > InventoryItem.quantity_on_hand widget ->
     fst r = Raise InsufficientStock /\ snd r = widget) /\
  (4 <= InventoryItem.quantity_on_hand widget ->
     exists mv, fst r = Ok mv /\
       InventoryItem.quantity_on_hand (snd r) = InventoryItem.quantity_on_hand widget - 4 /\
       InventoryItem.quantity_reserved (snd r) =
         Z.max 0 (InventoryItem.quantity_reserved widget - 4) /\
       StockMovement.movement_type mv = SALE /\
       StockMovement.quantity mv = - 4 /\
       StockMovement.quantity_after mv = InventoryItem.quantity_on_hand (snd r) /\
       StockMovement.inventory_item_id mv = InventoryItem.id widget).
Proof.
  split; [simpl; lia|]. split; [lia|].
  apply (sell_stock_spec widget t1 4 (Some "o1")); simpl; lia.
Defined.

Lemma reserve_release_inverse_witness :
  0 <= InventoryItem.quantity_reserved widget /\ 0 < 5 /\
  fst (InventoryItem.reserve_stock t0 5 None widget) = Ok tt /\
  let it1 := snd (InventoryItem.reserve_stock t0 5 None widget) in
  let r := InventoryItem.release_reservation t1 5 it1 in
  fst r = Ok tt /\
  InventoryItem.quantity_reserved (snd r) = InventoryItem.quantity_reserved widget /\
  InventoryItem.quantity_on_hand (snd r) = InventoryItem.quantity_on_hand widget.
Proof.
  split; [simpl; lia|]. split; [lia|]. split; [reflexivity|].
  apply (proj1 reserve_release_inverse widget t0 t1 5 None);
    [simpl; lia | lia | reflexivity].
Defined.

(** ** Order *)

Section OrderFacts.
Context {D : Type} `{DecimalOps D}.
Implicit Types o : Order.t D.

Lemma submit_run o now :
  Order.submit now o =
  if negb (bool_decide (Order.status o = DRAFT)) then (Raise InvalidTransition, o)
  else if Order.is_empty (Order.items o) then (Raise EmptyOrder, o)
  else (Ok tt, Order.set_updated_at now (Order.set_status PENDING o)).
Proof. unfold Order.submit. run_meth. repeat case_test; reflexivity. Qed.

Lemma confirm_run o now :
  Order.confirm now o =
  if negb (bool_decide (Order.status o = PENDING)) then (Raise InvalidTransition, o)
  else if Order.is_empty (Order.items o) then (Raise EmptyOrder, o)
  else (Ok tt, Order.set_updated_at now
                 (Order.set_confirmed_at (Some now) (Order.set_status CONFIRMED o))).
Proof. unfold Order.confirm. run_meth. repeat case_test; reflexivity. Qed.

Lemma cancel_run o now reason :
  Order.cancel now reason o =
  if negb (can_cancel (Order.status o)) then (Raise InvalidTransition, o)
  else (Ok tt, Order.set_updated_at now
                 ((if str_truthy reason
                   then Order.append_note "Cancelled: " (str_or reason "")
                   else fun o => o) (Order.set_status CANCELLED o))).
Proof. unfold Order.cancel. run_meth. repeat case_test; reflexivity. Qed.

Lemma ship_run o now tracking :
  Order.ship now tracking o =
  if negb (bool_decide (Order.status o = CONFIRMED)
           || bool_decide (Order.status o = PROCESSING))
  then (Raise InvalidTransition, o)
  else (Ok tt, Order.set_updated_at now
                 ((if str_truthy tracking
                   then Order.append_note "Tracking: " (str_or tracking "")
                   else fun o => o)
                    (Order.set_shipped_at (Some now) (Order.set_status SHIPPED o)))).
Proof. unfold Order.ship. run_meth. repeat case_test; reflexivity. Qed.

Lemma deliver_run o now :
  Order.deliver now o =
  if negb (bool_decide (Order.status o = SHIPPED)) then (Raise InvalidTransition, o)
  else (Ok tt, Order.set_updated_at now
                 (Order.set_delivered_at (Some now) (Order.set_status DELIVERED o))).
Proof. unfold Order.deliver. run_meth. repeat case_test; reflexivity. Qed.

Lemma add_item_run o now item :
  Order.add_item now item o =
  if negb (can_modify (Order.status o)) then (Raise NotModifiable, o)
  else (Ok tt, Order.set_updated_at now
                 (Order.set_items (Order.items o ++ [item]) o)).
Proof. unfold Order.add_item. run_meth. repeat case_test; reflexivity. Qed.

(** What one lifecycle call does, by the status it is made from. *)
Lemma order_call_step c o :
  let r := order_call c o in
  (permitted_from c (Order.status o) = false ->
     fst r = Raise InvalidTransition /\ snd r = o) /\
  (fst r = Ok tt ->
     lifecycle_edge c (Order.status o) (Order.status (snd r))) /\
  (fst r <> Ok tt -> snd r = o) /\
  (permitted_from c (Order.status o) = true ->
     match c with
     | CallSubmit _ | CallConfirm _ =>
         if Order.is_empty (Order.items o)
         then fst r = Raise EmptyOrder
         else fst r = Ok tt
     | _ => fst r = Ok tt
     end).
Proof.
  unfold lifecycle_edge.
  destruct c; simpl;
    [rewrite submit_run | rewrite confirm_run | rewrite ship_run
    | rewrite deliver_run | rewrite cancel_run];
    destruct (Order.status o) eqn:Es; simpl;
    try destruct (Order.is_empty (Order.items o)) eqn:Ee; simpl;
    try destruct (str_truthy tracking_number); try destruct (str_truthy reason);
    simpl; try rewrite Es; repeat split; auto; try discriminate; try congruence.
Qed.

(** C3. Along any sequence of [submit], [confirm], [ship], [deliver] and
    [cancel] calls on an order, each entry of the history starts from the
    order the previous one ended with, and for each entry: a call made from
    a status it is not permitted from raises InvalidTransition and leaves
    the order as it was; a call made from a status it is permitted from
    returns and leaves the order in the status its edge leads to (submit
    DRAFT to PENDING, confirm PENDING to CONFIRMED, ship CONFIRMED or
    PROCESSING to SHIPPED, deliver SHIPPED to DELIVERED, cancel DRAFT,
    PENDING, CONFIRMED or PROCESSING to CANCELLED), except that [submit] and
    [confirm] on an order without lines raise EmptyOrder and leave the order
    as it was; a call that returns has moved the status along its edge; and
    a call that raises leaves the status unchanged, so the status never
    changes in any other way. *)
Theorem order_lifecycle (cs : list OrderCall) o :
  Forall (fun st : Step D =>
    (permitted_from (the_call st) (Order.status (before st)) = false ->
       outcome st = Raise InvalidTransition /\ after st = before st) /\
    (permitted_from (the_call st) (Order.status (before st)) = true ->
       if needs_lines (the_call st) && Order.is_empty (Order.items (before st))
       then outcome st = Raise EmptyOrder /\ after st = before st
       else outcome st = Ok tt /\
            Order.status (after st) = leads_to (the_call st)) /\
    (outcome st = Ok tt ->
       lifecycle_edge (the_call st) (Order.status (before st))
                      (Order.status (after st))) /\
    (outcome st <> Ok tt -> Order.status (after st) = Order.status (before st)) /\
    (Order.status (after st) = Order.status (before st) \/
     lifecycle_edge (the_call st) (Order.status (before st))
                    (Order.status (after st))))
    (order_history cs o) /\
  map the_call (order_history cs o) = cs /\
  (forall n st st', order_history cs o !! n = Some st ->
     order_history cs o !! S n = Some st' -> before st' = after st) /\
  (forall st, head (order_history cs o) = Some st -> before st = o).
Proof.
  split; [|split; [|split]].
  - revert o. induction cs as [|c cs IH]; intros o; simpl; constructor; auto.
    simpl. pose proof (order_call_step c o) as Hs. cbv zeta in Hs.
    destruct Hs as (Hn & Hok & Herr & Hp).
    split; [exact Hn|]. split; [|split; [exact Hok|split]].
    + intros Hperm. specialize (Hp Hperm).
      assert (Hgo : fst (order_call c o) = Ok tt ->
                fst (order_call c o) = Ok tt /\
                Order.status (snd (order_call c o)) = leads_to c).
      { intros Hr. split; [exact Hr|]. apply (Hok Hr). }
      assert (Hstop : fst (order_call c o) = Raise EmptyOrder ->
                fst (order_call c o) = Raise EmptyOrder /\
                snd (order_call c o) = o).
      { intros Hr. split; [exact Hr|]. apply Herr. rewrite Hr. discriminate. }
      destruct c; simpl needs_lines; cbv iota beta in Hp;
        try (destruct (Order.is_empty (Order.items o))); simpl andb; cbv iota;
        auto.
    + intros Hne. rewrite (Herr Hne). reflexivity.
    + destruct (fst (order_call c o)) as [[]|e] eqn:Er.
      * right. apply Hok. reflexivity.
      * left. rewrite Herr; [reflexivity | discriminate].
  - revert o. induction cs as [|c cs IH]; intros o; simpl; [reflexivity|].
    f_equal. apply IH.
  - revert o. induction cs as [|c cs IH]; intros o n st st'; simpl.
    + intros Hx. discriminate Hx.
    + destruct n as [|n]; simpl.
      * intros Hst Hst'. injection Hst as <-. simpl.
        destruct cs as [|c' cs']; simpl in Hst'; [discriminate Hst'|].
        injection Hst' as <-. reflexivity.
      * apply IH.
  - destruct cs as [|c cs]; simpl; intros st Hst; [discriminate Hst|].
    injection Hst as <-. reflexivity.
Qed.
End OrderFacts.

Section OrderTotals.
Context {D : Type} `{DecimalOps D}.
Implicit Types o : Order.t D.

Lemma py_sum_snoc {A} (f : A -> D) (xs : list A) (x : A) :
  py_sum f (xs ++ [x]) = dec_add (py_sum f xs) (f x).
Proof. unfold py_sum. rewrite fold_left_app. reflexivity. Qed.

Lemma read_run {A} (prop : Order.t D -> A) o :
  Order.read prop o = (Ok (prop o), o).
Proof. reflexivity. Qed.

(** C4. [grand_total] is the sum of [item.total] over the items (Python's
    [sum]: from 0, left to right) plus [shipping_cost] plus [handling_fee],
    and per item [total = taxable_amount + tax_amount] with
    [subtotal = unit_price * quantity],
    [discount_amount = subtotal * (discount_percent / 100)],
    [taxable_amount = subtotal - discount_amount] and
    [tax_amount = taxable_amount * (tax_percent / 100)]. Reading a total
    leaves the order as it was, so two reads in a row return the same value;
    and the value is computed from the items the order has when it is read:
    after [add_item] has returned, [grand_total] counts the new line. *)
Theorem grand_total_spec :
  (forall o,
     Order.grand_total o =
       dec_add (dec_add (py_sum OrderItem.total (Order.items o))
                        (Order.shipping_cost o))
               (Order.handling_fee o)) /\
  (forall i : OrderItem.t D,
     let subtotal := dec_mul (OrderItem.unit_price i)
                             (dec_of_int (OrderItem.quantity i)) in
     let discount_amount :=
       dec_mul subtotal (dec_div (OrderItem.discount_percent i) (dec_of_int 100)) in
     let taxable_amount := dec_sub subtotal discount_amount in
     let tax_amount :=
       dec_mul taxable_amount (dec_div (OrderItem.tax_percent i) (dec_of_int 100)) in
     OrderItem.subtotal i = subtotal /\
     OrderItem.discount_amount i = discount_amount /\
     OrderItem.taxable_amount i = taxable_amount /\
     OrderItem.tax_amount i = tax_amount /\
     OrderItem.total i = dec_add taxable_amount tax_amount) /\
  (forall o,
     (a <- Order.read Order.grand_total ;;
      b <- Order.read Order.grand_total ;;
      ret (a, b)) o
     = (Ok (Order.grand_total o, Order.grand_total o), o)) /\
  (forall o now item,
     can_modify (Order.status o) = true ->
     let r := Order.add_item now item o in
     fst r = Ok tt /\
     Order.grand_total (snd r) =
       dec_add (dec_add (dec_add (py_sum OrderItem.total (Order.items o))
                                 (OrderItem.total item))
                        (Order.shipping_cost o))
               (Order.handling_fee o)).
Proof.
  split; [|split; [|split]].
  - intros o. reflexivity.
  - intros i. cbv zeta. repeat split.
  - intros o. reflexivity.
  - intros o now item Hm r. subst r. rewrite add_item_run, Hm. simpl.
    split; [reflexivity|]. unfold Order.grand_total. simpl.
    rewrite py_sum_snoc. reflexivity.
Qed.
End OrderTotals.

(** ** Decimal formatting *)

Lemma digit_char_value (d : N) :
  (d < 10)%N -> (N_of_ascii (digit_char d) - 48)%N = d.
Proof.
  intros Hd. unfold digit_char. rewrite N_ascii_embedding by lia. lia.
Qed.

Lemma int_of_digits_app (v : N) (s1 s2 : string) :
  int_of_digits v (s1 ++ s2)%string = int_of_digits (int_of_digits v s1) s2.
Proof. revert v. induction s1 as [|c s1 IH]; intros v; simpl; auto. Qed.

Lemma int_of_digits_zeros (k : nat) : int_of_digits 0 (zeros k) = 0%N.
Proof. induction k as [|k IH]; simpl; auto. Qed.

Lemma int_of_digits_go (fuel : nat) :
  forall (n : N) (acc : string),
    (n < 10 ^ N.of_nat fuel)%N ->
    int_of_digits 0 (digits_go fuel n acc) = int_of_digits n acc.
Proof.
  induction fuel as [|f IH]; intros n acc Hn.
  - simpl in *. assert (n = 0%N) by lia. subst. reflexivity.
  - cbn [digits_go].
    assert (Hmod : (n mod 10 < 10)%N) by (apply N.mod_lt; lia).
    assert (Hdiv : (n = 10 * (n / 10) + n mod 10)%N) by (apply N.div_mod; lia).
    destruct (N.eqb_spec (n / 10) 0) as [E|E].
    + cbn [int_of_digits]. rewrite digit_char_value by exact Hmod.
      f_equal. lia.
    + rewrite IH.
      * cbn [int_of_digits]. rewrite digit_char_value by exact Hmod.
        f_equal. lia.
      * rewrite Nat2N.inj_succ, N.pow_succ_r' in Hn.
        apply N.Div0.div_lt_upper_bound. lia.
Qed.

Lemma pos_lt_pow2_size (p : positive) :
  (N.pos p < 2 ^ N.of_nat (Pos.size_nat p))%N.
Proof.
  induction p as [p IH|p IH|]; cbn [Pos.size_nat];
    rewrite ?Nat2N.inj_succ, ?N.pow_succ_r'; try lia.
Qed.

Lemma N_lt_pow10_size (n : N) : (n < 10 ^ N.of_nat (S (N.size_nat n)))%N.
Proof.
  rewrite Nat2N.inj_succ, N.pow_succ_r'.
  assert (H2 : (n < 2 ^ N.of_nat (N.size_nat n))%N).
  { destruct n as [|p]; [simpl; lia | apply pos_lt_pow2_size]. }
  assert (Hle : (2 ^ N.of_nat (N.size_nat n) <= 10 ^ N.of_nat (N.size_nat n))%N)
    by (apply N.pow_le_mono_l; lia).
  lia.
Qed.

(** Reading back the digits of [str(n)] gives [n]. *)
Lemma int_of_str_of_N (n : N) : int_of_digits 0 (str_of_N n) = n.
Proof.
  unfold str_of_N. rewrite int_of_digits_go by apply N_lt_pow10_size.
  reflexivity.
Qed.

Lemma int_of_zero_pad (w : nat) (n : N) : int_of_digits 0 (zero_pad w n) = n.
Proof.
  unfold zero_pad. rewrite int_of_digits_app, int_of_digits_zeros.
  apply int_of_str_of_N.
Qed.

Lemma digits_go_length (fuel : nat) :
  forall (k : nat) (n : N) (acc : string),
    (1 <= k)%nat -> (n < 10 ^ N.of_nat k)%N ->
    (String.length (digits_go fuel n acc) <= k + String.length acc)%nat.
Proof.
  induction fuel as [|f IH]; intros k n acc Hk Hn; cbn [digits_go].
  - lia.
  - destruct (N.eqb_spec (n / 10) 0) as [E|E].
    + simpl. lia.
    + destruct k as [|k]; [lia|].
      rewrite Nat2N.inj_succ, N.pow_succ_r' in Hn.
      assert (Hd : (n / 10 < 10 ^ N.of_nat k)%N)
        by (apply N.Div0.div_lt_upper_bound; lia).
      destruct k as [|k].
      { change (N.of_nat 0) with 0%N in Hd. rewrite N.pow_0_r in Hd.
        exfalso. apply E. apply N.lt_1_r. exact Hd. }
      specialize (IH (S k) (n / 10)%N
                     (String (digit_char (n mod 10)) acc) ltac:(lia) Hd).
      simpl in IH. simpl. lia.
Qed.

Lemma length_zeros (k : nat) : String.length (zeros k) = k.
Proof. induction k; simpl; auto. Qed.

Lemma length_string_app (s1 s2 : string) :
  String.length (s1 ++ s2)%string = (String.length s1 + String.length s2)%nat.
Proof. induction s1; simpl; auto. Qed.

(** A number below [10^w] is printed on exactly [w] characters. *)
Lemma zero_pad_length (w : nat) (n : N) :
  (1 <= w)%nat -> (n < 10 ^ N.of_nat w)%N -> String.length (zero_pad w n) = w.
Proof.
  intros Hw Hn. unfold zero_pad.
  rewrite length_string_app, length_zeros.
  pose proof (digits_go_length (S (N.size_nat n)) w n "" Hw Hn) as Hl.
  change (String.length "") with 0%nat in Hl.
  unfold str_of_N. remember (digits_go (S (N.size_nat n)) n "") as ds. lia.
Qed.

Lemma strftime_Ymd_length (d : datetime) :
  valid_date d -> String.length (strftime_Ymd d) = 8%nat.
Proof.
  intros (Hy & Hm & Hd). unfold strftime_Ymd.
  rewrite !length_string_app, !zero_pad_length; simpl; lia.
Qed.

(** ** OrderService *)

Section ServiceFacts.
Context {D : Type} `{DecimalOps D} `{Database D}.
Implicit Types s : Session D.

Lemma count_orders_insert_fresh (m : gmap UUID (Order.t D)) k (o : Order.t D) org :
  m !! k = None ->
  OrderRepository.count_orders org (<[k := o]> m) =
  if decide (Order.organization_id o = org)
  then S (OrderRepository.count_orders org m)
  else OrderRepository.count_orders org m.
Proof.
  intros Hk. unfold OrderRepository.count_orders.
  rewrite map_filter_insert. simpl.
  destruct (decide (Order.organization_id o = org)) as [E|E].
  - rewrite map_size_insert_None; [reflexivity|].
    apply map_lookup_filter_None. left. exact Hk.
  - rewrite delete_id by exact Hk. reflexivity.
Qed.

Lemma order_number_free (m : gmap UUID (Order.t D)) n :
  (forall k o, m !! k = Some o -> Order.order_number o <> n) ->
  OrderRepository.order_number_taken n m = false.
Proof.
  intros Hfree. unfold OrderRepository.order_number_taken.
  apply bool_decide_eq_false. intros (k & o & Hk & Hn).
  exact (Hfree k o Hk Hn).
Qed.

Lemma generate_order_number_run now org s :
  OrderRepository.generate_order_number now org s =
  (Ok (next_order_number now org s), s).
Proof. reflexivity. Qed.

(** *** Rows *)

Lemma order_item_row_Some (item row : OrderItem.t D) :
  order_item_row item = Some row ->
  OrderItem.id row = OrderItem.id item /\
  OrderItem.product_id row = OrderItem.product_id item /\
  OrderItem.product_name row = OrderItem.product_name item /\
  OrderItem.sku row = OrderItem.sku item /\
  OrderItem.quantity row = OrderItem.quantity item /\
  OrderItem.notes row = OrderItem.notes item /\
  db_numeric 10 2 (OrderItem.unit_price item) = Some (OrderItem.unit_price row) /\
  db_numeric 5 2 (OrderItem.discount_percent item)
    = Some (OrderItem.discount_percent row) /\
  db_numeric 5 2 (OrderItem.tax_percent item) = Some (OrderItem.tax_percent row).
Proof.
  unfold order_item_row.
  destruct (_ && _ && _); [|discriminate].
  destruct (db_numeric 10 2 (OrderItem.unit_price item)) as [u|];
    simpl; [|discriminate].
  destruct (db_numeric 5 2 (OrderItem.discount_percent item)) as [d|];
    simpl; [|discriminate].
  destruct (db_numeric 5 2 (OrderItem.tax_percent item)) as [t|];
    simpl; [|discriminate].
  intros [= <-]. simpl. repeat split.
Qed.

Lemma order_row_Some (o row : Order.t D) :
  order_row o = Some row ->
  Order.id row = Order.id o /\
  Order.order_number row = Order.order_number o /\
  Order.organization_id row = Order.organization_id o /\
  Order.status row = Order.status o /\
  mapM order_item_row (Order.items o) = Some (Order.items row).
Proof.
  unfold order_row.
  destruct (_ && _ && _); [|discriminate].
  destruct (mapM order_item_row (Order.items o)) as [items|];
    simpl; [|discriminate].
  destruct (db_numeric 10 2 (Order.shipping_cost o)) as [sc|];
    simpl; [|discriminate].
  destruct (db_numeric 10 2 (Order.handling_fee o)) as [hf|];
    simpl; [|discriminate].
  intros [= <-]. simpl. repeat split.
Qed.

(** Storing again a row of the table, with other values in the columns that
    take any value, keeps it as it is. *)
Lemma order_row_kept (o o' : Order.t D) :
  order_row o = Some o ->
  Order.order_number o' = Order.order_number o ->
  Order.customer_name o' = Order.customer_name o ->
  Order.customer_email o' = Order.customer_email o ->
  Order.items o' = Order.items o ->
  Order.shipping_cost o' = Order.shipping_cost o ->
  Order.handling_fee o' = Order.handling_fee o ->
  order_row o' = Some o'.
Proof.
  destruct o as [i n og cn ce its st sc hf notes cb ua ca sa da], o'.
  simpl. intros Ho -> -> -> -> -> ->.
  revert Ho. unfold order_row. simpl.
  destruct (_ && _ && _); [|discriminate].
  destruct (mapM order_item_row its) as [its'|]; simpl; [|discriminate].
  destruct (db_numeric 10 2 sc) as [sc'|]; simpl; [|discriminate].
  destruct (db_numeric 10 2 hf) as [hf'|]; simpl; [|discriminate].
  intros [= -> -> ->]. reflexivity.
Qed.

Lemma mapM_snoc {A B} (f : A -> option B) (l : list A) (k : list B) x y :
  mapM f l = Some k -> f x = Some y -> mapM f (l ++ [x]) = Some (k ++ [y]).
Proof.
  intros Hl Hx. apply mapM_Some_2. apply Forall2_app.
  - apply mapM_Some_1. exact Hl.
  - constructor; [exact Hx | constructor].
Qed.

(** A row of the table with one more line is stored with the old lines as
    they are and the new line as its columns keep it. *)
Lemma order_row_add_line (o : Order.t D) (item line : OrderItem.t D) now :
  order_row o = Some o ->
  order_item_row item = Some line ->
  order_row (Order.set_updated_at now (Order.set_items (Order.items o ++ [item]) o))
  = Some (Order.set_updated_at now (Order.set_items (Order.items o ++ [line]) o)).
Proof.
  destruct o as [i n og cn ce its st sc hf notes cb ua ca sa da].
  unfold order_row. simpl. intros Ho Hline. revert Ho.
  destruct (_ && _ && _); [|discriminate].
  destruct (mapM order_item_row its) as [its'|] eqn:Hitems; simpl; [|discriminate].
  destruct (db_numeric 10 2 sc) as [sc'|]; simpl; [|discriminate].
  destruct (db_numeric 10 2 hf) as [hf'|]; simpl; [|discriminate].
  intros [= -> -> ->].
  rewrite (mapM_snoc _ _ _ _ _ Hitems Hline). reflexivity.
Qed.

(** *** The repository writes of an order *)

Lemma order_add_run (o : Order.t D) s :
  OrderRepository.add o s =
  match order_row o with
  | None => (Raise DatabaseError, s)
  | Some row =>
      if bool_decide (is_Some (orders s !! Order.id o))
      then (Raise IntegrityError, s)
      else if OrderRepository.order_number_taken (Order.order_number o) (orders s)
           then (Raise IntegrityError, s)
           else (Raise MissingGreenlet,
                 set_orders (<[Order.id o := row]> (orders s)) s)
  end.
Proof.
  unfold OrderRepository.add. unfold bind at 1. unfold get.
  destruct (order_row o) as [row|]; [|reflexivity].
  unfold bind at 1. unfold raise_if.
  destruct (bool_decide (is_Some (orders s !! Order.id o))); [reflexivity|].
  unfold ret at 1. unfold bind at 1.
  destruct (OrderRepository.order_number_taken _ _); reflexivity.
Qed.

Lemma order_update_run (o : Order.t D) s :
  OrderRepository.update o s =
  match order_row o with
  | None => (Raise DatabaseError, s)
  | Some row =>
      (Raise MissingGreenlet, set_orders (<[Order.id o := row]> (orders s)) s)
  end.
Proof.
  unfold OrderRepository.update. destruct (order_row o); reflexivity.
Qed.

(** Neither write returns, and neither touches the inventory or the log. *)
Lemma order_update_raises (o : Order.t D) s :
  is_ok (fst (OrderRepository.update o s)) = false /\
  fst (OrderRepository.update o s) <> Raise NotFound /\
  inventory_items (snd (OrderRepository.update o s)) = inventory_items s /\
  stock_movements (snd (OrderRepository.update o s)) = stock_movements s.
Proof.
  rewrite order_update_run. destruct (order_row o); repeat split; discriminate.
Qed.

Lemma create_order_run now new_id org name email by_ s :
  OrderService.create_order now new_id org name email by_ s =
  OrderRepository.add
    (Order.mk new_id (next_order_number now org s) org name email [] DRAFT
       (dec_of_int 0) (dec_of_int 0) None by_ now None None None) s.
Proof.
  unfold OrderService.create_order. unfold bind at 1.
  rewrite generate_order_number_run. reflexivity.
Qed.


Lemma for_each_cons {S A} (x : A) (xs : list A) (body : A -> Meth S unit) (st : S) :
  for_each (x :: xs) body st =
  match body x st with
  | (Ok _, st') => for_each xs body st'
  | (Raise e, st') => (Raise e, st')
  end.
Proof. reflexivity. Qed.

Lemma release_line_run now (item : OrderItem.t D) s :
  OrderService.release_line now item s =
  match inventory_items s !! OrderItem.product_id item with
  | None => (Ok tt, s)
  | Some inv =>
      if OrderItem.quantity item <=? 0 then (Raise InvalidQuantity, s)
      else
        let inv' := InventoryItem.set_updated_at now
                      (InventoryItem.set_quantity_reserved
                         (Z.max 0 (InventoryItem.quantity_reserved inv
                                   - OrderItem.quantity item)) inv) in
        (Ok tt, set_inventory_items
                  (<[InventoryItem.id inv := inv']> (inventory_items s)) s)
  end.
Proof.
  unfold OrderService.release_line, InventoryRepository.get_by_id,
    InventoryRepository.update.
  unfold bind at 1. unfold bind at 1. unfold get, ret.
  destruct (inventory_items s !! OrderItem.product_id item) as [inv|];
    [|reflexivity].
  unfold bind at 1. unfold call. rewrite release_reservation_run.
  destruct (OrderItem.quantity item <=? 0); reflexivity.
Qed.

Lemma sell_line_run now oid (item : OrderItem.t D) s :
  OrderService.sell_line now oid item s =
  match inventory_items s !! OrderItem.product_id item with
  | None => (Ok tt, s)
  | Some inv =>
      match InventoryItem.sell_stock now (OrderItem.quantity item) (Some oid) inv with
      | (Raise e, _) => (Raise e, s)
      | (Ok mv, inv') =>
          (Ok tt,
           set_inventory_items
             (<[InventoryItem.id inv' := inv']> (inventory_items s))
             (set_stock_movements (stock_movements s ++ [mv]) s))
      end
  end.
Proof.
  unfold OrderService.sell_line, InventoryRepository.get_by_id,
    InventoryRepository.update, InventoryRepository.add_stock_movement.
  unfold bind at 1. unfold bind at 1. unfold get, ret.
  destruct (inventory_items s !! OrderItem.product_id item) as [inv|];
    [|reflexivity].
  unfold bind at 1. unfold call.
  destruct (InventoryItem.sell_stock now (OrderItem.quantity item) (Some oid) inv)
    as [[mv|e] inv']; reflexivity.
Qed.

(** The loops touch the inventory and the movement log, never the orders. *)
Lemma release_lines_orders now (items : list (OrderItem.t D)) s :
  orders (snd (for_each items (OrderService.release_line now) s)) = orders s.
Proof.
  revert s. induction items as [|x xs IH]; intros s; [reflexivity|].
  rewrite for_each_cons, release_line_run.
  destruct (inventory_items s !! OrderItem.product_id x) as [inv|]; [|apply IH].
  destruct (OrderItem.quantity x <=? 0); [reflexivity|].
  etransitivity; [apply IH | reflexivity].
Qed.

Lemma sell_lines_orders now oid (items : list (OrderItem.t D)) s :
  orders (snd (for_each items (OrderService.sell_line now oid) s)) = orders s.
Proof.
  revert s. induction items as [|x xs IH]; intros s; [reflexivity|].
  rewrite for_each_cons, sell_line_run.
  destruct (inventory_items s !! OrderItem.product_id x) as [inv|]; [|apply IH].
  destruct (InventoryItem.sell_stock now (OrderItem.quantity x) (Some oid) inv)
    as [[mv|e] inv']; [|reflexivity].
  etransitivity; [apply IH | reflexivity].
Qed.

Lemma release_lines_not_NotFound now (items : list (OrderItem.t D)) s :
  fst (for_each items (OrderService.release_line now) s) <> Raise NotFound.
Proof.
  revert s. induction items as [|x xs IH]; intros s; [discriminate|].
  rewrite for_each_cons, release_line_run.
  destruct (inventory_items s !! OrderItem.product_id x) as [inv|]; [|apply IH].
  destruct (OrderItem.quantity x <=? 0); [discriminate|]. apply IH.
Qed.

Lemma sell_stock_not_NotFound now q o (it : InventoryItem.t D) :
  fst (InventoryItem.sell_stock now q o it) <> Raise NotFound.
Proof.
  rewrite sell_stock_run. unfold StockMovement.new.
  repeat case_test; discriminate.
Qed.

Lemma sell_lines_not_NotFound now oid (items : list (OrderItem.t D)) s :
  fst (for_each items (OrderService.sell_line now oid) s) <> Raise NotFound.
Proof.
  revert s. induction items as [|x xs IH]; intros s; [discriminate|].
  rewrite for_each_cons, sell_line_run.
  destruct (inventory_items s !! OrderItem.product_id x) as [inv|]; [|apply IH].
  pose proof (sell_stock_not_NotFound now (OrderItem.quantity x) (Some oid) inv) as Hs.
  destruct (InventoryItem.sell_stock now (OrderItem.quantity x) (Some oid) inv)
    as [[mv|e] inv']; [apply IH | simpl in *; congruence].
Qed.

(** With valid lines ([quantity >= 1]) the release loop always completes. *)
Lemma release_lines_ok now (items : list (OrderItem.t D)) s :
  Forall (fun i => 1 <= OrderItem.quantity i) items ->
  fst (for_each items (OrderService.release_line now) s) = Ok tt.
Proof.
  intros Hq. revert s. induction Hq as [|x xs Hx _ IH]; intros s; [reflexivity|].
  rewrite for_each_cons, release_line_run.
  destruct (inventory_items s !! OrderItem.product_id x) as [inv|]; [|apply IH].
  destruct (Z.leb_spec (OrderItem.quantity x) 0); [lia|]. apply IH.
Qed.

(** Lines whose product is not in the repository change nothing. *)
Lemma release_lines_missing now (items : list (OrderItem.t D)) s :
  Forall (fun i => inventory_items s !! OrderItem.product_id i = None) items ->
  for_each items (OrderService.release_line now) s = (Ok tt, s).
Proof.
  induction 1 as [|x xs Hx _ IH]; [reflexivity|].
  rewrite for_each_cons, release_line_run, Hx. exact IH.
Qed.

Lemma sell_lines_missing now oid (items : list (OrderItem.t D)) s :
  Forall (fun i => inventory_items s !! OrderItem.product_id i = None) items ->
  for_each items (OrderService.sell_line now oid) s = (Ok tt, s).
Proof.
  induction 1 as [|x xs Hx _ IH]; [reflexivity|].
  rewrite for_each_cons, sell_line_run, Hx. exact IH.
Qed.

Lemma cancel_order_run now oid reason s (o : Order.t D) :
  orders s !! oid = Some o ->
  OrderService.cancel_order now oid reason s =
  match for_each (Order.items o) (OrderService.release_line now) s with
  | (Raise e, s') => (Raise e, s')
  | (Ok _, s') =>
      match Order.cancel now reason o with
      | (Raise e, _) => (Raise e, s')
      | (Ok _, o') => OrderRepository.update o' s'
      end
  end.
Proof.
  intros Ho. unfold OrderService.cancel_order, OrderRepository.get_by_id.
  unfold bind at 1. unfold bind at 1. unfold get, ret. rewrite Ho.
  unfold bind at 1.
  destruct (for_each (Order.items o) (OrderService.release_line now) s)
    as [[[]|e] s']; [|reflexivity].
  unfold bind at 1. unfold call.
  destruct (Order.cancel now reason o) as [[[]|e] o']; reflexivity.
Qed.

Lemma ship_order_run now oid tracking s (o : Order.t D) :
  orders s !! oid = Some o ->
  OrderService.ship_order now oid tracking s =
  match for_each (Order.items o) (OrderService.sell_line now oid) s with
  | (Raise e, s') => (Raise e, s')
  | (Ok _, s') =>
      match Order.ship now tracking o with
      | (Raise e, _) => (Raise e, s')
      | (Ok _, o') => OrderRepository.update o' s'
      end
  end.
Proof.
  intros Ho. unfold OrderService.ship_order, OrderRepository.get_by_id.
  unfold bind at 1. unfold bind at 1. unfold get, ret. rewrite Ho.
  unfold bind at 1.
  destruct (for_each (Order.items o) (OrderService.sell_line now oid) s)
    as [[[]|e] s']; [|reflexivity].
  unfold bind at 1. unfold call.
  destruct (Order.ship now tracking o) as [[[]|e] o']; reflexivity.
Qed.

Lemma submit_order_run now oid s :
  OrderService.submit_order now oid s =
  match orders s !! oid with
  | None => (Raise NotFound, s)
  | Some o =>
      match Order.submit now o with
      | (Raise e, _) => (Raise e, s)
      | (Ok _, o') => OrderRepository.update o' s
      end
  end.
Proof.
  unfold OrderService.submit_order, OrderRepository.get_by_id.
  unfold bind at 1. unfold bind at 1. unfold get, ret.
  destruct (orders s !! oid) as [o|]; [|reflexivity].
  unfold bind at 1. unfold call.
  destruct (Order.submit now o) as [[[]|e] o']; reflexivity.
Qed.

Lemma confirm_order_run now oid s :
  OrderService.confirm_order now oid s =
  match orders s !! oid with
  | None => (Raise NotFound, s)
  | Some o =>
      match Order.confirm now o with
      | (Raise e, _) => (Raise e, s)
      | (Ok _, o') => OrderRepository.update o' s
      end
  end.
Proof.
  unfold OrderService.confirm_order, OrderRepository.get_by_id.
  unfold bind at 1. unfold bind at 1. unfold get, ret.
  destruct (orders s !! oid) as [o|]; [|reflexivity].
  unfold bind at 1. unfold call.
  destruct (Order.confirm now o) as [[[]|e] o']; reflexivity.
Qed.

Lemma add_item_to_order_run now iid oid pid q up disc s (o : Order.t D)
    (inv : InventoryItem.t D) :
  orders s !! oid = Some o ->
  inventory_items s !! pid = Some inv ->
  OrderService.add_item_to_order now iid oid pid q up disc s =
  if InventoryItem.quantity_available inv <? q then (Raise InsufficientStock, s)
  else
    match OrderItem.new iid (InventoryItem.id inv) (InventoryItem.name inv)
            (InventoryItem.sku inv) q
            (OrderService.dec_or up (InventoryItem.selling_price inv))
            disc (dec_of_int 0) None with
    | Raise e => (Raise e, s)
    | Ok item =>
        match Order.add_item now item o with
        | (Raise e, _) => (Raise e, s)
        | (Ok _, o') =>
            match InventoryItem.reserve_stock now q (Some oid) inv with
            | (Raise e, _) => (Raise e, s)
            | (Ok _, inv') =>
                OrderRepository.update o'
                  (set_inventory_items
                     (<[InventoryItem.id inv' := inv']> (inventory_items s)) s)
            end
        end
    end.
Proof.
  intros Ho Hi. unfold OrderService.add_item_to_order,
    OrderRepository.get_by_id, InventoryRepository.get_by_id,
    InventoryRepository.update.
  unfold bind at 1. unfold bind at 1. unfold get, ret. rewrite Ho.
  unfold bind at 1. unfold bind at 1. rewrite Hi.
  unfold bind at 1. unfold raise_if.
  destruct (InventoryItem.quantity_available inv <? q); [reflexivity|].
  unfold ret at 1. unfold bind at 1. unfold lift.
  destruct (OrderItem.new _ _ _ _ _ _ _ _ _) as [item|e]; [|reflexivity].
  unfold bind at 1. unfold call at 1.
  destruct (Order.add_item now item o) as [[[]|e] o']; [|reflexivity].
  unfold bind at 1. unfold call at 1. simpl snd.
  destruct (InventoryItem.reserve_stock now q (Some oid) inv) as [[[]|e] inv'];
    reflexivity.
Qed.

(** What [add_item_to_order] does when every check passes: the reservation
    is written, then the order with one more line, priced at
    [unit_price or selling_price]; then the reload raises. *)
Lemma add_item_to_order_ok now iid oid pid q up disc s (o : Order.t D)
    (inv : InventoryItem.t D) :
  orders s !! oid = Some o ->
  inventory_items s !! pid = Some inv ->
  can_modify (Order.status o) = true ->
  1 <= q <= InventoryItem.quantity_available inv ->
  OrderItem.constraints_ok q
    (OrderService.dec_or up (InventoryItem.selling_price inv)) disc (dec_of_int 0)
    = true ->
  let item := OrderItem.mk iid (InventoryItem.id inv) (InventoryItem.name inv)
                (InventoryItem.sku inv) q
                (OrderService.dec_or up (InventoryItem.selling_price inv))
                disc (dec_of_int 0) None in
  let o' := Order.set_updated_at now (Order.set_items (Order.items o ++ [item]) o) in
  let inv' := InventoryItem.set_updated_at now
                (InventoryItem.set_quantity_reserved
                   (InventoryItem.quantity_reserved inv + q) inv) in
  OrderService.add_item_to_order now iid oid pid q up disc s =
  OrderRepository.update o'
    (set_inventory_items (<[InventoryItem.id inv := inv']> (inventory_items s)) s).
Proof.
  intros Ho Hi Hm Hq Hc item o' inv'.
  rewrite (add_item_to_order_run _ _ _ _ _ _ _ _ o inv Ho Hi).
  destruct (Z.ltb_spec (InventoryItem.quantity_available inv) q); [lia|].
  unfold OrderItem.new. rewrite Hc.
  rewrite add_item_run, Hm. simpl.
  rewrite reserve_stock_run.
  destruct (Z.leb_spec q 0); [lia|].
  destruct (Z.ltb_spec (InventoryItem.quantity_available inv) q); [lia|].
  reflexivity.
Qed.

Lemma add_item_to_order_unknown now iid oid pid q up disc s :
  orders s !! oid = None ->
  OrderService.add_item_to_order now iid oid pid q up disc s = (Raise NotFound, s).
Proof.
  intros Ho. unfold OrderService.add_item_to_order, OrderRepository.get_by_id.
  unfold bind at 1. unfold bind at 1. unfold get, ret. rewrite Ho. reflexivity.
Qed.

Lemma add_item_to_order_no_product now iid oid pid q up disc s (o : Order.t D) :
  orders s !! oid = Some o ->
  inventory_items s !! pid = None ->
  OrderService.add_item_to_order now iid oid pid q up disc s = (Raise NotFound, s).
Proof.
  intros Ho Hmiss.
  unfold OrderService.add_item_to_order, OrderRepository.get_by_id,
    InventoryRepository.get_by_id.
  unfold bind at 1. unfold bind at 1. unfold get, ret. rewrite Ho.
  unfold bind at 1. unfold bind at 1. rewrite Hmiss. reflexivity.
Qed.

(** An order row that [add_item_to_order] writes is the stored order with
    one more line, whose price is what the column keeps of
    [unit_price or selling_price]. *)
Lemma add_item_to_order_writes now iid oid pid q up disc s k (row : Order.t D) :
  orders (snd (OrderService.add_item_to_order now iid oid pid q up disc s)) !! k
    = Some row ->
  orders s !! k <> Some row ->
  exists o inv lines line,
    orders s !! oid = Some o /\
    inventory_items s !! pid = Some inv /\
    mapM order_item_row (Order.items o) = Some lines /\
    Order.items row = lines ++ [line] /\
    db_numeric 10 2 (OrderService.dec_or up (InventoryItem.selling_price inv))
      = Some (OrderItem.unit_price line) /\
    OrderItem.quantity line = q /\
    OrderItem.product_id line = InventoryItem.id inv.
Proof.
  destruct (orders s !! oid) as [o|] eqn:Ho;
    [|rewrite add_item_to_order_unknown by exact Ho; simpl; congruence].
  destruct (inventory_items s !! pid) as [inv|] eqn:Hi;
    [|rewrite (add_item_to_order_no_product _ _ _ _ _ _ _ _ o Ho Hi);
      simpl; congruence].
  rewrite (add_item_to_order_run _ _ _ _ _ _ _ _ o inv Ho Hi).
  destruct (InventoryItem.quantity_available inv <? q); [simpl; congruence|].
  unfold OrderItem.new.
  destruct (OrderItem.constraints_ok q _ disc (dec_of_int 0));
    [|simpl; congruence].
  rewrite add_item_run.
  destruct (negb (can_modify (Order.status o))); [simpl; congruence|].
  destruct (InventoryItem.reserve_stock now q (Some oid) inv) as [[[]|e] inv'];
    [|simpl; congruence].
  rewrite order_update_run.
  destruct (order_row _) as [row'|] eqn:Hrow; [|simpl; congruence].
  simpl. intros Hk Hne.
  destruct (decide (Order.id o = k)) as [<-|Hneq];
    [|rewrite lookup_insert_ne in Hk by exact Hneq; congruence].
  rewrite lookup_insert_eq in Hk. injection Hk as ->.
  apply order_row_Some in Hrow as (_ & _ & _ & _ & Hitems). simpl in Hitems.
  apply mapM_Some_1, Forall2_app_inv_l in Hitems
    as (lines & last & Hlines & Hlast & Heq).
  apply Forall2_cons_inv_l in Hlast as (line & rest & Hline & Hrest & ->).
  apply Forall2_nil_inv_l in Hrest as ->.
  apply order_item_row_Some in Hline
    as (_ & Hpid & _ & _ & Hqty & _ & Hprice & _).
  exists o, inv, lines, line. repeat split; auto.
  apply mapM_Some_2. exact Hlines.
Qed.

(** C9. When [add_item_to_order] is given an explicit [unit_price] that is
    zero, the line it stores is priced at the product's [selling_price], as
    the [unit_price] column keeps it, and not at 0; an override takes effect
    only when it is not zero, and the stored price is then the override as
    the column keeps it. First for every order row the call writes; then,
    for an order that is a row of the table, the row written when the line
    is acceptable (order and product found, order modifiable,
    [1 <= quantity <= quantity_available], the line passing validation and
    taken by the columns): the old lines and the new line. *)
Theorem zero_price_override_ignored now iid oid pid q p disc s :
  (forall k (row : Order.t D),
     orders (snd (OrderService.add_item_to_order now iid oid pid q (Some p) disc s))
       !! k = Some row ->
     orders s !! k <> Some row ->
     exists o inv lines line,
       orders s !! oid = Some o /\
       inventory_items s !! pid = Some inv /\
       mapM order_item_row (Order.items o) = Some lines /\
       Order.items row = lines ++ [line] /\
       db_numeric 10 2
         (if dec_is_zero p then InventoryItem.selling_price inv else p)
         = Some (OrderItem.unit_price line)) /\
  (forall (o : Order.t D) (inv : InventoryItem.t D) (line : OrderItem.t D),
     orders s !! oid = Some o ->
     inventory_items s !! pid = Some inv ->
     order_row o = Some o ->
     can_modify (Order.status o) = true ->
     1 <= q <= InventoryItem.quantity_available inv ->
     let price := if dec_is_zero p then InventoryItem.selling_price inv else p in
     OrderItem.constraints_ok q price disc (dec_of_int 0) = true ->
     order_item_row
       (OrderItem.mk iid (InventoryItem.id inv) (InventoryItem.name inv)
          (InventoryItem.sku inv) q price disc (dec_of_int 0) None) = Some line ->
     orders (snd (OrderService.add_item_to_order now iid oid pid q (Some p) disc s))
       = <[Order.id o :=
             Order.set_updated_at now
               (Order.set_items (Order.items o ++ [line]) o)]> (orders s) /\
     OrderItem.quantity line = q /\
     OrderItem.product_id line = InventoryItem.id inv /\
     db_numeric 10 2 price = Some (OrderItem.unit_price line) /\
     (dec_is_zero p = true ->
      db_numeric 10 2 (InventoryItem.selling_price inv)
        = Some (InventoryItem.selling_price inv) ->
      OrderItem.unit_price line = InventoryItem.selling_price inv)).
Proof.
  split.
  - intros k row Hk Hne.
    destruct (add_item_to_order_writes _ _ _ _ _ _ _ _ _ _ Hk Hne)
      as (o & inv & lines & line & Ho & Hi & Hlines & Hitems & Hprice & _).
    exists o, inv, lines, line. simpl in Hprice. auto.
  - intros o inv line Ho Hi Hrow Hm Hq price Hc Hline.
    pose proof (add_item_to_order_ok now iid oid pid q (Some p) disc s o inv
                  Ho Hi Hm Hq) as Hok.
    simpl in Hok. fold price in Hok. specialize (Hok Hc).
    rewrite Hok, order_update_run.
    rewrite (order_row_add_line o _ line now Hrow Hline). simpl.
    apply order_item_row_Some in Hline
      as (_ & Hpid & _ & _ & Hqty & _ & Hprice & _).
    simpl in *. repeat split; auto.
    intros Hz Hsell. subst price. rewrite Hz in Hprice. congruence.
Qed.

(** C10. A line of the order whose product is not in the inventory
    repository is skipped by the loops of [cancel_order] and [ship_order]:
    nothing is released, sold or logged for it and nothing is raised. So,
    when the order exists, neither call ever raises NotFound;
    [cancel_order] on a cancellable order with valid lines stores the order
    as CANCELLED whichever products are missing; and when all products are
    missing, [cancel_order] and [ship_order] leave the inventory and the
    movement log as they were and store the order as CANCELLED, respectively
    SHIPPED. What these calls raise once the row is stored is the error of
    the reload in [OrderRepository.update]. [add_item_to_order], for an
    existing order and a missing product, raises NotFound and changes
    nothing. *)
Theorem missing_inventory_skipped :
  (forall now oid (item : OrderItem.t D) s,
     inventory_items s !! OrderItem.product_id item = None ->
     OrderService.release_line now item s = (Ok tt, s) /\
     OrderService.sell_line now oid item s = (Ok tt, s)) /\
  (forall now oid reason tracking s (o : Order.t D),
     orders s !! oid = Some o ->
     fst (OrderService.cancel_order now oid reason s) <> Raise NotFound /\
     fst (OrderService.ship_order now oid tracking s) <> Raise NotFound) /\
  (forall now oid reason s (o : Order.t D),
     orders s !! oid = Some o ->
     order_row o = Some o ->
     can_cancel (Order.status o) = true ->
     Forall (fun i => 1 <= OrderItem.quantity i) (Order.items o) ->
     let r := OrderService.cancel_order now oid reason s in
     fst r = Raise MissingGreenlet /\
     exists o',
       orders (snd r) !! Order.id o = Some o' /\
       Order.status o' = CANCELLED /\
       Order.items o' = Order.items o) /\
  (forall now oid reason s (o : Order.t D),
     orders s !! oid = Some o ->
     order_row o = Some o ->
     can_cancel (Order.status o) = true ->
     Forall (fun i => inventory_items s !! OrderItem.product_id i = None)
            (Order.items o) ->
     let r := OrderService.cancel_order now oid reason s in
     fst r = Raise MissingGreenlet /\
     exists o',
       Order.status o' = CANCELLED /\
       Order.items o' = Order.items o /\
       inventory_items (snd r) = inventory_items s /\
       stock_movements (snd r) = stock_movements s /\
       orders (snd r) = <[Order.id o := o']> (orders s)) /\
  (forall now oid tracking s (o : Order.t D),
     orders s !! oid = Some o ->
     order_row o = Some o ->
     Order.status o = CONFIRMED \/ Order.status o = PROCESSING ->
     Forall (fun i => inventory_items s !! OrderItem.product_id i = None)
            (Order.items o) ->
     let r := OrderService.ship_order now oid tracking s in
     fst r = Raise MissingGreenlet /\
     exists o',
       Order.status o' = SHIPPED /\
       Order.items o' = Order.items o /\
       inventory_items (snd r) = inventory_items s /\
       stock_movements (snd r) = stock_movements s /\
       orders (snd r) = <[Order.id o := o']> (orders s)) /\
  (forall now iid oid pid q up disc s (o : Order.t D),
     orders s !! oid = Some o ->
     inventory_items s !! pid = None ->
     OrderService.add_item_to_order now iid oid pid q up disc s
       = (Raise NotFound, s)).
Proof.
  split; [|split; [|split; [|split; [|split]]]].
  - intros now oid item s Hmiss.
    rewrite release_line_run, sell_line_run, Hmiss. split; reflexivity.
  - intros now oid reason tracking s o Ho. split.
    + rewrite (cancel_order_run _ _ _ _ o Ho).
      pose proof (release_lines_not_NotFound now (Order.items o) s) as Hl.
      destruct (for_each (Order.items o) (OrderService.release_line now) s)
        as [[[]|e] s']; [|simpl in *; congruence].
      destruct (Order.cancel now reason o) as [[[]|e] o'] eqn:Ec.
      * apply order_update_raises.
      * pose proof (f_equal fst Ec) as Ef. rewrite cancel_run in Ef.
        destruct (negb (can_cancel (Order.status o))); simpl in *; congruence.
    + rewrite (ship_order_run _ _ _ _ o Ho).
      pose proof (sell_lines_not_NotFound now oid (Order.items o) s) as Hl.
      destruct (for_each (Order.items o) (OrderService.sell_line now oid) s)
        as [[[]|e] s']; [|simpl in *; congruence].
      destruct (Order.ship now tracking o) as [[[]|e] o'] eqn:Ec.
      * apply order_update_raises.
      * pose proof (f_equal fst Ec) as Ef. rewrite ship_run in Ef.
        destruct (negb (bool_decide (Order.status o = CONFIRMED)
                        || bool_decide (Order.status o = PROCESSING)));
          simpl in *; congruence.
  - intros now oid reason s o Ho Hrow Hc Hq r. subst r.
    rewrite (cancel_order_run _ _ _ _ o Ho).
    pose proof (release_lines_ok now (Order.items o) s Hq) as Hl.
    destruct (for_each (Order.items o) (OrderService.release_line now) s)
      as [[[]|e] s']; [|discriminate Hl].
    rewrite cancel_run, Hc. simpl.
    destruct (str_truthy reason); rewrite order_update_run;
      (erewrite (order_row_kept o); [|exact Hrow|reflexivity..]);
      simpl; (split; [reflexivity|]); eexists;
      (split; [apply lookup_insert_eq | split; reflexivity]).
  - intros now oid reason s o Ho Hrow Hc Hmiss r. subst r.
    rewrite (cancel_order_run _ _ _ _ o Ho).
    rewrite (release_lines_missing now _ s Hmiss).
    rewrite cancel_run, Hc. simpl.
    destruct (str_truthy reason); rewrite order_update_run;
      (erewrite (order_row_kept o); [|exact Hrow|reflexivity..]);
      simpl; (split; [reflexivity|]); eexists;
      (split; [|split; [|split; [|split; [|reflexivity]]]]); reflexivity.
  - intros now oid tracking s o Ho Hrow Hst Hmiss r. subst r.
    rewrite (ship_order_run _ _ _ _ o Ho).
    rewrite (sell_lines_missing now oid _ s Hmiss).
    rewrite ship_run.
    assert (Hb : negb (bool_decide (Order.status o = CONFIRMED)
                       || bool_decide (Order.status o = PROCESSING)) = false).
    { destruct Hst as [-> | ->]; reflexivity. }
    rewrite Hb. simpl.
    destruct (str_truthy tracking); rewrite order_update_run;
      (erewrite (order_row_kept o); [|exact Hrow|reflexivity..]);
      simpl; (split; [reflexivity|]); eexists;
      (split; [|split; [|split; [|split; [|reflexivity]]]]); reflexivity.
  - intros now iid oid pid q up disc s o Ho Hmiss.
    exact (add_item_to_order_no_product _ _ _ _ _ _ _ _ o Ho Hmiss).
Qed.

Lemma cancel_order_unknown now oid reason s :
  orders s !! oid = None ->
  OrderService.cancel_order now oid reason s = (Raise NotFound, s).
Proof.
  intros Ho. unfold OrderService.cancel_order, OrderRepository.get_by_id.
  unfold bind at 1. unfold bind at 1. unfold get, ret. rewrite Ho. reflexivity.
Qed.

Lemma ship_order_unknown now oid tracking s :
  orders s !! oid = None ->
  OrderService.ship_order now oid tracking s = (Raise NotFound, s).
Proof.
  intros Ho. unfold OrderService.ship_order, OrderRepository.get_by_id.
  unfold bind at 1. unfold bind at 1. unfold get, ret. rewrite Ho. reflexivity.
Qed.

(** The part of all-or-nothing that does hold for [cancel_order] and
    [ship_order]: a call that raises a [ValueError] has written no order
    row. *)
Lemma failed_call_keeps_orders now oid reason tracking s e :
  is_ValueError e = true ->
  (fst (OrderService.cancel_order now oid reason s) = Raise e ->
   orders (snd (OrderService.cancel_order now oid reason s)) = orders s) /\
  (fst (OrderService.ship_order now oid tracking s) = Raise e ->
   orders (snd (OrderService.ship_order now oid tracking s)) = orders s).
Proof.
  intros He.
  destruct (orders s !! oid) as [o|] eqn:Ho.
  - rewrite (cancel_order_run _ _ reason _ o Ho), (ship_order_run _ _ tracking _ o Ho).
    split.
    + pose proof (release_lines_orders now (Order.items o) s) as Hl.
      destruct (for_each (Order.items o) (OrderService.release_line now) s)
        as [[[]|e'] s']; simpl in *; [|auto].
      destruct (Order.cancel now reason o) as [[[]|e'] o']; simpl; [|auto].
      rewrite order_update_run.
      destruct (order_row o'); simpl; intros [= <-]; discriminate He.
    + pose proof (sell_lines_orders now oid (Order.items o) s) as Hl.
      destruct (for_each (Order.items o) (OrderService.sell_line now oid) s)
        as [[[]|e'] s']; simpl in *; [|auto].
      destruct (Order.ship now tracking o) as [[[]|e'] o']; simpl; [|auto].
      rewrite order_update_run.
      destruct (order_row o'); simpl; intros [= <-]; discriminate He.
  - rewrite cancel_order_unknown, ship_order_unknown by exact Ho.
    split; reflexivity.
Qed.
End ServiceFacts.

(** C1. The code run on a history made of service calls only. After it,
    order o1 is SHIPPED, order o2 is a DRAFT holding a reservation of 5, and
    the widget has 7 on hand. [cancel_order] on o1 raises InvalidTransition
    and o1 stays SHIPPED, but the widget's [quantity_reserved] has gone from
    5 to 2. [ship_order] on o2 raises InvalidTransition and o2 stays a DRAFT,
    but the widget's [quantity_on_hand] has gone from 7 to 2, its
    [quantity_reserved] from 5 to 0, and a SALE movement has been logged. *)
Theorem cancel_ship_fail_after_inventory_change :
  (status_of busy_shop "o1" = Some SHIPPED /\
   status_of busy_shop "o2" = Some DRAFT /\
   reserved_of busy_shop "p1" = Some 5 /\
   on_hand_of busy_shop "p1" = Some 7 /\
   length (stock_movements busy_shop) = 1%nat) /\
  (let r := OrderService.cancel_order t1 "o1" None busy_shop in
   fst r = Raise InvalidTransition /\
   status_of (snd r) "o1" = Some SHIPPED /\
   reserved_of (snd r) "p1" = Some 2 /\
   on_hand_of (snd r) "p1" = Some 7) /\
  (let r := OrderService.ship_order t1 "o2" None busy_shop in
   fst r = Raise InvalidTransition /\
   status_of (snd r) "o2" = Some DRAFT /\
   reserved_of (snd r) "p1" = Some 0 /\
   on_hand_of (snd r) "p1" = Some 2 /\
   length (stock_movements (snd r)) = 2%nat).
Proof. vm_compute. repeat split. Qed.

(** ** The code run on concrete inputs *)

Lemma order_lifecycle_witness :
  let cs := [CallSubmit t0; CallDeliver t0; CallConfirm t0; CallShip t1 (Some "TRK-1");
             CallCancel t1 (Some "late"); CallDeliver t1] in
  let o := Order.set_items [line1] draft1 in
  map (fun st : Step Qc => (outcome st, Order.status (after st)))
      (order_history cs o)
  = [(Ok tt, PENDING); (Raise InvalidTransition, PENDING); (Ok tt, CONFIRMED);
     (Ok tt, SHIPPED); (Raise InvalidTransition, SHIPPED); (Ok tt, DELIVERED)] /\
  map (fun st : Step Qc => (outcome st, Order.status (after st)))
      (order_history [CallSubmit t0; CallCancel t1 None] draft1)
  = [(Raise EmptyOrder, DRAFT); (Ok tt, CANCELLED)] /\
  Forall (fun st : Step Qc =>
    (permitted_from (the_call st) (Order.status (before st)) = false ->
       outcome st = Raise InvalidTransition /\ after st = before st) /\
    (permitted_from (the_call st) (Order.status (before st)) = true ->
       if needs_lines (the_call st) && Order.is_empty (Order.items (before st))
       then outcome st = Raise EmptyOrder /\ after st = before st
       else outcome st = Ok tt /\
            Order.status (after st) = leads_to (the_call st)) /\
    (outcome st = Ok tt ->
       lifecycle_edge (the_call st) (Order.status (before st))
                      (Order.status (after st))) /\
    (outcome st <> Ok tt -> Order.status (after st) = Order.status (before st)) /\
    (Order.status (after st) = Order.status (before st) \/
     lifecycle_edge (the_call st) (Order.status (before st))
                    (Order.status (after st))))
    (order_history cs o) /\
  map the_call (order_history cs o) = cs /\
  (forall n st st', order_history cs o !! n = Some st ->
     order_history cs o !! S n = Some st' -> before st' = after st) /\
  (forall st, head (order_history cs o) = Some st -> before st = o).
Proof.
  intros cs o. split; [reflexivity|]. split; [reflexivity|].
  exact (order_lifecycle cs o).
Defined.

Lemma grand_total_spec_witness :
  can_modify (Order.status draft1) = true /\
  let r := Order.add_item t1 line1 draft1 in
  fst r = Ok tt /\
  Order.grand_total (snd r) =
    dec_add (dec_add (dec_add (py_sum OrderItem.total (Order.items draft1))
                              (OrderItem.total line1))
                     (Order.shipping_cost draft1))
            (Order.handling_fee draft1).
Proof.
  split; [reflexivity|].
  apply (proj2 (proj2 (proj2 grand_total_spec)) draft1 t1 line1). reflexivity.
Defined.



Lemma zero_price_override_ignored_witness :
  orders shop1 !! "o1" = Some draft1 /\
  inventory_items shop1 !! "p1" = Some widget /\
  order_row draft1 = Some draft1 /\
  can_modify (Order.status draft1) = true /\
  1 <= 3 <= InventoryItem.quantity_available widget /\
  dec_is_zero (Q2Qc 0) = true /\
  let line := OrderItem.mk "i1" "p1" "Widget" "SKU-001" 3 (Q2Qc (1999 # 100))
                (Q2Qc 0) (Q2Qc 0) None in
  let r := OrderService.add_item_to_order t1 "i1" "o1" "p1" 3 (Some (Q2Qc 0))
             (Q2Qc 0) shop1 in
  orders (snd r)
    = <[ "o1" := Order.set_updated_at t1 (Order.set_items [line] draft1) ]>
        (orders shop1) /\
  OrderItem.unit_price line = InventoryItem.selling_price widget.
Proof.
  assert (Ho : orders shop1 !! "o1" = Some draft1) by reflexivity.
  assert (Hi : inventory_items shop1 !! "p1" = Some widget) by reflexivity.
  assert (Hrow : order_row draft1 = Some draft1) by reflexivity.
  assert (Hm : can_modify (Order.status draft1) = true) by reflexivity.
  assert (Hq : 1 <= 3 <= InventoryItem.quantity_available widget)
    by (vm_compute; split; discriminate).
  assert (Hz : dec_is_zero (Q2Qc 0) = true) by reflexivity.
  repeat (split; [assumption|]).
  intros line r.
  assert (Hc : OrderItem.constraints_ok 3
                 (if dec_is_zero (Q2Qc 0) then InventoryItem.selling_price widget
                  else Q2Qc 0) (Q2Qc 0) (dec_of_int 0) = true)
    by (vm_compute; reflexivity).
  assert (Hline : order_item_row
                    (OrderItem.mk "i1" (InventoryItem.id widget)
                       (InventoryItem.name widget) (InventoryItem.sku widget) 3
                       (if dec_is_zero (Q2Qc 0)
                        then InventoryItem.selling_price widget else Q2Qc 0)
                       (Q2Qc 0) (dec_of_int 0) None) = Some line)
    by (vm_compute; reflexivity).
  assert (Hsell : db_numeric 10 2 (InventoryItem.selling_price widget)
                  = Some (InventoryItem.selling_price widget))
    by (vm_compute; reflexivity).
  destruct (proj2 (zero_price_override_ignored t1 "i1" "o1" "p1" 3 (Q2Qc 0)
                     (Q2Qc 0) shop1) draft1 widget line Ho Hi Hrow Hm Hq
              Hc Hline) as (Hst & _ & _ & _ & Hprice).
  split; [exact Hst|]. exact (Hprice Hz Hsell).
Defined.

Lemma missing_inventory_skipped_witness :
  orders shop3 !! "o3" = Some confirmed3 /\
  order_row confirmed3 = Some confirmed3 /\
  (Order.status confirmed3 = CONFIRMED \/ Order.status confirmed3 = PROCESSING) /\
  Forall (fun i => inventory_items shop3 !! OrderItem.product_id i = None)
         (Order.items confirmed3) /\
  let r := OrderService.ship_order t1 "o3" None shop3 in
  fst r = Raise MissingGreenlet /\
  exists o',
    Order.status o' = SHIPPED /\
    Order.items o' = Order.items confirmed3 /\
    inventory_items (snd r) = inventory_items shop3 /\
    stock_movements (snd r) = stock_movements shop3 /\
    orders (snd r) = <[Order.id confirmed3 := o']> (orders shop3).
Proof.
  assert (Ho : orders shop3 !! "o3" = Some confirmed3) by reflexivity.
  assert (Hrow : order_row confirmed3 = Some confirmed3) by reflexivity.
  assert (Hs : Order.status confirmed3 = CONFIRMED \/
               Order.status confirmed3 = PROCESSING) by (left; reflexivity).
  assert (Hmiss : Forall (fun i => inventory_items shop3 !! OrderItem.product_id i = None)
                    (Order.items confirmed3))
    by (repeat constructor).
  repeat (split; [assumption|]).
  exact (proj1 (proj2 (proj2 (proj2 (proj2 missing_inventory_skipped))))
           t1 "o3" None shop3 confirmed3 Ho Hrow Hs Hmiss).
Defined.

(** The scenarios of the unit tests. *)
Example scenario_order :
  fst (Order.submit t0 draft1) = Raise EmptyOrder /\
  let o1 := snd (Order.add_item t0 line1 draft1) in
  this (Order.subtotal o1) = (50 # 1)%Q /\
  this (Order.grand_total o1) = (50 # 1)%Q /\
  let r2 := Order.submit t0 o1 in
  fst r2 = Ok tt /\ Order.status (snd r2) = PENDING /\
  let r3 := Order.confirm t1 (snd r2) in
  fst r3 = Ok tt /\ Order.status (snd r3) = CONFIRMED /\
  Order.confirmed_at (snd r3) = Some t1.
Proof. vm_compute. repeat split. Qed.

Example scenario_receive_stock :
  let it := InventoryItem.set_quantity_on_hand 50 widget in
  let r := InventoryItem.receive_stock t1 25 (Some "PO-123") it in
  InventoryItem.quantity_on_hand (snd r) = 75 /\
  (StockMovement.quantity <$> (match fst r with Ok mv => Some mv | Raise _ => None end))
    = Some 25 /\
  (StockMovement.quantity_after <$> (match fst r with Ok mv => Some mv | Raise _ => None end))
    = Some 75 /\
  (StockMovement.movement_type <$> (match fst r with Ok mv => Some mv | Raise _ => None end))
    = Some PURCHASE.
Proof. vm_compute. repeat split. Qed.

Example scenario_order_numbers :
  zero_pad 5 42 = "00042" /\ zero_pad 5 123456 = "123456" /\
  strftime_Ymd t0 = "20261103" /\
  fst (OrderRepository.generate_order_number t1 "org1" busy_shop)
    = Ok "ORD-20261103-00003".
Proof. vm_compute. repeat split. Qed.

(** * Further properties *)

(** ** InventoryItem: the remaining operations *)

Section MoreInventoryFacts.
Context {D : Type} `{DecimalOps D}.
Implicit Types it : InventoryItem.t D.

(** X1. [receive_stock] with a quantity that is not positive raises
    InvalidQuantity and leaves the item as it was. With a positive quantity,
    on an item whose [quantity_on_hand] is non-negative, it returns a
    PURCHASE movement carrying the quantity, the reference and the new
    [quantity_on_hand], which has grown by the quantity; the reservation is
    not touched. *)
Theorem receive_stock_spec it now qty reference :
  0 <= InventoryItem.quantity_on_hand it ->
  let r := InventoryItem.receive_stock now qty reference it in
  (qty <= 0 -> r = (Raise InvalidQuantity, it)) /\
  (0 < qty ->
     fst r = Ok (StockMovement.mk (InventoryItem.id it) PURCHASE qty
                   (InventoryItem.quantity_on_hand it + qty) reference) /\
     InventoryItem.quantity_on_hand (snd r) = InventoryItem.quantity_on_hand it + qty /\
     InventoryItem.quantity_reserved (snd r) = InventoryItem.quantity_reserved it /\
     InventoryItem.updated_at (snd r) = now).
Proof.
  intros Hh r. subst r. rewrite receive_stock_run. split; intros Hq.
  - destruct (Z.leb_spec qty 0); [reflexivity | lia].
  - destruct (Z.leb_spec qty 0); [lia|]. unfold StockMovement.new.
    destruct (Z.ltb_spec (InventoryItem.quantity_on_hand it + qty) 0); [lia|].
    simpl. repeat split.
Qed.

(** X2. [adjust_stock] raises NegativeStock, changing nothing, exactly when
    the adjusted [quantity_on_hand] would be negative. Otherwise (a zero
    adjustment included) it returns a movement of the requested type with
    the signed amount, the reason as reference and the new
    [quantity_on_hand]; [quantity_reserved] is not touched, so the stock on
    hand can end below the reservation and [quantity_available] then reads 0. *)
Theorem adjust_stock_spec it now delta reason ty :
  let r := InventoryItem.adjust_stock now delta reason ty it in
  (InventoryItem.quantity_on_hand it + delta < 0 ->
     r = (Raise NegativeStock, it)) /\
  (0 <= InventoryItem.quantity_on_hand it + delta ->
     fst r = Ok (StockMovement.mk (InventoryItem.id it) ty delta
                   (InventoryItem.quantity_on_hand it + delta) (Some reason)) /\
     InventoryItem.quantity_on_hand (snd r) = InventoryItem.quantity_on_hand it + delta /\
     InventoryItem.quantity_reserved (snd r) = InventoryItem.quantity_reserved it /\
     (InventoryItem.quantity_on_hand it + delta <= InventoryItem.quantity_reserved it ->
        InventoryItem.quantity_available (snd r) = 0)).
Proof.
  intros r. subst r. rewrite adjust_stock_run. split; intros Hq.
  - destruct (Z.ltb_spec (InventoryItem.quantity_on_hand it + delta) 0);
      [reflexivity | lia].
  - destruct (Z.ltb_spec (InventoryItem.quantity_on_hand it + delta) 0); [lia|].
    unfold StockMovement.new.
    destruct (Z.ltb_spec (InventoryItem.quantity_on_hand it + delta) 0); [lia|].
    simpl. repeat split. intros Hle.
    unfold InventoryItem.quantity_available. simpl. lia.
Qed.

Lemma run_stock_call_after c it :
  snd (run_stock_call c it) = after_stock_call c it.
Proof.
  destruct c; simpl; unfold bind, ret;
    match goal with
    | |- context [?m it] =>
        match type of (m it) with
        | (result _ * _)%type => destruct (m it) as [[?|?] ?]; reflexivity
        end
    end.
Qed.

(** X3. On an item whose [quantity_on_hand] is non-negative, each of the
    five stock operations, with any arguments, either returns or leaves the
    item exactly as it was: an operation that raises has changed nothing. *)
Theorem stock_call_all_or_nothing (c : StockCall) it :
  0 <= InventoryItem.quantity_on_hand it ->
  is_ok (fst (run_stock_call c it)) = false ->
  snd (run_stock_call c it) = it.
Proof.
  intros Hh. destruct c; simpl; unfold bind, ret.
  - rewrite reserve_stock_run. repeat case_test; auto; discriminate.
  - rewrite release_reservation_run. repeat case_test; auto; discriminate.
  - rewrite sell_stock_run. unfold StockMovement.new.
    destruct (quantity <=? 0); [auto|].
    destruct (Z.ltb_spec (InventoryItem.quantity_on_hand it) quantity); [auto|].
    cbv zeta.
    destruct (Z.ltb_spec (InventoryItem.quantity_on_hand it - quantity) 0); [lia|].
    discriminate.
  - rewrite receive_stock_run. unfold StockMovement.new.
    destruct (Z.leb_spec quantity 0); [auto|].
    destruct (Z.ltb_spec (InventoryItem.quantity_on_hand it + quantity) 0); [lia|].
    discriminate.
  - rewrite adjust_stock_run. unfold StockMovement.new.
    destruct (Z.ltb_spec (InventoryItem.quantity_on_hand it + quantity) 0); [auto|].
    destruct (Z.ltb_spec (InventoryItem.quantity_on_hand it + quantity) 0); [lia|].
    discriminate.
Qed.

Lemma after_stock_call_within c it :
  not_negative_adjust c ->
  0 <= InventoryItem.quantity_reserved it <= InventoryItem.quantity_on_hand it ->
  0 <= InventoryItem.quantity_reserved (after_stock_call c it)
    <= InventoryItem.quantity_on_hand (after_stock_call c it).
Proof.
  intros Hc Hr. destruct c; simpl in *.
  - rewrite reserve_stock_run.
    destruct (Z.leb_spec quantity 0); [simpl; lia|].
    destruct (Z.ltb_spec (InventoryItem.quantity_available it) quantity);
      [simpl; lia|].
    unfold InventoryItem.quantity_available in *. simpl. lia.
  - rewrite release_reservation_run. repeat case_test; lia.
  - rewrite sell_stock_run. repeat case_test; lia.
  - rewrite receive_stock_run. repeat case_test; lia.
  - rewrite adjust_stock_run. repeat case_test; lia.
Qed.

(** X4. The reservation never exceeds the stock on hand: starting from
    [0 <= quantity_reserved <= quantity_on_hand], any sequence of stock
    calls that contains no adjustment by a negative amount, each call
    returning or raising, keeps that bound, and [quantity_available] is then
    exactly [quantity_on_hand - quantity_reserved]. *)
Theorem reservation_within_stock (cs : list StockCall) it :
  Forall not_negative_adjust cs ->
  0 <= InventoryItem.quantity_reserved it <= InventoryItem.quantity_on_hand it ->
  let it' := after_stock_calls cs it in
  0 <= InventoryItem.quantity_reserved it' <= InventoryItem.quantity_on_hand it' /\
  InventoryItem.quantity_available it' =
    InventoryItem.quantity_on_hand it' - InventoryItem.quantity_reserved it'.
Proof.
  intros Hcs. revert it. induction Hcs as [|c cs Hc _ IH]; intros it Hr; simpl.
  - split; [exact Hr|]. unfold InventoryItem.quantity_available. lia.
  - apply IH. apply after_stock_call_within; assumption.
Qed.

(** X5. A reservation that succeeds lowers [quantity_available] by exactly
    the reserved quantity. Selling that same quantity right after, on an
    item whose [quantity_reserved] was non-negative, returns, takes the
    quantity off [quantity_on_hand], puts [quantity_reserved] back to its
    value before the reservation and leaves [quantity_available] where the
    reservation had put it. *)
Theorem reserve_then_sell it now now' qty o o' :
  0 <= InventoryItem.quantity_reserved it ->
  fst (InventoryItem.reserve_stock now qty o it) = Ok tt ->
  let it1 := snd (InventoryItem.reserve_stock now qty o it) in
  let r := InventoryItem.sell_stock now' qty o' it1 in
  InventoryItem.quantity_available it1 = InventoryItem.quantity_available it - qty /\
  is_ok (fst r) = true /\
  InventoryItem.quantity_on_hand (snd r) = InventoryItem.quantity_on_hand it - qty /\
  InventoryItem.quantity_reserved (snd r) = InventoryItem.quantity_reserved it /\
  InventoryItem.quantity_available (snd r) = InventoryItem.quantity_available it1.
Proof.
  intros Hr Hok it1 r. subst r it1. revert Hok.
  rewrite sell_stock_run, reserve_stock_run.
  destruct (Z.leb_spec qty 0); [discriminate|].
  destruct (Z.ltb_spec (InventoryItem.quantity_available it) qty); [discriminate|].
  intros _. unfold InventoryItem.quantity_available in *. simpl.
  destruct (Z.ltb_spec (InventoryItem.quantity_on_hand it) qty); [lia|].
  unfold StockMovement.new. cbv zeta.
  destruct (Z.ltb_spec (InventoryItem.quantity_on_hand it - qty) 0); [lia|].
  destruct (Z.ltb_spec 0 (InventoryItem.quantity_reserved it + qty)); [|lia].
  simpl. repeat split; lia.
Qed.

(** X6. [get_low_stock_items] returns exactly the stored items of the
    organization that are active, trackable and have
    [quantity_on_hand <= reorder_point]. Each of them, if its reservation is
    and its [reorder_point] are non-negative, has [needs_reorder]; but
    [needs_reorder] looks at [quantity_available], so an item whose stock on
    hand is above the reorder point while its available stock is not needs
    reordering and is not returned. *)
Theorem low_stock_items_need_reorder (org : UUID) (s : Session D) :
  let r := get_low_stock_items org s in
  snd r = s /\
  exists items, fst r = Ok items /\
    (forall item, item ∈ items <->
       (exists k, inventory_items s !! k = Some item) /\
       InventoryItem.organization_id item = org /\
       InventoryItem.is_active item = true /\
       InventoryItem.is_trackable item = true /\
       InventoryItem.quantity_on_hand item <= InventoryItem.reorder_point item) /\
    (forall item, item ∈ items ->
       0 <= InventoryItem.quantity_reserved item ->
       0 <= InventoryItem.reorder_point item ->
       InventoryItem.needs_reorder item = true) /\
    (forall item,
       0 <= InventoryItem.reorder_point item < InventoryItem.quantity_on_hand item ->
       InventoryItem.quantity_on_hand item - InventoryItem.quantity_reserved item
         <= InventoryItem.reorder_point item ->
       InventoryItem.needs_reorder item = true /\ item ∉ items).
Proof.
  intros r. subst r. unfold get_low_stock_items, bind, get, ret. simpl.
  split; [reflexivity|]. eexists. split; [reflexivity|].
  assert (Hin : forall item,
    item ∈ filter (fun item => low_stock_row org item = true)
             (snd <$> map_to_list (inventory_items s)) <->
    (exists k, inventory_items s !! k = Some item) /\
    InventoryItem.organization_id item = org /\
    InventoryItem.is_active item = true /\
    InventoryItem.is_trackable item = true /\
    InventoryItem.quantity_on_hand item <= InventoryItem.reorder_point item).
  { intros item. rewrite list_elem_of_filter, list_elem_of_fmap.
    unfold low_stock_row. rewrite !andb_true_iff, bool_decide_eq_true, Z.leb_le.
    split.
    - intros ((((Ho & Ha) & Ht) & Hq) & ([k x] & -> & Hk)).
      apply elem_of_map_to_list in Hk. simpl. repeat split; eauto.
    - intros ((k & Hk) & Ho & Ha & Ht & Hq). split; [auto|].
      exists (k, item). split; [reflexivity|]. apply elem_of_map_to_list. exact Hk. }
  split; [exact Hin|]. split.
  - intros item Hi Hr Hp. apply Hin in Hi. destruct Hi as (_ & _ & _ & _ & Hq).
    unfold InventoryItem.needs_reorder, InventoryItem.quantity_available.
    apply Z.leb_le. lia.
  - intros item Hp Hq. split.
    + unfold InventoryItem.needs_reorder, InventoryItem.quantity_available.
      apply Z.leb_le. lia.
    + intros Hi. apply Hin in Hi. lia.
Qed.
End MoreInventoryFacts.

(** ** Order: lines and histories *)

Section MoreOrderFacts.
Context {D : Type} `{DecimalOps D}.
Implicit Types o : Order.t D.

Lemma set_items_same o : Order.set_items (Order.items o) o = o.
Proof. destruct o; reflexivity. Qed.

Lemma filter_same_length {A} (P : A -> Prop) `{forall x, Decision (P x)} (l : list A) :
  length (filter P l) = length l -> filter P l = l.
Proof.
  induction l as [|x l IH]; [reflexivity|].
  rewrite filter_cons. destruct (decide (P x)); simpl; intros Hl.
  - f_equal. apply IH. lia.
  - pose proof (length_filter P l). lia.
Qed.

Lemma filter_all {A} (P : A -> Prop) `{forall x, Decision (P x)} (l : list A) :
  Forall P l -> filter P l = l.
Proof.
  induction 1 as [|x l Hx _ IH]; [reflexivity|].
  rewrite filter_cons, decide_True by exact Hx. f_equal. exact IH.
Qed.

Lemma filter_some_out {A} (P : A -> Prop) `{forall x, Decision (P x)} (l : list A) :
  Exists (fun x => ~ P x) l -> length (filter P l) <> length l.
Proof.
  intros Hex Hl. apply filter_same_length in Hl.
  apply list.Exists_exists in Hex. destruct Hex as (x & Hx & Hn).
  rewrite <- Hl in Hx. apply list_elem_of_filter in Hx.
  tauto.
Qed.

Lemma remove_item_run o now item_id :
  Order.remove_item now item_id o =
  if negb (can_modify (Order.status o)) then (Raise NotModifiable, o)
  else
    let kept := filter (fun item => OrderItem.id item <> item_id) (Order.items o) in
    if (length kept =? length (Order.items o))%nat
    then (Raise ItemNotFound, Order.set_items kept o)
    else (Ok tt, Order.set_updated_at now (Order.set_items kept o)).
Proof.
  unfold Order.remove_item. run_meth. repeat case_test; reflexivity.
Qed.

Lemma py_sum_int_snoc {A} (f : A -> Z) (xs : list A) (x : A) :
  py_sum_int f (xs ++ [x]) = py_sum_int f xs + f x.
Proof. unfold py_sum_int. rewrite fold_left_app. reflexivity. Qed.

(** X7. [add_item] on an order that is not in DRAFT or PENDING raises and
    leaves the order as it was. Otherwise it returns, the line is the last
    one of the order, the lines before it and the status are as they were,
    and [item_count] has grown by the line's quantity. No check is made on
    the line itself: one whose id is already in the order is added too. *)
Theorem add_item_spec o now (item : OrderItem.t D) :
  let r := Order.add_item now item o in
  (can_modify (Order.status o) = false -> r = (Raise NotModifiable, o)) /\
  (can_modify (Order.status o) = true ->
     fst r = Ok tt /\
     Order.items (snd r) = Order.items o ++ [item] /\
     Order.status (snd r) = Order.status o /\
     Order.item_count (snd r) = Order.item_count o + OrderItem.quantity item /\
     length (Order.items (snd r)) = S (length (Order.items o))).
Proof.
  intros r. subst r. rewrite add_item_run. split; intros ->; simpl.
  - reflexivity.
  - repeat split.
    + unfold Order.item_count. simpl. apply py_sum_int_snoc.
    + rewrite length_app. simpl. lia.
Qed.

(** X8. [remove_item] on an order that is not in DRAFT or PENDING raises
    and leaves the order as it was. On a modifiable order, when no line has
    the id it raises ItemNotFound and the order is as it was; when some line
    has it, the call returns, every line with that id is gone and the other
    lines are kept, in their order. *)
Theorem remove_item_spec o now (item_id : UUID) :
  let r := Order.remove_item now item_id o in
  (can_modify (Order.status o) = false -> r = (Raise NotModifiable, o)) /\
  (can_modify (Order.status o) = true ->
   Forall (fun i => OrderItem.id i <> item_id) (Order.items o) ->
     r = (Raise ItemNotFound, o)) /\
  (can_modify (Order.status o) = true ->
   Exists (fun i => OrderItem.id i = item_id) (Order.items o) ->
     fst r = Ok tt /\
     Order.items (snd r) =
       filter (fun i => OrderItem.id i <> item_id) (Order.items o) /\
     Forall (fun i => OrderItem.id i <> item_id) (Order.items (snd r)) /\
     (forall i, OrderItem.id i <> item_id ->
        (i ∈ Order.items (snd r) <-> i ∈ Order.items o)) /\
     (length (Order.items (snd r)) < length (Order.items o))%nat /\
     Order.status (snd r) = Order.status o).
Proof.
  intros r. subst r. rewrite remove_item_run.
  split; [|split].
  - intros ->. reflexivity.
  - intros -> Hall. simpl. rewrite (filter_all _ _ Hall), Nat.eqb_refl.
    rewrite set_items_same. reflexivity.
  - intros -> Hex. simpl.
    assert (Hne : length (filter (fun i => OrderItem.id i <> item_id) (Order.items o))
                  <> length (Order.items o)).
    { apply filter_some_out. eapply Exists_impl; [exact Hex|].
      simpl. intros i Hi Hn. exact (Hn Hi). }
    apply Nat.eqb_neq in Hne as Hb. rewrite Hb. simpl.
    repeat split.
    + apply Forall_forall. intros i Hi. apply list_elem_of_filter in Hi. tauto.
    + intros Hi. apply list_elem_of_filter in Hi. tauto.
    + intros Hi. apply list_elem_of_filter. tauto.
    + pose proof (length_filter (fun i => OrderItem.id i <> item_id) (Order.items o)).
      lia.
Qed.

(** X9. Adding a line whose id is not yet in a modifiable order and then
    removing that id gives back the lines the order had, in their order,
    with the status unchanged. *)
Theorem add_then_remove_item o now now' (item : OrderItem.t D) :
  can_modify (Order.status o) = true ->
  Forall (fun i => OrderItem.id i <> OrderItem.id item) (Order.items o) ->
  let o1 := snd (Order.add_item now item o) in
  let r := Order.remove_item now' (OrderItem.id item) o1 in
  fst r = Ok tt /\
  Order.items (snd r) = Order.items o /\
  Order.status (snd r) = Order.status o.
Proof.
  intros Hm Hall o1 r. subst r o1.
  rewrite add_item_run, Hm. simpl. rewrite remove_item_run. simpl. rewrite Hm.
  simpl. rewrite filter_app, (filter_all _ _ Hall).
  rewrite filter_cons, decide_False by (intros Hn; apply Hn; reflexivity).
  rewrite filter_nil, app_nil_r, length_app. simpl.
  destruct (Nat.eqb_spec (length (Order.items o)) (length (Order.items o) + 1));
    [lia|].
  simpl. repeat split.
Qed.

Lemma order_op_run op o :
  order_op op o =
  match op with
  | OpLifecycle c => order_call c o
  | OpAddItem now item => Order.add_item now item o
  | OpRemoveItem now item_id => Order.remove_item now item_id o
  end.
Proof. destruct op; reflexivity. Qed.

Lemma order_op_consistent (op : OrderOp D) o :
  order_consistent o -> order_consistent (snd (order_op op o)).
Proof.
  unfold order_consistent. destruct op as [c|now item|now item_id]; simpl.
  - destruct c; simpl;
      [rewrite submit_run | rewrite confirm_run | rewrite ship_run
      | rewrite deliver_run | rewrite cancel_run];
      destruct (Order.status o) eqn:Es; simpl; try rewrite Es; try tauto;
      try (destruct (Order.items o) eqn:Ei; simpl; try rewrite Es; try rewrite Ei;
           intuition (try congruence; eauto; try discriminate));
      try (destruct (str_truthy tracking_number); simpl; try rewrite Es;
           intuition (try congruence; eauto));
      try (destruct (str_truthy reason); simpl; try rewrite Es;
           intuition (try congruence; eauto)).
  - rewrite add_item_run.
    destruct (Order.status o) eqn:Es; simpl; rewrite ?Es; tauto.
  - rewrite remove_item_run.
    destruct (Order.status o) eqn:Es; simpl; rewrite ?Es; try tauto;
      case_test; rewrite ?Es; tauto.
Qed.

(** X10. Starting from a newly built order (DRAFT, no lifecycle timestamp),
    after any sequence of calls of [submit], [confirm], [ship], [deliver],
    [cancel], [add_item] and [remove_item], with any arguments and each
    returning or raising: the status is never PROCESSING or REFUNDED; an
    order in CONFIRMED, SHIPPED or DELIVERED has at least one line and a
    [confirmed_at]; [shipped_at] is set exactly in SHIPPED and DELIVERED and
    [delivered_at] exactly in DELIVERED; a DRAFT or PENDING order has none
    of the three; a CANCELLED order was never shipped. *)
Theorem order_history_consistent (ops : list (OrderOp D)) o :
  fresh_order o ->
  let o' := after_order_ops ops o in
  order_consistent o' /\
  Order.status o' <> PROCESSING /\ Order.status o' <> REFUNDED /\
  (is_Some (Order.shipped_at o') <->
     Order.status o' = SHIPPED \/ Order.status o' = DELIVERED) /\
  (is_Some (Order.delivered_at o') <-> Order.status o' = DELIVERED) /\
  (is_Some (Order.confirmed_at o') -> Order.status o' <> DRAFT /\
     Order.status o' <> PENDING).
Proof.
  intros (Hs & Hc & Hsh & Hd) o'.
  assert (Hcons : order_consistent o').
  { subst o'. assert (H0 : order_consistent o)
      by (unfold order_consistent; rewrite Hs; auto).
    clear Hs Hc Hsh Hd. revert o H0.
    induction ops as [|op ops IH]; intros o H0; simpl; [exact H0|].
    apply IH. apply order_op_consistent. exact H0. }
  split; [exact Hcons|]. clearbody o'. unfold order_consistent in Hcons.
  destruct (Order.status o') eqn:Es; try contradiction;
    repeat match goal with Hx : _ /\ _ |- _ => destruct Hx end;
    repeat match goal with Hx : _ = None |- _ => rewrite Hx end;
    repeat split; try discriminate; auto;
    try (intros [? ?]; discriminate);
    try (intros [?|?]; discriminate);
    try match goal with Hx : is_Some None |- _ => destruct Hx; discriminate end.
Qed.

Lemma order_op_frozen (op : OrderOp D) o :
  can_modify (Order.status o) = false ->
  Order.items (snd (order_op op o)) = Order.items o /\
  can_modify (Order.status (snd (order_op op o))) = false /\
  (terminal (Order.status o) = true -> snd (order_op op o) = o).
Proof.
  intros Hm. destruct op as [c|now item|now item_id]; simpl.
  - destruct c; simpl;
      [rewrite submit_run | rewrite confirm_run | rewrite ship_run
      | rewrite deliver_run | rewrite cancel_run];
      destruct (Order.status o) eqn:Es; try discriminate Hm; simpl;
      try destruct (Order.is_empty (Order.items o)); simpl; rewrite ?Es;
      try destruct (str_truthy tracking_number); try destruct (str_truthy reason);
      simpl; repeat split; auto; discriminate.
  - rewrite add_item_run, Hm. simpl. auto.
  - rewrite remove_item_run, Hm. simpl. auto.
Qed.

(** X11. Once an order is outside DRAFT and PENDING, no sequence of calls
    of the seven mutating methods changes its lines again, so its totals are
    fixed, and it never becomes modifiable again. An order in DELIVERED,
    CANCELLED or REFUNDED is not changed at all by any such sequence. *)
Theorem order_frozen (ops : list (OrderOp D)) o :
  can_modify (Order.status o) = false ->
  let o' := after_order_ops ops o in
  Order.items o' = Order.items o /\
  Order.grand_total o' =
    dec_add (dec_add (py_sum OrderItem.total (Order.items o))
                     (Order.shipping_cost o')) (Order.handling_fee o') /\
  Order.item_count o' = Order.item_count o /\
  can_modify (Order.status o') = false /\
  (terminal (Order.status o) = true -> o' = o).
Proof.
  intros Hm o'. subst o'.
  assert (Hgen : Order.items (after_order_ops ops o) = Order.items o /\
                 can_modify (Order.status (after_order_ops ops o)) = false /\
                 (terminal (Order.status o) = true -> after_order_ops ops o = o)).
  { revert o Hm. induction ops as [|op ops IH]; intros o Hm; simpl; [auto|].
    destruct (order_op_frozen op o Hm) as (Hi & Hm' & Ht).
    destruct (IH _ Hm') as (Hi2 & Hm2 & Ht2). split; [congruence|].
    split; [exact Hm2|]. intros Hterm. rewrite (Ht Hterm) in *. auto. }
  destruct Hgen as (Hi & Hm' & Ht). repeat split; auto.
  - unfold Order.grand_total. rewrite Hi. reflexivity.
  - unfold Order.item_count. rewrite Hi. reflexivity.
Qed.
End MoreOrderFacts.

(** ** Sequences of service calls *)

Section SessionFacts.
Context {D : Type} `{DecimalOps D} `{Database D}.
Implicit Types s : Session D.

(** What a stock call that returned has done to the item. *)
Lemma run_stock_call_ok (c : StockCall) (item item' : InventoryItem.t D) mv :
  run_stock_call c item = (Ok mv, item') ->
  InventoryItem.id item' = InventoryItem.id item /\
  InventoryItem.quantity_on_hand item' =
    InventoryItem.quantity_on_hand item + from_option StockMovement.quantity 0 mv /\
  (forall m, mv = Some m ->
     StockMovement.inventory_item_id m = InventoryItem.id item /\
     StockMovement.quantity_after m = InventoryItem.quantity_on_hand item') /\
  item' = after_stock_call c item.
Proof.
  intros Hrun.
  assert (Hafter : item' = after_stock_call c item)
    by (rewrite <- run_stock_call_after, Hrun; reflexivity).
  revert Hrun. destruct c; simpl; unfold bind, ret.
  - rewrite reserve_stock_run. repeat case_test; intros [= <- <-]; simpl;
      repeat split; auto; try lia; discriminate.
  - rewrite release_reservation_run. repeat case_test; intros [= <- <-]; simpl;
      repeat split; auto; try lia; discriminate.
  - rewrite sell_stock_run. unfold StockMovement.new.
    repeat case_test; intros [= <- <-]; simpl;
      repeat split; auto; try lia;
      match goal with Hm : Some _ = Some _ |- _ => injection Hm as <- end; reflexivity.
  - rewrite receive_stock_run. unfold StockMovement.new.
    repeat case_test; intros [= <- <-]; simpl;
      repeat split; auto; try lia;
      match goal with Hm : Some _ = Some _ |- _ => injection Hm as <- end; reflexivity.
  - rewrite adjust_stock_run. unfold StockMovement.new.
    repeat case_test; intros [= <- <-]; simpl;
      repeat split; auto; try lia;
      match goal with Hm : Some _ = Some _ |- _ => injection Hm as <- end; reflexivity.
Qed.

Lemma ledger_sum_app pid (a b : list StockMovement.t) :
  ledger_sum pid (a ++ b) = ledger_sum pid a + ledger_sum pid b.
Proof.
  induction a as [|m a IH]; simpl; [reflexivity|].
  rewrite IH. destruct (bool_decide _); lia.
Qed.

(** *** The stock routes *)

Lemma flush_stock_run mv (inv' : InventoryItem.t D) s :
  InventoryRoutes.flush_stock mv inv' s s =
  if InventoryRoutes.flush_fits mv inv'
  then (Http200 inv',
        set_inventory_items
          (<[InventoryItem.id inv' := inv']> (inventory_items s))
          (set_stock_movements (stock_movements s ++ [mv]) s))
  else (Http500 DatabaseError, s).
Proof.
  unfold InventoryRoutes.flush_stock.
  destruct (InventoryRoutes.flush_fits mv inv'); reflexivity.
Qed.

Lemma adjust_route_run now item_id q reason s :
  InventoryRoutes.adjust_stock now item_id q reason s =
  match inventory_items s !! item_id with
  | None => (Http404, s)
  | Some inv =>
      match InventoryItem.adjust_stock now q reason ADJUSTMENT inv with
      | (Raise e, _) => (Http400 e, s)
      | (Ok mv, inv') => InventoryRoutes.flush_stock mv inv' s s
      end
  end.
Proof.
  unfold InventoryRoutes.adjust_stock, InventoryRepository.get_by_id.
  unfold bind at 1. unfold get, ret.
  destruct (inventory_items s !! item_id) as [inv|]; [|reflexivity].
  unfold call.
  destruct (InventoryItem.adjust_stock now q reason ADJUSTMENT inv)
    as [[mv|e] inv']; reflexivity.
Qed.

Lemma receive_route_run now item_id q reference s :
  InventoryRoutes.receive_stock now item_id q reference s =
  if q <=? 0 then (Http422, s)
  else
    match inventory_items s !! item_id with
    | None => (Http404, s)
    | Some inv =>
        match InventoryItem.receive_stock now q reference inv with
        | (Raise e, _) => (Http400 e, s)
        | (Ok mv, inv') => InventoryRoutes.flush_stock mv inv' s s
        end
    end.
Proof.
  unfold InventoryRoutes.receive_stock, InventoryRepository.get_by_id.
  destruct (q <=? 0); [reflexivity|].
  unfold bind at 1. unfold get, ret.
  destruct (inventory_items s !! item_id) as [inv|]; [|reflexivity].
  unfold call.
  destruct (InventoryItem.receive_stock now q reference inv)
    as [[mv|e] inv']; reflexivity.
Qed.

Section Steps.
Variable allowed : StockCall -> Prop.
Hypothesis allowed_weak : forall c, not_negative_adjust c -> allowed c.

Lemma release_line_steps now (item : OrderItem.t D) s :
  stock_step allowed s (snd (OrderService.release_line now item s)).
Proof.
  rewrite release_line_run.
  destruct (inventory_items s !! OrderItem.product_id item) as [inv|] eqn:Hi;
    [|apply step_none; reflexivity].
  destruct (OrderItem.quantity item <=? 0) eqn:Hq; [apply step_none; reflexivity|].
  eapply (step_call allowed _ _ _ inv
            (CallRelease now (OrderItem.quantity item)) None
            (InventoryItem.set_updated_at now
               (InventoryItem.set_quantity_reserved
                  (Z.max 0 (InventoryItem.quantity_reserved inv
                            - OrderItem.quantity item)) inv)));
    [exact Hi | apply allowed_weak; exact I | | reflexivity
    | simpl; rewrite app_nil_r; reflexivity].
  simpl. unfold bind, ret. rewrite release_reservation_run, Hq. reflexivity.
Qed.

Lemma sell_line_steps now oid (item : OrderItem.t D) s :
  stock_step allowed s (snd (OrderService.sell_line now oid item s)).
Proof.
  rewrite sell_line_run.
  destruct (inventory_items s !! OrderItem.product_id item) as [inv|] eqn:Hi;
    [|apply step_none; reflexivity].
  destruct (InventoryItem.sell_stock now (OrderItem.quantity item) (Some oid) inv)
    as [[mv|e] inv'] eqn:Hs; [|apply step_none; reflexivity].
  eapply (step_call allowed _ _ _ inv
            (CallSell now (OrderItem.quantity item) (Some oid)) (Some mv) inv');
    [exact Hi | apply allowed_weak; exact I | | reflexivity | reflexivity].
  simpl. unfold bind, ret. rewrite Hs. reflexivity.
Qed.

Lemma for_each_steps (body : OrderItem.t D -> Meth (Session D) unit)
    (items : list (OrderItem.t D)) s :
  (forall item s, stock_step allowed s (snd (body item s))) ->
  rtc (stock_step allowed) s (snd (for_each items body s)).
Proof.
  intros Hbody. revert s. induction items as [|x xs IH]; intros s.
  - apply rtc_refl.
  - rewrite for_each_cons. specialize (Hbody x s).
    destruct (body x s) as [[[]|e] s1]; simpl in Hbody.
    + eapply rtc_l; [exact Hbody | apply IH].
    + apply rtc_once. exact Hbody.
Qed.

Lemma step_same s s' :
  inventory_items s' = inventory_items s ->
  stock_movements s' = stock_movements s ->
  rtc (stock_step allowed) s s'.
Proof. intros Hi Hm. apply rtc_once. apply step_none; assumption. Qed.

(** The write of an order row is no stock step. *)
Lemma order_update_steps (o : Order.t D) s :
  rtc (stock_step allowed) s (snd (OrderRepository.update o s)).
Proof. apply step_same; apply order_update_raises. Qed.

Lemma cancel_order_steps now oid reason s :
  rtc (stock_step allowed) s (snd (OrderService.cancel_order now oid reason s)).
Proof.
  destruct (orders s !! oid) as [o|] eqn:Ho;
    [|rewrite cancel_order_unknown by exact Ho; apply rtc_refl].
  rewrite (cancel_order_run _ _ _ _ o Ho).
  pose proof (for_each_steps (OrderService.release_line now) (Order.items o) s
                (release_line_steps now)) as Hl.
  destruct (for_each (Order.items o) (OrderService.release_line now) s)
    as [[[]|e] s1]; cbv beta iota in Hl; [|exact Hl].
  destruct (Order.cancel now reason o) as [[[]|e] o']; cbv beta iota; [|exact Hl].
  eapply rtc_trans; [exact Hl|]. apply order_update_steps.
Qed.

Lemma ship_order_steps now oid tracking s :
  rtc (stock_step allowed) s (snd (OrderService.ship_order now oid tracking s)).
Proof.
  destruct (orders s !! oid) as [o|] eqn:Ho;
    [|rewrite ship_order_unknown by exact Ho; apply rtc_refl].
  rewrite (ship_order_run _ _ _ _ o Ho).
  pose proof (for_each_steps (OrderService.sell_line now oid) (Order.items o) s
                (sell_line_steps now oid)) as Hl.
  destruct (for_each (Order.items o) (OrderService.sell_line now oid) s)
    as [[[]|e] s1]; cbv beta iota in Hl; [|exact Hl].
  destruct (Order.ship now tracking o) as [[[]|e] o']; cbv beta iota; [|exact Hl].
  eapply rtc_trans; [exact Hl|]. apply order_update_steps.
Qed.

Lemma add_item_to_order_steps now iid oid pid q up disc s :
  rtc (stock_step allowed) s
    (snd (OrderService.add_item_to_order now iid oid pid q up disc s)).
Proof.
  destruct (orders s !! oid) as [o|] eqn:Ho;
    [|rewrite add_item_to_order_unknown by exact Ho; apply rtc_refl].
  destruct (inventory_items s !! pid) as [inv|] eqn:Hi;
    [|rewrite (add_item_to_order_no_product _ _ _ _ _ _ _ _ o Ho Hi); apply rtc_refl].
  rewrite (add_item_to_order_run _ _ _ _ _ _ _ _ o inv Ho Hi).
  destruct (InventoryItem.quantity_available inv <? q); [apply rtc_refl|].
  destruct (OrderItem.new _ _ _ _ _ _ _ _ _) as [item|e]; [|apply rtc_refl].
  destruct (Order.add_item now item o) as [[[]|e] o']; [|apply rtc_refl].
  destruct (InventoryItem.reserve_stock now q (Some oid) inv) as [[[]|e] inv'] eqn:Hr;
    [|apply rtc_refl].
  eapply rtc_l; [|apply order_update_steps].
  eapply (step_call allowed _ _ _ inv (CallReserve now q (Some oid)) None inv');
    [exact Hi | apply allowed_weak; exact I | | reflexivity
    | simpl; rewrite app_nil_r; reflexivity].
  simpl. unfold bind, ret. rewrite Hr. reflexivity.
Qed.

Lemma submit_order_steps now oid s :
  rtc (stock_step allowed) s (snd (OrderService.submit_order now oid s)).
Proof.
  rewrite submit_order_run.
  destruct (orders s !! oid) as [o|]; [|apply rtc_refl].
  destruct (Order.submit now o) as [[[]|e] o']; cbv beta iota; [|apply rtc_refl].
  apply order_update_steps.
Qed.

Lemma confirm_order_steps now oid s :
  rtc (stock_step allowed) s (snd (OrderService.confirm_order now oid s)).
Proof.
  rewrite confirm_order_run.
  destruct (orders s !! oid) as [o|]; [|apply rtc_refl].
  destruct (Order.confirm now o) as [[[]|e] o']; cbv beta iota; [|apply rtc_refl].
  apply order_update_steps.
Qed.

Lemma create_order_steps now new_id org name email by_ s :
  rtc (stock_step allowed) s
    (snd (OrderService.create_order now new_id org name email by_ s)).
Proof.
  rewrite create_order_run, order_add_run.
  destruct (order_row _) as [row|]; [|apply rtc_refl].
  destruct (bool_decide _); [apply rtc_refl|].
  destruct (OrderRepository.order_number_taken _ _); [apply rtc_refl|].
  apply step_same; reflexivity.
Qed.

Lemma flush_stock_steps (c : StockCall) k (inv inv' : InventoryItem.t D) mv s :
  inventory_items s !! k = Some inv ->
  allowed c ->
  run_stock_call c inv = (Ok (Some mv), inv') ->
  rtc (stock_step allowed) s (snd (InventoryRoutes.flush_stock mv inv' s s)).
Proof.
  intros Hi Hc Hr. rewrite flush_stock_run.
  destruct (InventoryRoutes.flush_fits mv inv'); [|apply rtc_refl].
  apply rtc_once.
  eapply (step_call allowed _ _ _ inv c (Some mv) inv');
    [exact Hi | exact Hc | exact Hr | reflexivity | reflexivity].
Qed.

Lemma adjust_stock_route_steps now item_id q reason s :
  allowed (CallAdjust now q reason ADJUSTMENT) ->
  rtc (stock_step allowed) s (snd (InventoryRoutes.adjust_stock now item_id q reason s)).
Proof.
  intros Hc. rewrite adjust_route_run.
  destruct (inventory_items s !! item_id) as [inv|] eqn:Hi; [|apply rtc_refl].
  destruct (InventoryItem.adjust_stock now q reason ADJUSTMENT inv)
    as [[mv|e] inv'] eqn:Hr; [|apply rtc_refl].
  apply (flush_stock_steps (CallAdjust now q reason ADJUSTMENT) item_id inv);
    [exact Hi | exact Hc|].
  simpl. unfold bind, ret. rewrite Hr. reflexivity.
Qed.

Lemma receive_stock_route_steps now item_id q reference s :
  rtc (stock_step allowed) s
    (snd (InventoryRoutes.receive_stock now item_id q reference s)).
Proof.
  rewrite receive_route_run.
  destruct (q <=? 0); [apply rtc_refl|].
  destruct (inventory_items s !! item_id) as [inv|] eqn:Hi; [|apply rtc_refl].
  destruct (InventoryItem.receive_stock now q reference inv)
    as [[mv|e] inv'] eqn:Hr; [|apply rtc_refl].
  apply (flush_stock_steps (CallReceive now q reference) item_id inv);
    [exact Hi | apply allowed_weak; exact I|].
  simpl. unfold bind, ret. rewrite Hr. reflexivity.
Qed.
End Steps.

Lemma service_call_steps (allowed : StockCall -> Prop) (c : ServiceCall D) s :
  (forall c', not_negative_adjust c' -> allowed c') ->
  match c with
  | SvcAdjustStock now _ q reason => allowed (CallAdjust now q reason ADJUSTMENT)
  | _ => True
  end ->
  rtc (stock_step allowed) s (after_service_call c s).
Proof.
  intros Hweak Hc. destruct c; simpl.
  - apply create_order_steps.
  - apply add_item_to_order_steps. exact Hweak.
  - apply submit_order_steps.
  - apply confirm_order_steps.
  - apply cancel_order_steps. exact Hweak.
  - apply ship_order_steps. exact Hweak.
  - apply adjust_stock_route_steps. exact Hc.
  - apply receive_stock_route_steps. exact Hweak.
Qed.

Lemma step_keyed allowed s s' :
  inventory_keyed s -> stock_step allowed s s' -> inventory_keyed s'.
Proof.
  intros Hk Hstep. destruct Hstep as [s s' Hi Hm | s s' k item c mv item' Hl Hc Hr Hi Hm];
    unfold inventory_keyed in *; rewrite Hi; [exact Hk|].
  intros k' it Hl'. apply lookup_insert_Some in Hl'.
  destruct Hl' as [[<- <-]|[_ Hl']]; [reflexivity | exact (Hk _ _ Hl')].
Qed.

Lemma step_ledger allowed s s' :
  inventory_keyed s -> stock_step allowed s s' ->
  exists new,
    stock_movements s' = stock_movements s ++ new /\
    (forall pid, on_hand_at s' pid = on_hand_at s pid + ledger_sum pid new) /\
    (forall pid, is_Some (inventory_items s' !! pid) <->
                 is_Some (inventory_items s !! pid)).
Proof.
  intros Hk Hstep. destruct Hstep as [s s' Hi Hm | s s' k item c mv item' Hl Hc Hr Hi Hm].
  - exists []. rewrite app_nil_r. split; [exact Hm|].
    unfold on_hand_at. rewrite Hi. split; intros pid; [simpl; lia | reflexivity].
  - exists (option_list mv). split; [exact Hm|].
    destruct (run_stock_call_ok _ _ _ _ Hr) as (Hid & Hoh & Hmv & _).
    pose proof (Hk _ _ Hl) as Hkey. rewrite Hid, Hkey in Hi.
    unfold on_hand_at. rewrite Hi. split; intros pid.
    + destruct (decide (k = pid)) as [<-|Hne].
      * rewrite lookup_insert_eq, Hl, Hoh. f_equal.
        destruct mv as [m|]; simpl; [|reflexivity].
        destruct (Hmv m eq_refl) as (Hmid & _).
        rewrite bool_decide_eq_true_2 by congruence. lia.
      * rewrite lookup_insert_ne by exact Hne.
        destruct mv as [m|]; simpl; [|lia].
        destruct (Hmv m eq_refl) as (Hmid & _).
        rewrite bool_decide_eq_false_2 by congruence. lia.
    + destruct (decide (k = pid)) as [<-|Hne].
      * rewrite lookup_insert_eq, Hl. split; eauto.
      * rewrite lookup_insert_ne by exact Hne. reflexivity.
Qed.

Lemma step_within s s' :
  reservations_within_stock s -> stock_step not_negative_adjust s s' ->
  reservations_within_stock s'.
Proof.
  intros Hw Hstep. destruct Hstep as [s s' Hi Hm | s s' k item c mv item' Hl Hc Hr Hi Hm];
    unfold reservations_within_stock in *; rewrite Hi; [exact Hw|].
  intros k' it Hl'. apply lookup_insert_Some in Hl'.
  destruct Hl' as [[_ <-]|[_ Hl']]; [|exact (Hw _ _ Hl')].
  destruct (run_stock_call_ok _ _ _ _ Hr) as (_ & _ & _ & ->).
  apply after_stock_call_within; [exact Hc | exact (Hw _ _ Hl)].
Qed.

Lemma steps_ledger allowed s s' :
  inventory_keyed s -> rtc (stock_step allowed) s s' ->
  inventory_keyed s' /\
  exists new,
    stock_movements s' = stock_movements s ++ new /\
    (forall pid, on_hand_at s' pid = on_hand_at s pid + ledger_sum pid new) /\
    (forall pid, is_Some (inventory_items s' !! pid) <->
                 is_Some (inventory_items s !! pid)).
Proof.
  intros Hk Hsteps. induction Hsteps as [s|s s1 s2 Hstep _ IH].
  - split; [exact Hk|]. exists []. rewrite app_nil_r. split; [reflexivity|].
    split; intros pid; [simpl; lia | reflexivity].
  - destruct (step_ledger _ _ _ Hk Hstep) as (n1 & Hm1 & Hl1 & Hd1).
    destruct (IH (step_keyed _ _ _ Hk Hstep)) as (Hk2 & n2 & Hm2 & Hl2 & Hd2).
    split; [exact Hk2|]. exists (n1 ++ n2).
    split; [rewrite Hm2, Hm1, app_assoc; reflexivity|].
    split; intros pid.
    + rewrite Hl2, Hl1, ledger_sum_app. lia.
    + rewrite Hd2, Hd1. reflexivity.
Qed.

(** X14. Whatever sequence of [OrderService] calls and stock routes
    (adjust, receive) is made, with any arguments and whether each call
    succeeds or fails, the movement log only grows at its end and accounts
    for every change of stock: for each product, the change of the stored
    [quantity_on_hand] is the sum of the signed quantities of the movements
    logged for it meanwhile. Rows stay filed under their item's id, and no
    inventory row appears or disappears. *)
Theorem stock_ledger_balanced (cs : list (ServiceCall D)) s :
  inventory_keyed s ->
  let s' := after_service_calls cs s in
  inventory_keyed s' /\
  exists new,
    stock_movements s' = stock_movements s ++ new /\
    (forall pid, on_hand_at s' pid = on_hand_at s pid + ledger_sum pid new) /\
    (forall pid, is_Some (inventory_items s' !! pid) <->
                 is_Some (inventory_items s !! pid)).
Proof.
  intros Hk s'. subst s'. apply (steps_ledger (fun _ => True)); [exact Hk|].
  clear Hk. revert s. induction cs as [|c cs IH]; intros s; simpl.
  - apply rtc_refl.
  - eapply rtc_trans; [|apply IH].
    apply service_call_steps; [auto | destruct c; exact I].
Qed.

(** X15. The service never over-reserves: if in every inventory row
    [0 <= quantity_reserved <= quantity_on_hand], this still holds after any
    sequence of [OrderService] calls and stock routes, succeeding or
    failing, in which no stock adjustment is by a negative amount. *)
Theorem service_keeps_reservations_within_stock (cs : list (ServiceCall D)) s :
  Forall not_negative_adjustment cs ->
  reservations_within_stock s ->
  reservations_within_stock (after_service_calls cs s).
Proof.
  intros Hcs. revert s. induction Hcs as [|c cs Hc _ IH]; intros s Hw; simpl.
  - exact Hw.
  - apply IH.
    assert (Hsteps : rtc (stock_step not_negative_adjust) s (after_service_call c s)).
    { apply service_call_steps; [auto|]. destruct c; try exact I. exact Hc. }
    clear IH Hc. induction Hsteps as [s|s s1 s2 Hstep _ IH2]; [exact Hw|].
    apply IH2. eapply step_within; eassumption.
Qed.

Lemma add_item_to_order_written now iid oid pid q up disc s :
  snd (OrderService.add_item_to_order now iid oid pid q up disc s) <> s ->
  exists (o : Order.t D) (inv : InventoryItem.t D),
    orders s !! oid = Some o /\
    inventory_items s !! pid = Some inv /\
    can_modify (Order.status o) = true /\
    1 <= q <= InventoryItem.quantity_available inv /\
    OrderItem.constraints_ok q
      (OrderService.dec_or up (InventoryItem.selling_price inv)) disc (dec_of_int 0)
      = true.
Proof.
  destruct (orders s !! oid) as [o|] eqn:Ho;
    [|rewrite add_item_to_order_unknown by exact Ho; simpl; congruence].
  destruct (inventory_items s !! pid) as [inv|] eqn:Hi;
    [|rewrite (add_item_to_order_no_product _ _ _ _ _ _ _ _ o Ho Hi);
      simpl; congruence].
  rewrite (add_item_to_order_run _ _ _ _ _ _ _ _ o inv Ho Hi).
  destruct (Z.ltb_spec (InventoryItem.quantity_available inv) q) as [Hlt|Hge];
    [simpl; congruence|].
  unfold OrderItem.new.
  destruct (OrderItem.constraints_ok q _ disc (dec_of_int 0)) eqn:Hc;
    [|simpl; congruence].
  rewrite add_item_run.
  destruct (can_modify (Order.status o)) eqn:Hm; simpl; [|congruence].
  intros _. exists o, inv.
  assert (Hq1 : 1 <= q).
  { unfold OrderItem.constraints_ok in Hc. rewrite !andb_true_iff in Hc.
    apply Z.leb_le. tauto. }
  repeat split; auto; lia.
Qed.

(** X16. [add_item_to_order] makes all its checks before its first write.
    A call that raises a [ValueError] has left the session exactly as it
    was, and the error is one of NotFound, InsufficientStock,
    ValidationError and NotModifiable. The session is changed only when the
    order and the product are found, the order is modifiable,
    [1 <= quantity <= quantity_available] and the line passes validation.
    Then, for an order that is a row of the table and a line the columns
    take, both writes are made: the product row has [quantity_reserved]
    raised by the quantity, the order row has the line added at its end, no
    movement is logged; and the call raises the error of the reload in
    [OrderRepository.update]. *)
Theorem add_item_to_order_checks_before_writes now iid oid pid q up disc s :
  let r := OrderService.add_item_to_order now iid oid pid q up disc s in
  (forall e, fst r = Raise e -> is_ValueError e = true ->
     snd r = s /\
     (e = NotFound \/ e = InsufficientStock \/ e = ValidationError \/
      e = NotModifiable)) /\
  (snd r <> s ->
     exists (o : Order.t D) (inv : InventoryItem.t D),
       orders s !! oid = Some o /\
       inventory_items s !! pid = Some inv /\
       can_modify (Order.status o) = true /\
       1 <= q <= InventoryItem.quantity_available inv /\
       OrderItem.constraints_ok q
         (OrderService.dec_or up (InventoryItem.selling_price inv)) disc
         (dec_of_int 0) = true) /\
  (forall (o : Order.t D) (inv : InventoryItem.t D) (line : OrderItem.t D),
     orders s !! oid = Some o ->
     inventory_items s !! pid = Some inv ->
     order_row o = Some o ->
     can_modify (Order.status o) = true ->
     1 <= q <= InventoryItem.quantity_available inv ->
     OrderItem.constraints_ok q
       (OrderService.dec_or up (InventoryItem.selling_price inv)) disc
       (dec_of_int 0) = true ->
     order_item_row
       (OrderItem.mk iid (InventoryItem.id inv) (InventoryItem.name inv)
          (InventoryItem.sku inv) q
          (OrderService.dec_or up (InventoryItem.selling_price inv))
          disc (dec_of_int 0) None) = Some line ->
     r = (Raise MissingGreenlet,
          mk_Session
            (<[Order.id o :=
                 Order.set_updated_at now
                   (Order.set_items (Order.items o ++ [line]) o)]> (orders s))
            (<[InventoryItem.id inv :=
                 InventoryItem.set_updated_at now
                   (InventoryItem.set_quantity_reserved
                      (InventoryItem.quantity_reserved inv + q) inv)]>
               (inventory_items s))
            (stock_movements s))).
Proof.
  intros r. subst r. split; [|split].
  - destruct (orders s !! oid) as [o|] eqn:Ho.
    2:{ rewrite add_item_to_order_unknown by exact Ho. simpl.
        intros e [= <-]; auto. }
    destruct (inventory_items s !! pid) as [inv|] eqn:Hi.
    2:{ rewrite (add_item_to_order_no_product _ _ _ _ _ _ _ _ o Ho Hi). simpl.
        intros e [= <-]; auto. }
    rewrite (add_item_to_order_run _ _ _ _ _ _ _ _ o inv Ho Hi).
    destruct (Z.ltb_spec (InventoryItem.quantity_available inv) q) as [Hlt|Hge].
    { simpl. intros e [= <-]; auto. }
    unfold OrderItem.new.
    destruct (OrderItem.constraints_ok q _ disc (dec_of_int 0)) eqn:Hc.
    2:{ simpl. intros e [= <-]; auto 6. }
    rewrite add_item_run.
    destruct (can_modify (Order.status o)) eqn:Hm; simpl.
    2:{ intros e [= <-]; auto 6. }
    assert (Hq1 : 1 <= q).
    { unfold OrderItem.constraints_ok in Hc. rewrite !andb_true_iff in Hc.
      apply Z.leb_le. tauto. }
    rewrite reserve_stock_run.
    destruct (Z.leb_spec q 0); [lia|].
    destruct (Z.ltb_spec (InventoryItem.quantity_available inv) q); [lia|].
    rewrite order_update_run.
    destruct (order_row _); simpl; intros e [= <-]; discriminate.
  - apply add_item_to_order_written.
  - intros o inv line Ho Hi Hrow Hm Hq Hc Hline.
    rewrite (add_item_to_order_ok now iid oid pid q up disc s o inv Ho Hi Hm Hq Hc).
    rewrite order_update_run.
    rewrite (order_row_add_line o _ line now Hrow Hline). reflexivity.
Qed.

(** X17. [submit_order] and [confirm_order] raise NotFound for an unknown
    order, InvalidTransition for an order that is not in DRAFT (resp.
    PENDING) and EmptyOrder for one with no line, and then leave the session
    exactly as it was. Otherwise, for an order that is a row of the table,
    they store it under its id in PENDING (resp. CONFIRMED, with
    [confirmed_at] set to the time of the call), with the same lines, and
    raise the error of the reload in [OrderRepository.update]; the inventory
    and the movement log are not touched. *)
Theorem submit_confirm_order_spec now oid s :
  let rs := OrderService.submit_order now oid s in
  let rc := OrderService.confirm_order now oid s in
  (orders s !! oid = None ->
     rs = (Raise NotFound, s) /\ rc = (Raise NotFound, s)) /\
  (forall o, orders s !! oid = Some o ->
     (Order.status o <> DRAFT -> rs = (Raise InvalidTransition, s)) /\
     (Order.status o = DRAFT -> Order.items o = [] -> rs = (Raise EmptyOrder, s)) /\
     (Order.status o = DRAFT -> Order.items o <> [] -> order_row o = Some o ->
        exists o',
          rs = (Raise MissingGreenlet,
                set_orders (<[Order.id o := o']> (orders s)) s) /\
          Order.status o' = PENDING /\ Order.items o' = Order.items o /\
          Order.id o' = Order.id o) /\
     (Order.status o <> PENDING -> rc = (Raise InvalidTransition, s)) /\
     (Order.status o = PENDING -> Order.items o = [] -> rc = (Raise EmptyOrder, s)) /\
     (Order.status o = PENDING -> Order.items o <> [] -> order_row o = Some o ->
        exists o',
          rc = (Raise MissingGreenlet,
                set_orders (<[Order.id o := o']> (orders s)) s) /\
          Order.status o' = CONFIRMED /\ Order.items o' = Order.items o /\
          Order.confirmed_at o' = Some now /\ Order.id o' = Order.id o)).
Proof.
  intros rs rc. subst rs rc. rewrite submit_order_run, confirm_order_run.
  split.
  - intros ->. split; reflexivity.
  - intros o ->. rewrite submit_run, confirm_run.
    repeat split.
    + intros Hs. rewrite bool_decide_eq_false_2 by exact Hs. reflexivity.
    + intros Hs ->. rewrite bool_decide_eq_true_2 by exact Hs. reflexivity.
    + intros Hs Hi Hrow. rewrite bool_decide_eq_true_2 by exact Hs. simpl.
      destruct (Order.items o) eqn:Ei; [congruence|]. simpl.
      rewrite order_update_run.
      erewrite (order_row_kept o); [|exact Hrow|reflexivity..].
      eexists. split; [reflexivity|]. simpl. rewrite Ei. repeat split.
    + intros Hs. rewrite bool_decide_eq_false_2 by exact Hs. reflexivity.
    + intros Hs ->. rewrite bool_decide_eq_true_2 by exact Hs. reflexivity.
    + intros Hs Hi Hrow. rewrite bool_decide_eq_true_2 by exact Hs. simpl.
      destruct (Order.items o) eqn:Ei; [congruence|]. simpl.
      rewrite order_update_run.
      erewrite (order_row_kept o); [|exact Hrow|reflexivity..].
      eexists. split; [reflexivity|]. simpl. rewrite Ei. repeat split.
Qed.

Lemma can_modify_can_cancel (st : OrderStatus) :
  can_modify st = true -> can_cancel st = true.
Proof. destruct st; simpl; auto. Qed.

(** X18. Adding a line to a modifiable order that had none and then
    cancelling the order puts the product's reservation back: after
    [add_item_to_order] the stored [quantity_reserved] is up by the
    quantity; after [cancel_order] the stored [quantity_reserved] and
    [quantity_on_hand] are what they were, with no movement logged; and,
    the stored line being kept as it is by its columns, the order row is
    CANCELLED. Both calls raise after their writes, in the reload of
    [OrderRepository.update]. (Rows are filed under their ids, the order is
    a row of the table, the columns take the line, and the reservation was
    non-negative.) *)
Theorem add_then_cancel_restores_stock now now' iid oid pid q up disc reason s
    (o : Order.t D) (inv : InventoryItem.t D) (line : OrderItem.t D) :
  orders s !! oid = Some o -> Order.id o = oid -> Order.items o = [] ->
  order_row o = Some o ->
  can_modify (Order.status o) = true ->
  inventory_items s !! pid = Some inv -> InventoryItem.id inv = pid ->
  0 <= InventoryItem.quantity_reserved inv ->
  1 <= q <= InventoryItem.quantity_available inv ->
  OrderItem.constraints_ok q
    (OrderService.dec_or up (InventoryItem.selling_price inv)) disc (dec_of_int 0)
    = true ->
  order_item_row
    (OrderItem.mk iid (InventoryItem.id inv) (InventoryItem.name inv)
       (InventoryItem.sku inv) q
       (OrderService.dec_or up (InventoryItem.selling_price inv))
       disc (dec_of_int 0) None) = Some line ->
  let r1 := OrderService.add_item_to_order now iid oid pid q up disc s in
  let r := OrderService.cancel_order now' oid reason (snd r1) in
  fst r1 = Raise MissingGreenlet /\
  reserved_at (snd r1) pid = InventoryItem.quantity_reserved inv + q /\
  is_ok (fst r) = false /\
  reserved_at (snd r) pid = InventoryItem.quantity_reserved inv /\
  on_hand_at (snd r) pid = InventoryItem.quantity_on_hand inv /\
  stock_movements (snd r) = stock_movements s /\
  (order_item_row line = Some line ->
   fst r = Raise MissingGreenlet /\
   exists o', orders (snd r) !! oid = Some o' /\ Order.status o' = CANCELLED /\
              Order.items o' = [line]).
Proof.
  intros Ho Hoid Hitems Hrow Hm Hi Hpid Hr Hq Hc Hline r1 r.
  pose proof (order_item_row_Some _ _ Hline)
    as (_ & Hlpid & _ & _ & Hlqty & _). simpl in Hlpid, Hlqty.
  set (o1 := Order.set_updated_at now (Order.set_items [line] o)).
  set (inv1 := InventoryItem.set_updated_at now
                 (InventoryItem.set_quantity_reserved
                    (InventoryItem.quantity_reserved inv + q) inv)).
  assert (Hr1 : r1 = (Raise MissingGreenlet,
                      set_orders (<[oid := o1]> (orders s))
                        (set_inventory_items (<[pid := inv1]> (inventory_items s)) s))).
  { subst r1.
    rewrite (add_item_to_order_ok now iid oid pid q up disc s o inv Ho Hi Hm Hq Hc).
    rewrite order_update_run.
    rewrite (order_row_add_line o _ line now Hrow Hline).
    simpl. rewrite Hitems, Hoid, Hpid. reflexivity. }
  subst r. rewrite Hr1. clear Hr1 r1. simpl fst. simpl snd.
  split; [reflexivity|]. split.
  { unfold reserved_at. simpl. rewrite lookup_insert_eq. reflexivity. }
  set (s1 := set_orders (<[oid := o1]> (orders s))
               (set_inventory_items (<[pid := inv1]> (inventory_items s)) s)).
  assert (Ho1 : orders s1 !! oid = Some o1) by (simpl; apply lookup_insert_eq).
  rewrite (cancel_order_run _ _ _ _ o1 Ho1).
  change (Order.items o1) with [line].
  rewrite for_each_cons, release_line_run.
  change (inventory_items s1) with (<[pid := inv1]> (inventory_items s)).
  rewrite Hlpid, Hpid, lookup_insert_eq, Hlqty.
  destruct (Z.leb_spec q 0); [lia|]. cbv zeta. simpl for_each. unfold ret.
  rewrite cancel_run.
  change (Order.status o1) with (Order.status o).
  rewrite (can_modify_can_cancel _ Hm). simpl negb. cbv iota.
  change (InventoryItem.id inv1) with (InventoryItem.id inv). rewrite Hpid.
  rewrite order_update_run.
  assert (Hinv : forall s2 : Session D,
            inventory_items s2 = <[pid :=
               InventoryItem.set_updated_at now'
                 (InventoryItem.set_quantity_reserved
                    (Z.max 0 (InventoryItem.quantity_reserved inv1 - q)) inv1)]>
               (<[pid := inv1]> (inventory_items s)) ->
            reserved_at s2 pid = InventoryItem.quantity_reserved inv /\
            on_hand_at s2 pid = InventoryItem.quantity_on_hand inv).
  { intros s2 Hs2. unfold reserved_at, on_hand_at.
    rewrite Hs2, lookup_insert_eq. simpl. split; [lia | reflexivity]. }
  split; [case_row; reflexivity|].
  split; [case_row; apply Hinv; reflexivity|].
  split; [case_row; apply Hinv; reflexivity|].
  split; [case_row; reflexivity|].
  intros Hidem.
  assert (Hrow1 : order_row o1 = Some o1).
  { pose proof (order_row_add_line o line line now Hrow Hidem) as Hx.
    rewrite Hitems in Hx. exact Hx. }
  destruct (str_truthy reason);
    (erewrite (order_row_kept o1); [|exact Hrow1|reflexivity..]);
    (split; [reflexivity|]); eexists;
    (split; [simpl; rewrite Hoid; apply lookup_insert_eq | split; reflexivity]).
Qed.

(** X19. [ship_order] on a stored order in CONFIRMED or PROCESSING whose
    single line refers to a stored product (filed under its id) with a
    non-negative reservation: when the line's quantity is at most the stock
    on hand, the stored [quantity_on_hand] is down by the quantity,
    [quantity_reserved] is down by the quantity but not below 0, exactly one
    movement is logged (a SALE of minus the quantity, with the new stock on
    hand and the order id as reference) and, the order being a row of the
    table, it is stored as SHIPPED with [shipped_at] set; the call then
    raises the error of the reload in [OrderRepository.update]. When the
    quantity exceeds the stock on hand it raises InsufficientStock and the
    session is unchanged. *)
Theorem ship_order_single_line now oid tracking s (o : Order.t D)
    (item : OrderItem.t D) (inv : InventoryItem.t D) :
  orders s !! oid = Some o ->
  Order.id o = oid ->
  order_row o = Some o ->
  Order.status o = CONFIRMED \/ Order.status o = PROCESSING ->
  Order.items o = [item] ->
  inventory_items s !! OrderItem.product_id item = Some inv ->
  InventoryItem.id inv = OrderItem.product_id item ->
  0 <= InventoryItem.quantity_reserved inv ->
  1 <= OrderItem.quantity item ->
  let q := OrderItem.quantity item in
  let pid := OrderItem.product_id item in
  let r := OrderService.ship_order now oid tracking s in
  (q <= InventoryItem.quantity_on_hand inv ->
     fst r = Raise MissingGreenlet /\
     (exists o', orders (snd r) !! oid = Some o' /\ Order.status o' = SHIPPED /\
                 Order.shipped_at o' = Some now /\ Order.items o' = [item]) /\
     on_hand_at (snd r) pid = InventoryItem.quantity_on_hand inv - q /\
     reserved_at (snd r) pid = Z.max 0 (InventoryItem.quantity_reserved inv - q) /\
     stock_movements (snd r) =
       stock_movements s ++
       [StockMovement.mk pid SALE (- q) (InventoryItem.quantity_on_hand inv - q)
          (Some oid)]) /\
  (InventoryItem.quantity_on_hand inv < q -> r = (Raise InsufficientStock, s)).
Proof.
  intros Ho Hoid Hrow Hst Hitems Hi Hid Hr Hq1 q pid r. subst r q pid.
  rewrite (ship_order_run _ _ _ _ o Ho), Hitems, for_each_cons, sell_line_run, Hi.
  rewrite sell_stock_run.
  destruct (Z.leb_spec (OrderItem.quantity item) 0); [lia|].
  assert (Hb : negb (bool_decide (Order.status o = CONFIRMED)
                     || bool_decide (Order.status o = PROCESSING)) = false)
    by (destruct Hst as [-> | ->]; reflexivity).
  split; intros Hq.
  - destruct (Z.ltb_spec (InventoryItem.quantity_on_hand inv) (OrderItem.quantity item));
      [lia|].
    cbv zeta. unfold StockMovement.new.
    destruct (Z.ltb_spec (InventoryItem.quantity_on_hand inv - OrderItem.quantity item) 0);
      [lia|].
    destruct (Z.ltb_spec 0 (InventoryItem.quantity_reserved inv));
      simpl for_each; unfold ret; rewrite ship_run, Hb;
      destruct (str_truthy tracking); cbv beta iota;
      rewrite order_update_run;
      (erewrite (order_row_kept o); [|exact Hrow|reflexivity..]);
      (split; [reflexivity|]);
      (split; [eexists; split; [simpl; rewrite Hoid; apply lookup_insert_eq|];
               simpl; rewrite Hitems; repeat split|]);
      (split; [unfold on_hand_at; simpl; rewrite Hid, lookup_insert_eq; reflexivity|]);
      (split; [unfold reserved_at; simpl; rewrite Hid, lookup_insert_eq; simpl; lia|]);
      simpl; rewrite Hid; reflexivity.
  - destruct (Z.ltb_spec (InventoryItem.quantity_on_hand inv) (OrderItem.quantity item));
      [reflexivity | lia].
Qed.

Lemma flush_fits_movement mv (inv' : InventoryItem.t D) :
  StockMovement.quantity_after mv = InventoryItem.quantity_on_hand inv' ->
  InventoryRoutes.flush_fits mv inv' = stock_movement_fits mv.
Proof.
  intros Hq. unfold InventoryRoutes.flush_fits, stock_movement_fits.
  rewrite <- Hq.
  destruct (db_integer (StockMovement.quantity mv)),
    (db_integer (StockMovement.quantity_after mv)),
    (from_option (db_string 255) true (StockMovement.reference mv)); reflexivity.
Qed.

(** X20. The stock routes. [adjust]: an unknown item answers 404; an
    adjustment that would make the stock negative answers 400 with
    NegativeStock. [receive]: a quantity that is not positive is refused
    (422), an unknown item answers 404, and a movement that pydantic refuses
    answers 400. Otherwise the movement is built (ADJUSTMENT, resp. PURCHASE,
    of the quantity, with the new stock on hand); if its columns take it,
    the route answers 200 with the item, stored under its id with
    [quantity_on_hand] changed by the quantity, and the movement is logged;
    if they do not, the route answers 500. Whenever the answer is not 200
    nothing is written. *)
Theorem stock_routes_spec now item_id q reason reference s :
  let ra := InventoryRoutes.adjust_stock now item_id q reason s in
  let rr := InventoryRoutes.receive_stock now item_id q reference s in
  (inventory_items s !! item_id = None ->
     ra = (Http404, s) /\ (0 < q -> rr = (Http404, s))) /\
  (q <= 0 -> rr = (Http422, s)) /\
  (forall inv, inventory_items s !! item_id = Some inv ->
     let after := InventoryItem.quantity_on_hand inv + q in
     let adjustment := StockMovement.mk (InventoryItem.id inv) ADJUSTMENT q after
                         (Some reason) in
     let purchase := StockMovement.mk (InventoryItem.id inv) PURCHASE q after
                       reference in
     (after < 0 -> ra = (Http400 NegativeStock, s)) /\
     (0 <= after -> stock_movement_fits adjustment = false ->
        ra = (Http500 DatabaseError, s)) /\
     (0 <= after -> stock_movement_fits adjustment = true ->
        exists inv',
          fst ra = Http200 inv' /\
          InventoryItem.quantity_on_hand inv' = after /\
          InventoryItem.quantity_reserved inv' = InventoryItem.quantity_reserved inv /\
          inventory_items (snd ra) =
            <[InventoryItem.id inv := inv']> (inventory_items s) /\
          stock_movements (snd ra) = stock_movements s ++ [adjustment] /\
          orders (snd ra) = orders s) /\
     (0 < q -> after < 0 -> rr = (Http400 ValidationError, s)) /\
     (0 < q -> 0 <= after -> stock_movement_fits purchase = false ->
        rr = (Http500 DatabaseError, s)) /\
     (0 < q -> 0 <= after -> stock_movement_fits purchase = true ->
        exists inv',
          fst rr = Http200 inv' /\
          InventoryItem.quantity_on_hand inv' = after /\
          InventoryItem.quantity_reserved inv' = InventoryItem.quantity_reserved inv /\
          inventory_items (snd rr) =
            <[InventoryItem.id inv := inv']> (inventory_items s) /\
          stock_movements (snd rr) = stock_movements s ++ [purchase] /\
          orders (snd rr) = orders s)).
Proof.
  intros ra rr. subst ra rr. rewrite adjust_route_run, receive_route_run.
  split; [|split].
  - intros ->. split; [reflexivity|]. intros Hq.
    destruct (Z.leb_spec q 0); [lia | reflexivity].
  - intros Hq. destruct (Z.leb_spec q 0); [reflexivity | lia].
  - intros inv -> after adjustment purchase. subst after adjustment purchase.
    rewrite adjust_stock_run, receive_stock_run. unfold StockMovement.new.
    split; [|split; [|split; [|split; [|split]]]].
    + intros Hneg.
      destruct (Z.ltb_spec (InventoryItem.quantity_on_hand inv + q) 0);
        [reflexivity | lia].
    + intros Hok Hfit.
      destruct (Z.ltb_spec (InventoryItem.quantity_on_hand inv + q) 0); [lia|].
      rewrite flush_stock_run, flush_fits_movement by reflexivity.
      rewrite Hfit. reflexivity.
    + intros Hok Hfit.
      destruct (Z.ltb_spec (InventoryItem.quantity_on_hand inv + q) 0); [lia|].
      rewrite flush_stock_run, flush_fits_movement by reflexivity.
      rewrite Hfit. simpl. eexists. repeat split.
    + intros Hq Hneg.
      destruct (Z.leb_spec q 0); [lia|].
      destruct (Z.ltb_spec (InventoryItem.quantity_on_hand inv + q) 0);
        [reflexivity | lia].
    + intros Hq Hok Hfit.
      destruct (Z.leb_spec q 0); [lia|].
      destruct (Z.ltb_spec (InventoryItem.quantity_on_hand inv + q) 0); [lia|].
      rewrite flush_stock_run, flush_fits_movement by reflexivity.
      rewrite Hfit. reflexivity.
    + intros Hq Hok Hfit.
      destruct (Z.leb_spec q 0); [lia|].
      destruct (Z.ltb_spec (InventoryItem.quantity_on_hand inv + q) 0); [lia|].
      rewrite flush_stock_run, flush_fits_movement by reflexivity.
      rewrite Hfit. simpl. eexists. repeat split.
Qed.

Lemma string_app_inj (a a' b b' : string) :
  String.length a = String.length a' ->
  (a ++ b)%string = (a' ++ b')%string -> a = a' /\ b = b'.
Proof.
  revert a'. induction a as [|c a IH]; intros [|c' a'] Hl Heq;
    simpl in *; try discriminate; [auto|].
  injection Heq as -> Heq. injection Hl as Hl.
  destruct (IH a' Hl Heq) as [-> ->]. auto.
Qed.

Lemma zero_pad_inj (w : nat) (n m : N) : zero_pad w n = zero_pad w m -> n = m.
Proof.
  intros Heq. rewrite <- (int_of_zero_pad w n), <- (int_of_zero_pad w m), Heq.
  reflexivity.
Qed.

Lemma strftime_Ymd_inj (d1 d2 : datetime) :
  valid_date d1 -> valid_date d2 ->
  strftime_Ymd d1 = strftime_Ymd d2 ->
  dt_year d1 = dt_year d2 /\ dt_month d1 = dt_month d2 /\ dt_day d1 = dt_day d2.
Proof.
  intros (Hy1 & Hm1 & Hd1) (Hy2 & Hm2 & Hd2). unfold strftime_Ymd. intros Heq.
  apply string_app_inj in Heq;
    [|rewrite !zero_pad_length; simpl; lia].
  destruct Heq as [Hy Heq].
  apply string_app_inj in Heq;
    [|rewrite !zero_pad_length; simpl; lia].
  destruct Heq as [Hm Hd].
  apply zero_pad_inj in Hy, Hm, Hd. auto.
Qed.

(** X21. For valid dates, two order numbers built by
    [generate_order_number] are equal exactly when they are built on the
    same calendar day from the same order count: the number determines the
    day and the count, and carries nothing else (not the organization). *)
Theorem order_number_determines_day_and_count now1 now2 org1 org2
    (s1 s2 : Session D) :
  valid_date now1 -> valid_date now2 ->
  (fst (OrderRepository.generate_order_number now1 org1 s1) =
   fst (OrderRepository.generate_order_number now2 org2 s2)
   <->
   dt_year now1 = dt_year now2 /\ dt_month now1 = dt_month now2 /\
   dt_day now1 = dt_day now2 /\
   OrderRepository.count_orders org1 (orders s1) =
   OrderRepository.count_orders org2 (orders s2)).
Proof.
  intros Hv1 Hv2. rewrite !generate_order_number_run. simpl fst.
  unfold next_order_number. split.
  - intros Heq. injection Heq as Heq.
    apply (string_app_inj "" "") in Heq; [|reflexivity].
    destruct Heq as [_ Heq].
    apply string_app_inj in Heq;
      [|rewrite !strftime_Ymd_length by assumption; reflexivity].
    destruct Heq as [Hd Hseq].
    apply (string_app_inj "-" "-") in Hseq; [|reflexivity].
    destruct Hseq as [_ Hseq].
    apply zero_pad_inj in Hseq.
    destruct (strftime_Ymd_inj _ _ Hv1 Hv2 Hd) as (Hy & Hm & Hdd).
    repeat split; auto. lia.
  - intros (Hy & Hm & Hd & Hc). unfold strftime_Ymd.
    rewrite Hy, Hm, Hd, Hc. reflexivity.
Qed.

(** X22. Order numbers are counted per organization but must be unique over
    all orders. So once [create_order] has stored an order for one
    organization, [create_order] for another organization that has the same
    number of orders, on the same calendar day and with an unused id, builds
    the same number; its flush fails with IntegrityError and no row is
    stored for it. (The first call raises too, but after its row is stored:
    in the reload of [OrderRepository.add].) *)
Theorem order_number_clash_between_organizations now1 now2 id1 id2 orgA orgB
    nameA emailA byA nameB emailB byB zero s :
  orders s !! id1 = None ->
  (forall k o, orders s !! k = Some o ->
     Order.order_number o <> next_order_number now1 orgA s) ->
  orders s !! id2 = None -> id2 <> id1 -> orgA <> orgB ->
  OrderRepository.count_orders orgA (orders s) =
  OrderRepository.count_orders orgB (orders s) ->
  dt_year now1 = dt_year now2 -> dt_month now1 = dt_month now2 ->
  dt_day now1 = dt_day now2 ->
  db_string 50 (next_order_number now1 orgA s) = true ->
  db_string 255 nameA = true ->
  from_option (db_string 255) true emailA = true ->
  db_string 255 nameB = true ->
  from_option (db_string 255) true emailB = true ->
  db_numeric 10 2 (dec_of_int 0) = Some zero ->
  let r1 := OrderService.create_order now1 id1 orgA nameA emailA byA s in
  let r2 := OrderService.create_order now2 id2 orgB nameB emailB byB (snd r1) in
  fst r1 = Raise MissingGreenlet /\
  (exists row, orders (snd r1) !! id1 = Some row /\
     Order.order_number row = next_order_number now1 orgA s /\
     Order.organization_id row = orgA) /\
  next_order_number now2 orgB (snd r1) = next_order_number now1 orgA s /\
  fst r2 = Raise IntegrityError /\
  orders (snd r2) !! id2 = None.
Proof.
  intros Hf1 Hfree Hf2 Hid Horg Hcount Hy Hm Hd HnumA HnameA HmailA HnameB HmailB
    Hzero r1 r2.
  set (rowA := Order.mk id1 (next_order_number now1 orgA s) orgA nameA emailA []
                 DRAFT zero zero None byA now1 None None None).
  assert (Hr1 : r1 = (Raise MissingGreenlet,
                      set_orders (<[id1 := rowA]> (orders s)) s)).
  { subst r1. rewrite create_order_run, order_add_run.
    unfold order_row. simpl. rewrite HnumA, HnameA, HmailA, Hzero. simpl.
    rewrite Hf1.
    rewrite bool_decide_eq_false_2 by (intros [? ?]; discriminate).
    rewrite order_number_free by exact Hfree. reflexivity. }
  subst r2. rewrite Hr1. clear Hr1 r1. simpl fst. simpl snd.
  set (s1 := set_orders (<[id1 := rowA]> (orders s)) s).
  assert (Hnum : next_order_number now2 orgB s1 = next_order_number now1 orgA s).
  { unfold next_order_number, strftime_Ymd. simpl orders.
    rewrite count_orders_insert_fresh by exact Hf1. simpl.
    rewrite decide_False by exact Horg. rewrite Hy, Hm, Hd, Hcount. reflexivity. }
  assert (Htaken : OrderRepository.order_number_taken
                     (next_order_number now1 orgA s) (orders s1) = true).
  { unfold OrderRepository.order_number_taken. apply bool_decide_eq_true.
    exists id1, rowA. split; [apply lookup_insert_eq | reflexivity]. }
  assert (Hl2 : orders s1 !! id2 = None)
    by (simpl; rewrite lookup_insert_ne by congruence; exact Hf2).
  split; [reflexivity|].
  split; [exists rowA; split; [apply lookup_insert_eq | split; reflexivity]|].
  split; [exact Hnum|].
  rewrite create_order_run, order_add_run.
  unfold order_row. simpl Order.order_number. simpl Order.customer_name.
  simpl Order.customer_email. simpl Order.items. simpl Order.shipping_cost.
  simpl Order.handling_fee. simpl Order.id.
  rewrite Hnum, HnumA, HnameB, HmailB, Hzero. simpl.
  change (orders s1) with (<[id1 := rowA]> (orders s)) in Hl2, Htaken.
  rewrite Hl2.
  rewrite bool_decide_eq_false_2 by (intros [? ?]; discriminate).
  rewrite Htaken. split; [reflexivity | exact Hl2].
Qed.

End SessionFacts.

(** ** The further properties on concrete inputs *)

Lemma receive_stock_spec_witness :
  0 <= InventoryItem.quantity_on_hand widget /\
  (0 < 25 ->
   InventoryItem.quantity_on_hand
     (snd (InventoryItem.receive_stock t1 25 (Some "PO-123") widget)) =
   InventoryItem.quantity_on_hand widget + 25).
Proof.
  assert (Hh : 0 <= InventoryItem.quantity_on_hand widget) by (simpl; lia).
  split; [exact Hh|]. intros Hq.
  exact (proj1 (proj2 (proj2 (receive_stock_spec widget t1 25 (Some "PO-123") Hh) Hq))).
Defined.

Lemma adjust_stock_spec_witness :
  InventoryItem.quantity_on_hand widget + (-12) < 0 /\
  InventoryItem.adjust_stock t1 (-12) "damaged" DAMAGE widget
    = (Raise NegativeStock, widget).
Proof.
  assert (Hn : InventoryItem.quantity_on_hand widget + (-12) < 0) by (simpl; lia).
  split; [exact Hn|].
  exact (proj1 (adjust_stock_spec widget t1 (-12) "damaged" DAMAGE) Hn).
Defined.

Lemma stock_call_all_or_nothing_witness :
  0 <= InventoryItem.quantity_on_hand widget /\
  is_ok (fst (run_stock_call (CallSell t1 20 None) widget)) = false /\
  snd (run_stock_call (CallSell t1 20 None) widget) = widget.
Proof.
  assert (Hh : 0 <= InventoryItem.quantity_on_hand widget) by (simpl; lia).
  assert (Hf : is_ok (fst (run_stock_call (CallSell t1 20 None) widget)) = false)
    by reflexivity.
  split; [exact Hh|]. split; [exact Hf|].
  exact (stock_call_all_or_nothing (CallSell t1 20 None) widget Hh Hf).
Defined.

Lemma reservation_within_stock_witness :
  let cs := [CallReserve t1 4 None; CallSell t1 3 None; CallRelease t1 9;
             CallAdjust t1 2 "recount" ADJUSTMENT; CallReserve t1 50 None] in
  Forall not_negative_adjust cs /\
  0 <= InventoryItem.quantity_reserved widget <= InventoryItem.quantity_on_hand widget /\
  0 <= InventoryItem.quantity_reserved (after_stock_calls cs widget)
    <= InventoryItem.quantity_on_hand (after_stock_calls cs widget).
Proof.
  intros cs.
  assert (Hcs : Forall not_negative_adjust cs)
    by (repeat constructor; simpl; lia).
  assert (Hw : 0 <= InventoryItem.quantity_reserved widget
               <= InventoryItem.quantity_on_hand widget) by (simpl; lia).
  split; [exact Hcs|]. split; [exact Hw|].
  exact (proj1 (reservation_within_stock cs widget Hcs Hw)).
Defined.

Lemma reserve_then_sell_witness :
  0 <= InventoryItem.quantity_reserved widget /\
  fst (InventoryItem.reserve_stock t0 5 None widget) = Ok tt /\
  InventoryItem.quantity_reserved
    (snd (InventoryItem.sell_stock t1 5 None
            (snd (InventoryItem.reserve_stock t0 5 None widget)))) =
  InventoryItem.quantity_reserved widget.
Proof.
  assert (Hr : 0 <= InventoryItem.quantity_reserved widget) by (simpl; lia).
  assert (Hok : fst (InventoryItem.reserve_stock t0 5 None widget) = Ok tt)
    by reflexivity.
  split; [exact Hr|]. split; [exact Hok|].
  exact (proj1 (proj2 (proj2 (proj2
           (reserve_then_sell widget t0 t1 5 None None Hr Hok))))).
Defined.

Lemma low_stock_items_need_reorder_witness :
  snd (get_low_stock_items "org1" shop) = shop.
Proof. exact (proj1 (low_stock_items_need_reorder "org1" shop)). Defined.

Lemma add_item_spec_witness :
  can_modify (Order.status draft1) = true /\
  Order.item_count (snd (Order.add_item t1 line1 draft1)) =
  Order.item_count draft1 + OrderItem.quantity line1.
Proof.
  assert (Hm : can_modify (Order.status draft1) = true) by reflexivity.
  split; [exact Hm|].
  exact (proj1 (proj2 (proj2 (proj2 (proj2 (add_item_spec draft1 t1 line1) Hm))))).
Defined.

Lemma remove_item_spec_witness :
  can_modify (Order.status draft_with_line) = true /\
  Exists (fun i => OrderItem.id i = "i1") (Order.items draft_with_line) /\
  fst (Order.remove_item t1 "i1" draft_with_line) = Ok tt.
Proof.
  assert (Hm : can_modify (Order.status draft_with_line) = true) by reflexivity.
  assert (Hex : Exists (fun i : OrderItem.t Qc => OrderItem.id i = "i1")
                  (Order.items draft_with_line))
    by (constructor; reflexivity).
  split; [exact Hm|]. split; [exact Hex|].
  exact (proj1 (proj2 (proj2 (remove_item_spec draft_with_line t1 "i1")) Hm Hex)).
Defined.

Lemma add_then_remove_item_witness :
  can_modify (Order.status draft1) = true /\
  Forall (fun i => OrderItem.id i <> OrderItem.id line1) (Order.items draft1) /\
  Order.items (snd (Order.remove_item t1 (OrderItem.id line1)
                      (snd (Order.add_item t0 line1 draft1)))) =
  Order.items draft1.
Proof.
  assert (Hm : can_modify (Order.status draft1) = true) by reflexivity.
  assert (Hall : Forall (fun i : OrderItem.t Qc => OrderItem.id i <> OrderItem.id line1)
                   (Order.items draft1)) by constructor.
  split; [exact Hm|]. split; [exact Hall|].
  exact (proj1 (proj2 (add_then_remove_item draft1 t0 t1 line1 Hm Hall))).
Defined.

Lemma order_history_consistent_witness :
  fresh_order draft1 /\
  order_consistent (after_order_ops day_of_order_ops draft1).
Proof.
  assert (Hf : fresh_order draft1) by (repeat split).
  split; [exact Hf|].
  exact (proj1 (order_history_consistent day_of_order_ops draft1 Hf)).
Defined.

Lemma order_frozen_witness :
  can_modify (Order.status confirmed3) = false /\
  Order.items (after_order_ops day_of_order_ops confirmed3) = Order.items confirmed3.
Proof.
  assert (Hm : can_modify (Order.status confirmed3) = false) by reflexivity.
  split; [exact Hm|].
  exact (proj1 (order_frozen day_of_order_ops confirmed3 Hm)).
Defined.

Lemma shop_inventory_keyed : inventory_keyed shop.
Proof.
  intros k item Hk. simpl in Hk.
  apply lookup_singleton_Some in Hk. destruct Hk as [<- <-]. reflexivity.
Defined.

Lemma stock_ledger_balanced_witness :
  inventory_keyed shop /\
  inventory_keyed (after_service_calls day_of_calls shop).
Proof.
  split; [exact shop_inventory_keyed|].
  exact (proj1 (stock_ledger_balanced day_of_calls shop shop_inventory_keyed)).
Defined.

Lemma service_keeps_reservations_within_stock_witness :
  Forall not_negative_adjustment day_of_calls /\
  reservations_within_stock shop /\
  reservations_within_stock (after_service_calls day_of_calls shop).
Proof.
  assert (Hcs : Forall not_negative_adjustment day_of_calls)
    by (repeat constructor; simpl; lia).
  assert (Hw : reservations_within_stock shop).
  { intros k item Hk. simpl in Hk.
    apply lookup_singleton_Some in Hk. destruct Hk as [_ <-]. simpl. lia. }
  split; [exact Hcs|]. split; [exact Hw|].
  exact (service_keeps_reservations_within_stock day_of_calls shop Hcs Hw).
Defined.

Lemma add_item_to_order_checks_before_writes_witness :
  orders shop1 !! "o1" = Some draft1 /\
  inventory_items shop1 !! "p1" = Some widget /\
  order_row draft1 = Some draft1 /\
  can_modify (Order.status draft1) = true /\
  1 <= 3 <= InventoryItem.quantity_available widget /\
  let line := OrderItem.mk "i1" "p1" "Widget" "SKU-001" 3 (Q2Qc (1999 # 100))
                (Q2Qc 0) (Q2Qc 0) None in
  OrderService.add_item_to_order t1 "i1" "o1" "p1" 3 None (Q2Qc 0) shop1
  = (Raise MissingGreenlet,
     mk_Session
       (<[ "o1" := Order.set_updated_at t1 (Order.set_items [line] draft1) ]>
          (orders shop1))
       (<[ "p1" := InventoryItem.set_updated_at t1
                     (InventoryItem.set_quantity_reserved 3 widget) ]>
          (inventory_items shop1))
       []).
Proof.
  assert (Ho : orders shop1 !! "o1" = Some draft1) by reflexivity.
  assert (Hi : inventory_items shop1 !! "p1" = Some widget) by reflexivity.
  assert (Hrow : order_row draft1 = Some draft1) by reflexivity.
  assert (Hm : can_modify (Order.status draft1) = true) by reflexivity.
  assert (Hq : 1 <= 3 <= InventoryItem.quantity_available widget)
    by (vm_compute; split; discriminate).
  repeat (split; [assumption|]).
  intros line.
  assert (Hc : OrderItem.constraints_ok 3
                 (OrderService.dec_or None (InventoryItem.selling_price widget))
                 (Q2Qc 0) (dec_of_int 0) = true)
    by (vm_compute; reflexivity).
  assert (Hline : order_item_row
                    (OrderItem.mk "i1" (InventoryItem.id widget)
                       (InventoryItem.name widget) (InventoryItem.sku widget) 3
                       (OrderService.dec_or None (InventoryItem.selling_price widget))
                       (Q2Qc 0) (dec_of_int 0) None) = Some line)
    by (vm_compute; reflexivity).
  exact (proj2 (proj2 (add_item_to_order_checks_before_writes t1 "i1" "o1" "p1" 3
                         None (Q2Qc 0) shop1))
           draft1 widget line Ho Hi Hrow Hm Hq Hc Hline).
Defined.

Lemma submit_confirm_order_spec_witness :
  orders shop2 !! "o1" = Some draft_with_line /\
  Order.status draft_with_line = DRAFT /\
  Order.items draft_with_line <> [] /\
  order_row draft_with_line = Some draft_with_line /\
  exists o',
    OrderService.submit_order t1 "o1" shop2
    = (Raise MissingGreenlet,
       set_orders (<[Order.id draft_with_line := o']> (orders shop2)) shop2) /\
    Order.status o' = PENDING /\
    Order.items o' = Order.items draft_with_line /\
    Order.id o' = Order.id draft_with_line.
Proof.
  assert (Ho : orders shop2 !! "o1" = Some draft_with_line) by reflexivity.
  assert (Hs : Order.status draft_with_line = DRAFT) by reflexivity.
  assert (Hi : Order.items draft_with_line <> []) by discriminate.
  assert (Hrow : order_row draft_with_line = Some draft_with_line) by reflexivity.
  repeat (split; [assumption|]).
  exact (proj1 (proj2 (proj2 (proj2 (submit_confirm_order_spec t1 "o1" shop2)
                                draft_with_line Ho)))
           Hs Hi Hrow).
Defined.

Lemma add_then_cancel_restores_stock_witness :
  orders shop1 !! "o1" = Some draft1 /\
  inventory_items shop1 !! "p1" = Some widget /\
  let r1 := OrderService.add_item_to_order t0 "i1" "o1" "p1" 3 None (Q2Qc 0) shop1 in
  let r := OrderService.cancel_order t1 "o1" None (snd r1) in
  fst r1 = Raise MissingGreenlet /\
  reserved_at (snd r1) "p1" = 3 /\
  reserved_at (snd r) "p1" = 0 /\
  on_hand_at (snd r) "p1" = 10 /\
  fst r = Raise MissingGreenlet /\
  (Order.status <$> orders (snd r) !! "o1") = Some CANCELLED.
Proof.
  assert (Ho : orders shop1 !! "o1" = Some draft1) by reflexivity.
  assert (Hi : inventory_items shop1 !! "p1" = Some widget) by reflexivity.
  split; [exact Ho|]. split; [exact Hi|]. intros r1 r.
  assert (Hrow : order_row draft1 = Some draft1) by reflexivity.
  assert (Hr : 0 <= InventoryItem.quantity_reserved widget) by (simpl; lia).
  assert (Hq : 1 <= 3 <= InventoryItem.quantity_available widget)
    by (vm_compute; split; discriminate).
  assert (Hc : OrderItem.constraints_ok 3
                 (OrderService.dec_or None (InventoryItem.selling_price widget))
                 (Q2Qc 0) (dec_of_int 0) = true)
    by (vm_compute; reflexivity).
  pose (line := OrderItem.mk "i1" "p1" "Widget" "SKU-001" 3 (Q2Qc (1999 # 100))
                  (Q2Qc 0) (Q2Qc 0) None).
  assert (Hline : order_item_row
                    (OrderItem.mk "i1" (InventoryItem.id widget)
                       (InventoryItem.name widget) (InventoryItem.sku widget) 3
                       (OrderService.dec_or None (InventoryItem.selling_price widget))
                       (Q2Qc 0) (dec_of_int 0) None) = Some line)
    by (vm_compute; reflexivity).
  assert (Hidem : order_item_row line = Some line) by (vm_compute; reflexivity).
  destruct (add_then_cancel_restores_stock t0 t1 "i1" "o1" "p1" 3 None (Q2Qc 0)
              None shop1 draft1 widget line Ho eq_refl eq_refl Hrow eq_refl Hi
              eq_refl Hr Hq Hc Hline)
    as (H1 & H2 & _ & H4 & H5 & _ & H7).
  destruct (H7 Hidem) as (H8 & o' & Hl & Hst & _).
  split; [exact H1|]. split; [exact H2|]. split; [exact H4|]. split; [exact H5|].
  split; [exact H8|].
  exact (eq_trans (f_equal (fmap Order.status) Hl) (f_equal Some Hst)).
Defined.

Lemma ship_order_single_line_witness :
  orders shop4 !! "o4" = Some confirmed4 /\
  order_row confirmed4 = Some confirmed4 /\
  Order.items confirmed4 = [line1] /\
  OrderItem.quantity line1 <= InventoryItem.quantity_on_hand widget /\
  let r := OrderService.ship_order t1 "o4" None shop4 in
  fst r = Raise MissingGreenlet /\
  on_hand_at (snd r) "p1" = 8 /\
  stock_movements (snd r) = [StockMovement.mk "p1" SALE (-2) 8 (Some "o4")].
Proof.
  assert (Ho : orders shop4 !! "o4" = Some confirmed4) by reflexivity.
  assert (Hrow : order_row confirmed4 = Some confirmed4) by reflexivity.
  assert (Hq : OrderItem.quantity line1 <= InventoryItem.quantity_on_hand widget)
    by (simpl; lia).
  split; [exact Ho|]. split; [exact Hrow|]. split; [reflexivity|].
  split; [exact Hq|]. intros r.
  assert (Hr : 0 <= InventoryItem.quantity_reserved widget) by (simpl; lia).
  assert (H1 : 1 <= OrderItem.quantity line1) by (simpl; lia).
  destruct (proj1 (ship_order_single_line t1 "o4" None shop4 confirmed4 line1 widget
                     Ho eq_refl Hrow (or_introl eq_refl) eq_refl eq_refl eq_refl
                     Hr H1) Hq)
    as (Hf & _ & Hoh & _ & Hmv).
  split; [exact Hf|]. split; [exact Hoh | exact Hmv].
Defined.

Lemma stock_routes_spec_witness :
  inventory_items shop !! "p1" = Some widget /\
  0 <= InventoryItem.quantity_on_hand widget + 2 ^ 31 /\
  stock_movement_fits
    (StockMovement.mk "p1" ADJUSTMENT (2 ^ 31) (10 + 2 ^ 31) (Some "recount")) = false /\
  stock_movement_fits (StockMovement.mk "p1" PURCHASE 4 14 (Some "PO-7")) = true /\
  InventoryRoutes.adjust_stock t1 "p1" (2 ^ 31) "recount" shop
    = (Http500 DatabaseError, shop) /\
  exists inv',
    fst (InventoryRoutes.receive_stock t1 "p1" 4 (Some "PO-7") shop) = Http200 inv' /\
    InventoryItem.quantity_on_hand inv' = 14 /\
    stock_movements (snd (InventoryRoutes.receive_stock t1 "p1" 4 (Some "PO-7") shop))
      = [StockMovement.mk "p1" PURCHASE 4 14 (Some "PO-7")].
Proof.
  assert (Hi : inventory_items shop !! "p1" = Some widget) by reflexivity.
  assert (Hn : 0 <= InventoryItem.quantity_on_hand widget + 2 ^ 31) by (simpl; lia).
  assert (Hbig : stock_movement_fits
                   (StockMovement.mk "p1" ADJUSTMENT (2 ^ 31) (10 + 2 ^ 31)
                      (Some "recount")) = false) by reflexivity.
  assert (Hfit : stock_movement_fits
                   (StockMovement.mk "p1" PURCHASE 4 14 (Some "PO-7")) = true)
    by reflexivity.
  repeat (split; [assumption|]).
  split.
  - exact (proj1 (proj2 (proj2 (proj2 (stock_routes_spec t1 "p1" (2 ^ 31) "recount"
                                         None shop)) widget Hi)) Hn Hbig).
  - destruct (proj2 (proj2 (proj2 (proj2 (proj2
                (proj2 (proj2 (stock_routes_spec t1 "p1" 4 "" (Some "PO-7") shop))
                   widget Hi))))) ltac:(lia) ltac:(simpl; lia) Hfit)
      as (inv' & Hr & Hoh & _ & _ & Hmv & _).
    exists inv'. split; [exact Hr|]. split; [exact Hoh | exact Hmv].
Defined.

Lemma order_number_determines_day_and_count_witness :
  valid_date t0 /\ valid_date t1 /\
  fst (OrderRepository.generate_order_number t0 "org1" shop) =
  fst (OrderRepository.generate_order_number t1 "org2" shop).
Proof.
  assert (Hv0 : valid_date t0) by (unfold valid_date; simpl; lia).
  assert (Hv1 : valid_date t1) by (unfold valid_date; simpl; lia).
  split; [exact Hv0|]. split; [exact Hv1|].
  apply (proj2 (order_number_determines_day_and_count t0 t1 "org1" "org2" shop shop
                  Hv0 Hv1)).
  repeat split.
Defined.

Lemma order_number_clash_between_organizations_witness :
  orders shop !! "o1" = None /\ orders shop !! "o2" = None /\
  let r1 := OrderService.create_order t0 "o1" "org1" "Ann" None None shop in
  let r2 := OrderService.create_order t1 "o2" "org2" "Bob" None None (snd r1) in
  fst r1 = Raise MissingGreenlet /\
  (Order.order_number <$> orders (snd r1) !! "o1") = Some "ORD-20261103-00001" /\
  next_order_number t1 "org2" (snd r1) = "ORD-20261103-00001" /\
  fst r2 = Raise IntegrityError /\
  orders (snd r2) !! "o2" = None.
Proof.
  assert (H1 : orders shop !! "o1" = None) by reflexivity.
  assert (H2 : orders shop !! "o2" = None) by reflexivity.
  split; [exact H1|]. split; [exact H2|]. intros r1 r2.
  assert (Hfree : forall k (o : Order.t Qc), orders shop !! k = Some o ->
            Order.order_number o <> next_order_number t0 "org1" shop).
  { intros k o Hk. simpl in Hk. rewrite lookup_empty in Hk. discriminate Hk. }
  assert (Hnum : db_string 50 (next_order_number t0 "org1" shop) = true)
    by (vm_compute; reflexivity).
  assert (Hzero : db_numeric 10 2 (dec_of_int 0) = Some (Q2Qc 0))
    by (vm_compute; reflexivity).
  destruct (order_number_clash_between_organizations t0 t1 "o1" "o2"
              "org1" "org2" "Ann" None None "Bob" None None (Q2Qc 0) shop
              H1 Hfree H2 ltac:(discriminate) ltac:(discriminate)
              eq_refl eq_refl eq_refl eq_refl Hnum eq_refl eq_refl eq_refl eq_refl
              Hzero)
    as (Hr1 & _ & Hn & Hr2 & Hl).
  split; [exact Hr1|]. split; [reflexivity|]. split; [vm_compute; reflexivity|].
  split; [exact Hr2 | exact Hl].
Defined.
